(** * LTV impact simulator: the projection core of olist_simulator

    A shallow embedding of the two projection scripts of the repository,

    - [ltv_impact_simulator_v4.py]: the survival-compounding model
      ([simulate_archetype_ltv], [calculate_total_ltv]) and what the page
      script computes from it ([run_page], with the efficiency ranking
      [efficiency_data]);
    - [streamlit_app.py]: the annual growth/retention model
      ([calculate_ltv_impact]) and what [main] computes from it (with the
      best-year lookup [max_year_idx]).  The calls that render widgets and
      charts are not part of the embedding.

    Numbers.  Python [int]s are [Z].  Python [float]s are idealised as exact
    rationals [Q]: every decimal literal of the source is the rational it
    denotes, [+], [-], [*], [/] and [**] are exact, and an [int] meeting a
    [float] is injected with [inject_Z].  Rounding and NaN are outside this
    model.  Equality of computed numbers is [Qeq] ([==]).

    Overflow.  In the modules [Survival] and [Annual] a float has no upper
    limit, so no operation on numbers fails there.  The source can fail in
    two operations on numbers: the conversion of an [int] that is too large
    for a float, and a power that is out of the range of floats; both raise
    [OverflowError].  The modules [SurvivalOverflow] and [AnnualOverflow]
    give the projection functions again with these two failures, and agree
    with [Survival] and [Annual] wherever neither occurs.

    Failures.  A Python exception is a value of [exn]; code that can raise
    returns a [result].

    Dictionaries.  A [dict] keeps insertion order, which the summation order
    and the ranking depend on, so it is an association list; [dict_set] is
    the assignment [d[k] = v] (update in place, or append a new key).

    The module-level tables [ARCHETYPE_PARAMS] and [ARCHETYPE_DATA] are
    read-only globals in the source.  The functions below take the table as
    their first argument, so that properties can be stated for every profile;
    the program is the instance at the constant of the same name. *)

From Stdlib Require Import List ZArith QArith Qabs Qpower String Bool Lia Lqa.
From Stdlib Require Import Permutation Sorted.
Import ListNotations.

Open Scope Q_scope.

(** ** Python values and control *)

Module Py.

Inductive exn : Type :=
| KeyError (key : string)
| IndexError
| ZeroDivisionError
| ValueError
| OverflowError.

Inductive result (A : Type) : Type :=
| Ok (a : A)
| Raise (e : exn).
Arguments Ok {A} a.
Arguments Raise {A} e.

Definition bind {A B : Type} (r : result A) (k : A -> result B) : result B :=
  match r with
  | Ok a => k a
  | Raise e => Raise e
  end.

Definition is_ok {A : Type} (r : result A) : bool :=
  match r with
  | Ok _ => true
  | Raise _ => false
  end.

(** [for x in xs: body], threading the variables the body assigns. *)
Fixpoint for_each {S A : Type} (xs : list A) (body : S -> A -> result S)
         (s : S) : result S :=
  match xs with
  | [] => Ok s
  | x :: xs' => bind (body s x) (for_each xs' body)
  end.

(** [[f(x) for x in xs]] where [f] may raise. *)
Fixpoint comprehension {A B : Type} (f : A -> result B) (xs : list A)
  : result (list B) :=
  match xs with
  | [] => Ok []
  | x :: xs' =>
      bind (f x) (fun y => bind (comprehension f xs') (fun ys => Ok (y :: ys)))
  end.

(** [range(lo, hi)] *)
Definition range (lo hi : Z) : list Z :=
  map (fun i => (lo + Z.of_nat i)%Z) (seq 0 (Z.to_nat (hi - lo))).

(** [sum(xs)]: starts from 0 and adds left to right. *)
Definition sum (xs : list Q) : Q := fold_left Qplus xs 0.

(** [[x] * n]; a negative [n] gives the empty list. *)
Definition list_repeat {A : Type} (x : A) (n : Z) : list A :=
  repeat x (Z.to_nat n).

(** [xs[i]]; a negative index counts from the end. *)
Definition getitem {A : Type} (xs : list A) (i : Z) : result A :=
  let n := Z.of_nat (List.length xs) in
  let j := if (i <? 0)%Z then (i + n)%Z else i in
  if ((j <? 0) || (n <=? j))%Z then Raise IndexError
  else match nth_error xs (Z.to_nat j) with
       | Some x => Ok x
       | None => Raise IndexError
       end.

Fixpoint replace_nth {A : Type} (xs : list A) (n : nat) (v : A) : list A :=
  match xs, n with
  | [], _ => []
  | _ :: xs', O => v :: xs'
  | x :: xs', S n' => x :: replace_nth xs' n' v
  end.

(** [xs[i] = v] *)
Definition setitem {A : Type} (xs : list A) (i : Z) (v : A)
  : result (list A) :=
  let n := Z.of_nat (List.length xs) in
  let j := if (i <? 0)%Z then (i + n)%Z else i in
  if ((j <? 0) || (n <=? j))%Z then Raise IndexError
  else Ok (replace_nth xs (Z.to_nat j) v).

(** [x / y] on floats *)
Definition truediv (x y : Q) : result Q :=
  if Qeq_bool y 0 then Raise ZeroDivisionError else Ok (x / y).

(** *** The range of floats

    A binary64 float is finite below 2^1024, and a number of magnitude
    2^1024 - 2^970 or more rounds to infinity.  Float arithmetic passes
    infinities on in silence, with two exceptions: an [int] operand that
    would round to infinity cannot be converted ([OverflowError: int too
    large to convert to float]), and [**] raises [OverflowError] when its
    result is out of range. *)
Definition float_limit : Z := (2 ^ 1024 - 2 ^ 970)%Z.

(** An [int] or a [float], for a variable that holds either. *)
Inductive number : Type :=
| Int (n : Z)
| Float (x : Q).

(** The conversion of an [int] operand that meets a [float]. *)
Definition float_of_int (n : Z) : result Q :=
  if (Z.abs n <? float_limit)%Z then Ok (inject_Z n)
  else Raise OverflowError.

Definition to_float (v : number) : result Q :=
  match v with
  | Int n => float_of_int n
  | Float x => Ok x
  end.

(** [x * v] for a float [x] *)
Definition float_mul (x : Q) (v : number) : result Q :=
  bind (to_float v) (fun y => Ok (x * y)).

(** [v * x] for a float [x] *)
Definition mul_float (v : number) (x : Q) : result Q :=
  bind (to_float v) (fun y => Ok (y * x)).

(** [x ** y] for a float [x] and an [int] [y]; the range is tested on the
    exact power. *)
Definition float_pow (x : Q) (y : Z) : result Q :=
  if (y <? 0)%Z && Qeq_bool x 0 then Raise ZeroDivisionError
  else if Qle_bool (inject_Z float_limit) (Qabs (x ^ y))
       then Raise OverflowError
       else Ok (x ^ y).

(** [x > y] on floats *)
Definition float_gt (x y : Q) : bool := negb (Qle_bool x y).

(** [sum(xs)] on ints *)
Definition sum_int (xs : list Z) : Z := fold_left Z.add xs 0%Z.

(** [enumerate(xs)] *)
Definition enumerate {A : Type} (xs : list A) : list (Z * A) :=
  combine (map Z.of_nat (seq 0 (List.length xs))) xs.

(** *** Dictionaries with string keys *)

Definition dict (V : Type) : Type := list (string * V).

Definition items {V : Type} (d : dict V) : list (string * V) := d.
Definition keys {V : Type} (d : dict V) : list string := map fst d.
Definition values {V : Type} (d : dict V) : list V := map snd d.

Fixpoint lookup {V : Type} (d : dict V) (k : string) : option V :=
  match d with
  | [] => None
  | (k', v) :: d' => if String.eqb k' k then Some v else lookup d' k
  end.

(** [d[k]] *)
Definition dict_get {V : Type} (d : dict V) (k : string) : result V :=
  match lookup d k with
  | Some v => Ok v
  | None => Raise (KeyError k)
  end.

(** [d[k] = v] *)
Fixpoint dict_set {V : Type} (d : dict V) (k : string) (v : V) : dict V :=
  match d with
  | [] => [(k, v)]
  | (k', v') :: d' =>
      if String.eqb k' k then (k', v) :: d' else (k', v') :: dict_set d' k v
  end.

(** [max(xs)]: the first of the greatest items; the running maximum is
    replaced only by a strictly greater item. *)
Definition greater (m y : Q) : Q :=
  match m ?= y with Lt => y | _ => m end.

Definition max (xs : list Q) : result Q :=
  match xs with
  | [] => Raise ValueError
  | x :: xs' => Ok (fold_left greater xs' x)
  end.

(** [xs.index(v)]: the position of the first item equal to [v]. *)
Fixpoint index (xs : list Q) (v : Q) : result Z :=
  match xs with
  | [] => Raise ValueError
  | x :: xs' =>
      if Qeq_bool x v then Ok 0%Z
      else bind (index xs' v) (fun i => Ok (i + 1)%Z)
  end.

(** [xs.sort(key=key, reverse=True)]: the stable sort by decreasing key.
    Items whose keys compare equal keep their order, so the result does not
    depend on the sorting algorithm; it is computed here by insertion. *)
Fixpoint insert_reverse {A : Type} (key : A -> Q) (x : A) (xs : list A)
  : list A :=
  match xs with
  | [] => [x]
  | y :: xs' =>
      if Qle_bool (key y) (key x) then x :: y :: xs'
      else y :: insert_reverse key x xs'
  end.

Definition sort_reverse {A : Type} (key : A -> Q) (xs : list A) : list A :=
  fold_right (insert_reverse key) [] xs.

End Py.

Import Py.

Notation "x <- e ;; k" := (bind e (fun x => k))
  (at level 61, e at next level, right associativity).
Notation "' p <- e ;; k" := (bind e (fun p => k))
  (at level 61, p pattern, e at next level, right associativity).

(** ** ltv_impact_simulator_v4.py: the survival-compounding model *)

Module Survival.

Record archetype_params : Type := {
  initial_monthly_revenue : Q;
  monthly_growth_rate : Q;
  monthly_churn_rate : Q;
  subscription_fee : Q;
  color : string;
  description : string
}.

Definition ARCHETYPE_PARAMS : dict archetype_params := [
  ("Born Successful"%string,
   {| initial_monthly_revenue := 2029.95;
      monthly_growth_rate := 0.05;
      monthly_churn_rate := 0.0704;
      subscription_fee := 52.28;
      color := "#2E86AB";
      description := "🏆 타고난 성공형" |});
  ("Grown Successful"%string,
   {| initial_monthly_revenue := 257.42;
      monthly_growth_rate := 0.05;
      monthly_churn_rate := 0.15;
      subscription_fee := 49.0;
      color := "#A23B72";
      description := "📈 성장한 성공형" |});
  ("Struggling"%string,
   {| initial_monthly_revenue := 576.49;
      monthly_growth_rate := 0.05;
      monthly_churn_rate := 0.15;
      subscription_fee := 49.23;
      color := "#F18F01";
      description := "⚠️ 고군분투형" |});
  ("Failed"%string,
   {| initial_monthly_revenue := 405.39;
      monthly_growth_rate := 0.05;
      monthly_churn_rate := 0.15;
      subscription_fee := 49.30;
      color := "#C73E1D";
      description := "❌ 실패형" |})
].

(** The variables the month loop of [simulate_archetype_ltv] assigns. *)
Record month_state : Type := {
  single_seller_ltv : list Q;
  survival_probability : Q;
  cumulative_ltv : Q
}.

Definition month_init : month_state :=
  {| single_seller_ltv := [];
     survival_probability := 1.0;
     cumulative_ltv := 0.0 |}.

(** One turn of [for month in range(1, months + 1)]. *)
Definition month_body (params : archetype_params) (st : month_state)
           (month : Z) : month_state :=
  let survival_probability' :=
    survival_probability st * (1 - monthly_churn_rate params) in
  let monthly_subscription :=
    subscription_fee params * survival_probability' in
  let cumulative_ltv' := cumulative_ltv st + monthly_subscription in
  {| single_seller_ltv :=
       if (month mod 12 =? 0)%Z
       then single_seller_ltv st ++ [cumulative_ltv']
       else single_seller_ltv st;
     survival_probability := survival_probability';
     cumulative_ltv := cumulative_ltv' |}.

Definition simulate_archetype_ltv (profiles : dict archetype_params)
           (archetype : string) (seller_count : Z) (months : Z)
  : result (list Q) :=
  if (seller_count =? 0)%Z then Ok (list_repeat 0 (months / 12)%Z)
  else
    params <- dict_get profiles archetype ;;
    let st :=
      fold_left (month_body params) (range 1 (months + 1)) month_init in
    Ok (map (fun ltv => ltv * inject_Z seller_count) (single_seller_ltv st)).

(** [for i in range(5): total_ltv_by_year[i] += archetype_ltv[i]] *)
Definition add_years (total_ltv_by_year archetype_ltv : list Q)
  : result (list Q) :=
  for_each (range 0 5)
    (fun total i =>
       t <- getitem total i ;;
       a <- getitem archetype_ltv i ;;
       setitem total i (t + a))
    total_ltv_by_year.

(** One turn of [for archetype, count in seller_counts.items()]. *)
Definition total_body (profiles : dict archetype_params)
           (st : list Q * dict Q) (item : string * Z)
  : result (list Q * dict Q) :=
  let '(total_ltv_by_year, archetype_contributions) := st in
  let '(archetype, count) := item in
  archetype_ltv <- simulate_archetype_ltv profiles archetype count 60 ;;
  last_year <- getitem archetype_ltv (-1) ;;
  let archetype_contributions' :=
    dict_set archetype_contributions archetype last_year in
  total_ltv_by_year' <- add_years total_ltv_by_year archetype_ltv ;;
  Ok (total_ltv_by_year', archetype_contributions').

Definition calculate_total_ltv (profiles : dict archetype_params)
           (seller_counts : dict Z) : result (list Q * dict Q) :=
  let total_ltv_by_year : list Q := list_repeat 0 5 in
  let archetype_contributions : dict Q := [] in
  for_each (items seller_counts) (total_body profiles)
           (total_ltv_by_year, archetype_contributions).

(** The ranking of the page script (lines 349-357): the loop that fills
    [efficiency_data], then the sort guarded by [if efficiency_data:]. *)
Definition efficiency_body (seller_counts : dict Z)
           (efficiency_data : list (string * Q)) (item : string * Q)
  : result (list (string * Q)) :=
  let '(archetype, contribution) := item in
  count <- dict_get seller_counts archetype ;;
  if (count >? 0)%Z then
    efficiency <- truediv contribution (inject_Z count) ;;
    Ok (efficiency_data ++ [(archetype, efficiency)])
  else Ok efficiency_data.

Definition efficiency_data (archetype_contributions : dict Q)
           (seller_counts : dict Z) : result (list (string * Q)) :=
  data <- for_each (items archetype_contributions)
                   (efficiency_body seller_counts) [] ;;
  match data with
  | [] => Ok data
  | _ :: _ => Ok (sort_reverse snd data)
  end.

(** *** The page script

    The statements the script runs after its widgets, in the order of the
    source; the values of the four number inputs are the arguments.  The
    calls that only render ([st.markdown], the charts, the formatting of a
    number into text) are left out: each record below holds the numbers and
    names the script passes to them. *)

(** Lines 150-206: [seller_counts], filled from the number inputs. *)
Definition seller_counts_of_inputs
           (born_count grown_count struggle_count fail_count : Z) : dict Z :=
  let seller_counts : dict Z := [] in
  let seller_counts := dict_set seller_counts "Born Successful" born_count in
  let seller_counts := dict_set seller_counts "Grown Successful" grown_count in
  let seller_counts := dict_set seller_counts "Struggling" struggle_count in
  dict_set seller_counts "Failed" fail_count.

(** Lines 285-292: the rows of the donut chart. *)
Record contribution_row : Type := {
  Archetype : string;
  Contribution : Q;
  Count : Z
}.

Definition contribution_body (profiles : dict archetype_params)
           (seller_counts : dict Z)
           (contribution_data : list contribution_row) (item : string * Q)
  : result (list contribution_row) :=
  let '(archetype, contribution) := item in
  if float_gt contribution 0 then
    params <- dict_get profiles archetype ;;
    count <- dict_get seller_counts archetype ;;
    Ok (contribution_data ++
        [{| Archetype := description params;
            Contribution := contribution;
            Count := count |}])
  else Ok contribution_data.

Definition contribution_data (profiles : dict archetype_params)
           (archetype_contributions : dict Q) (seller_counts : dict Z)
  : result (list contribution_row) :=
  for_each (items archetype_contributions)
           (contribution_body profiles seller_counts) [].

(** Lines 344-372: the insights column. *)
Record ranking_row : Type := {
  ranking_description : string;
  ranking_efficiency : Q;
  ranking_count : Z
}.

Record best_row : Type := {
  best_archetype : string;
  best_efficiency : Q;
  best_description : string;
  ranking : list ranking_row
}.

Record insight : Type := {
  avg_ltv_per_seller : Q;
  best : option best_row
}.

Definition ranking_body (profiles : dict archetype_params)
           (seller_counts : dict Z) (item : string * Q)
  : result ranking_row :=
  let '(archetype, efficiency) := item in
  count <- dict_get seller_counts archetype ;;
  params <- dict_get profiles archetype ;;
  Ok {| ranking_description := description params;
        ranking_efficiency := efficiency;
        ranking_count := count |}.

Definition insights (profiles : dict archetype_params)
           (seller_counts : dict Z) (total_sellers : Z) (final_ltv : Q)
           (archetype_contributions : dict Q) : result (option insight) :=
  if (total_sellers >? 0)%Z then
    avg_ltv_per_seller <- truediv final_ltv (inject_Z total_sellers) ;;
    efficiency_data <- efficiency_data archetype_contributions seller_counts ;;
    match efficiency_data with
    | [] => Ok (Some {| avg_ltv_per_seller := avg_ltv_per_seller;
                        best := None |})
    | _ :: _ =>
        first <- getitem efficiency_data 0 ;;
        let best_archetype := fst first in
        let best_efficiency := snd first in
        params <- dict_get profiles best_archetype ;;
        rows <- comprehension (ranking_body profiles seller_counts)
                              efficiency_data ;;
        Ok (Some {| avg_ltv_per_seller := avg_ltv_per_seller;
                    best := Some {| best_archetype := best_archetype;
                                    best_efficiency := best_efficiency;
                                    best_description := description params;
                                    ranking := rows |} |})
    end
  else Ok None.

(** Lines 379-408: the optimisation column. *)
Record budget : Type := {
  born_efficiency : Q;
  others_efficiency : Q;
  ratio : option Q
}.

Record optimisation : Type := {
  budget_analysis : option budget;
  convert_failed : bool;
  grow_struggling : bool;
  attract_born : bool
}.

Definition optimisation_suggestions (seller_counts : dict Z)
           (total_sellers : Z) (final_ltv : Q)
           (archetype_contributions : dict Q) : result (option optimisation) :=
  if (total_sellers >? 0)%Z then
    born_count <- dict_get seller_counts "Born Successful" ;;
    born_contribution <- dict_get archetype_contributions "Born Successful" ;;
    let others_count := (total_sellers - born_count)%Z in
    let others_contribution := final_ltv - born_contribution in
    analysis <-
      (if ((born_count >? 0) && (others_count >? 0))%Z then
         born_efficiency <-
           truediv born_contribution (inject_Z born_count) ;;
         others_efficiency <-
           truediv others_contribution (inject_Z others_count) ;;
         ratio <-
           (if float_gt born_efficiency others_efficiency then
              ratio <- truediv born_efficiency others_efficiency ;;
              Ok (Some ratio)
            else Ok None) ;;
         Ok (Some {| born_efficiency := born_efficiency;
                     others_efficiency := others_efficiency;
                     ratio := ratio |})
       else Ok None) ;;
    failed <- dict_get seller_counts "Failed" ;;
    struggling <- dict_get seller_counts "Struggling" ;;
    grown <- dict_get seller_counts "Grown Successful" ;;
    born <- dict_get seller_counts "Born Successful" ;;
    Ok (Some {| budget_analysis := analysis;
                convert_failed := (failed >? 0)%Z;
                grow_struggling := (struggling >? grown)%Z;
                attract_born := (born <? 5)%Z |})
  else Ok None.

(** Lines 412-427: the detail table. *)
Record detail_row : Type := {
  Year : Z;
  Cumulative_LTV : Q;
  Born_Contribution : Q;
  Grown_Contribution : Q;
  Struggling_Contribution : Q;
  Failed_Contribution : Q
}.

(** [simulate_archetype_ltv(archetype, seller_counts[archetype])[i]] *)
Definition contribution_at (profiles : dict archetype_params)
           (seller_counts : dict Z) (archetype : string) (i : Z) : result Q :=
  count <- dict_get seller_counts archetype ;;
  series <- simulate_archetype_ltv profiles archetype count 60 ;;
  getitem series i.

Definition detail_body (profiles : dict archetype_params)
           (seller_counts : dict Z) (total_ltv_by_year : list Q)
           (detail_data : list detail_row) (item : Z * Z)
  : result (list detail_row) :=
  let '(i, year) := item in
  cumulative <- getitem total_ltv_by_year i ;;
  born <- contribution_at profiles seller_counts "Born Successful" i ;;
  grown <- contribution_at profiles seller_counts "Grown Successful" i ;;
  struggling <- contribution_at profiles seller_counts "Struggling" i ;;
  failed <- contribution_at profiles seller_counts "Failed" i ;;
  Ok (detail_data ++
      [{| Year := year;
          Cumulative_LTV := cumulative;
          Born_Contribution := born;
          Grown_Contribution := grown;
          Struggling_Contribution := struggling;
          Failed_Contribution := failed |}]).

Definition detail_data (profiles : dict archetype_params)
           (seller_counts : dict Z) (total_sellers : Z)
           (total_ltv_by_year : list Q) : result (option (list detail_row)) :=
  if (total_sellers >? 0)%Z then
    rows <- for_each (enumerate [1; 2; 3; 4; 5]%Z)
                     (detail_body profiles seller_counts total_ltv_by_year)
                     [] ;;
    Ok (Some rows)
  else Ok None.

(** What one run of the script computes. *)
Record page : Type := {
  page_total_sellers : Z;
  page_total_ltv_by_year : list Q;
  page_archetype_contributions : dict Q;
  page_final_ltv : Q;
  page_contribution_data : list contribution_row;
  page_insights : option insight;
  page_optimisation : option optimisation;
  page_detail_data : option (list detail_row)
}.

Definition run_page (profiles : dict archetype_params)
           (born_count grown_count struggle_count fail_count : Z)
  : result page :=
  let seller_counts :=
    seller_counts_of_inputs born_count grown_count struggle_count fail_count in
  let total_sellers := sum_int (values seller_counts) in
  '(total_ltv_by_year, archetype_contributions) <-
    calculate_total_ltv profiles seller_counts ;;
  final_ltv <- getitem total_ltv_by_year (-1) ;;
  contribution_data <-
    contribution_data profiles archetype_contributions seller_counts ;;
  insights <-
    insights profiles seller_counts total_sellers final_ltv
             archetype_contributions ;;
  optimisation <-
    optimisation_suggestions seller_counts total_sellers final_ltv
                             archetype_contributions ;;
  detail_data <-
    detail_data profiles seller_counts total_sellers total_ltv_by_year ;;
  Ok {| page_total_sellers := total_sellers;
        page_total_ltv_by_year := total_ltv_by_year;
        page_archetype_contributions := archetype_contributions;
        page_final_ltv := final_ltv;
        page_contribution_data := contribution_data;
        page_insights := insights;
        page_optimisation := optimisation;
        page_detail_data := detail_data |}.

End Survival.

(** ** streamlit_app.py: the annual growth/retention model *)

Module Annual.

Record archetype_data : Type := {
  name : string;
  description : string;
  avg_ltv : Q;
  growth_rate : Q;
  retention_rate : Q;
  color : string
}.

Definition ARCHETYPE_DATA : dict archetype_data := [
  ("Rising_Star"%string,
   {| name := "🌟 Rising Star";
      description := "빠른 성장과 높은 수익성을 보이는 셀러";
      avg_ltv := 15420.50;
      growth_rate := 0.25;
      retention_rate := 0.85;
      color := "#FF6B6B" |});
  ("Steady_Performer"%string,
   {| name := "📈 Steady Performer";
      description := "안정적이고 지속적인 성과를 내는 셀러";
      avg_ltv := 8750.30;
      growth_rate := 0.15;
      retention_rate := 0.78;
      color := "#4ECDC4" |});
  ("Struggling_Seller"%string,
   {| name := "⚠️ Struggling Seller";
      description := "어려움을 겪고 있지만 잠재력이 있는 셀러";
      avg_ltv := 3250.80;
      growth_rate := 0.08;
      retention_rate := 0.45;
      color := "#FFE66D" |});
  ("Underperformer"%string,
   {| name := "📉 Underperformer";
      description := "성과가 저조하고 개선이 필요한 셀러";
      avg_ltv := 1180.20;
      growth_rate := 0.02;
      retention_rate := 0.25;
      color := "#FF8E53" |})
].

(** The value stored under each key of [archetype_contributions]. *)
Record contribution : Type := {
  total : Q;
  yearly : list Q;
  contribution_name : string;
  contribution_color : string
}.

(** The variables the year loop assigns. *)
Record year_state : Type := {
  yearly_ltv : list Q;
  remaining_sellers : Q
}.

(** One turn of [for year in range(1, 6)]. *)
Definition year_body (base_ltv growth_rate retention_rate : Q)
           (st : year_state) (year : Z) : year_state :=
  let year_ltv :=
    base_ltv * (1 + growth_rate) ^ year * remaining_sellers st in
  {| yearly_ltv := yearly_ltv st ++ [year_ltv];
     remaining_sellers := remaining_sellers st * retention_rate |}.

(** The body of [if count > 0:] up to the end of the year loop. *)
Definition project_years (data : archetype_data) (count : Z) : list Q :=
  yearly_ltv
    (fold_left
       (year_body (avg_ltv data) (growth_rate data) (retention_rate data))
       (range 1 6)
       {| yearly_ltv := []; remaining_sellers := inject_Z count |}).

(** One turn of [for archetype, count in seller_counts.items()]. *)
Definition impact_body (table : dict archetype_data)
           (st : Q * dict contribution) (item : string * Z)
  : result (Q * dict contribution) :=
  let '(total_impact, archetype_contributions) := st in
  let '(archetype, count) := item in
  if (count >? 0)%Z then
    data <- dict_get table archetype ;;
    let yearly_ltv := project_years data count in
    Ok (total_impact + sum yearly_ltv,
        dict_set archetype_contributions archetype
          {| total := sum yearly_ltv;
             yearly := yearly_ltv;
             contribution_name := name data;
             contribution_color := color data |})
  else Ok (total_impact, archetype_contributions).

(** One turn of [for year in range(5)]. *)
Definition projection_body (archetype_contributions : dict contribution)
           (yearly_projections : list Q) (year : Z) : result (list Q) :=
  column <- comprehension (fun contrib => getitem (yearly contrib) year)
                          (values archetype_contributions) ;;
  Ok (yearly_projections ++ [sum column]).

Definition calculate_ltv_impact (table : dict archetype_data)
           (seller_counts : dict Z)
  : result (Q * list Q * dict contribution) :=
  let total_impact : Q := 0 in
  let archetype_contributions : dict contribution := [] in
  '(total_impact, archetype_contributions) <-
    for_each (items seller_counts) (impact_body table)
             (total_impact, archetype_contributions) ;;
  yearly_projections <-
    for_each (range 0 5) (projection_body archetype_contributions) [] ;;
  Ok (total_impact, yearly_projections, archetype_contributions).

(** [main], line 298:
    [yearly_projections.index(max(yearly_projections))]. *)
Definition max_year_idx (yearly_projections : list Q) : result Z :=
  m <- max yearly_projections ;;
  index yearly_projections m.

(** *** The computations of [main]

    What [main] computes between its widgets and its rendering calls
    (lines 246-330).  The value of each slider is given by [slider], a
    function of the archetype the slider belongs to.  The records hold the
    numbers [main] formats into text; the charts are left out. *)

(** A row of [analysis_data]: the archetype's name, its count, its
    5-year total, the total per seller and the share of the total impact in
    percent. *)
Record analysis_row : Type := {
  row_name : string;
  row_count : Z;
  row_total : Q;
  row_per_seller : Q;
  row_share : Q
}.

(** One turn of [for archetype, count in seller_counts.items()]. *)
Definition analysis_body (table : dict archetype_data)
           (archetype_contributions : dict contribution) (total_impact : Q)
           (analysis_data : list analysis_row) (item : string * Z)
  : result (list analysis_row) :=
  let '(archetype, count) := item in
  if (count >? 0)%Z then
    data <- dict_get table archetype ;;
    contrib <- dict_get archetype_contributions archetype ;;
    per_seller <- truediv (total contrib) (inject_Z count) ;;
    share <- truediv (total contrib) total_impact ;;
    Ok (analysis_data ++
        [{| row_name := name data;
            row_count := count;
            row_total := total contrib;
            row_per_seller := per_seller;
            row_share := share * 100 |}])
  else Ok analysis_data.

Record dashboard : Type := {
  dashboard_total_impact : Q;
  dashboard_yearly_average : Q;
  dashboard_per_seller : Q;
  dashboard_best_year : Z;
  dashboard_yearly_projections : list Q;
  dashboard_contributions : dict contribution;
  dashboard_analysis_data : list analysis_row
}.

(** Lines 246-262: one slider per archetype of the table. *)
Definition seller_counts_of_sliders (table : dict archetype_data)
           (slider : string -> Z) : dict Z :=
  fold_left
    (fun (seller_counts : dict Z) (item : string * archetype_data) =>
       dict_set seller_counts (fst item) (slider (fst item)))
    (items table) [].

Definition main (table : dict archetype_data) (slider : string -> Z)
  : result (option dashboard) :=
  let seller_counts := seller_counts_of_sliders table slider in
  let total_sellers := sum_int (values seller_counts) in
  if (total_sellers >? 0)%Z then
    '(total_impact, yearly_projections, archetype_contributions) <-
      calculate_ltv_impact table seller_counts ;;
    yearly_average <- truediv total_impact 5 ;;
    per_seller <- truediv total_impact (inject_Z total_sellers) ;;
    max_year_idx <- max_year_idx yearly_projections ;;
    analysis_data <-
      for_each (items seller_counts)
               (analysis_body table archetype_contributions total_impact)
               [] ;;
    Ok (Some {| dashboard_total_impact := total_impact;
                dashboard_yearly_average := yearly_average;
                dashboard_per_seller := per_seller;
                dashboard_best_year := (2025 + max_year_idx)%Z;
                dashboard_yearly_projections := yearly_projections;
                dashboard_contributions := archetype_contributions;
                dashboard_analysis_data := analysis_data |})
  else Ok None.

End Annual.

(** ** The projections with the failures of float arithmetic *)

Module SurvivalOverflow.

Import Survival.

(** Lines 96-121, where the last line multiplies a float by the [int]
    [seller_count]. *)
Definition simulate_archetype_ltv (profiles : dict archetype_params)
           (archetype : string) (seller_count : Z) (months : Z)
  : result (list Q) :=
  if (seller_count =? 0)%Z then Ok (list_repeat 0 (months / 12)%Z)
  else
    params <- dict_get profiles archetype ;;
    let st :=
      fold_left (month_body params) (range 1 (months + 1)) month_init in
    comprehension (fun ltv => float_mul ltv (Int seller_count))
                  (single_seller_ltv st).

Definition total_body (profiles : dict archetype_params)
           (st : list Q * dict Q) (item : string * Z)
  : result (list Q * dict Q) :=
  let '(total_ltv_by_year, archetype_contributions) := st in
  let '(archetype, count) := item in
  archetype_ltv <- simulate_archetype_ltv profiles archetype count 60 ;;
  last_year <- getitem archetype_ltv (-1) ;;
  let archetype_contributions' :=
    dict_set archetype_contributions archetype last_year in
  total_ltv_by_year' <- add_years total_ltv_by_year archetype_ltv ;;
  Ok (total_ltv_by_year', archetype_contributions').

Definition calculate_total_ltv (profiles : dict archetype_params)
           (seller_counts : dict Z) : result (list Q * dict Q) :=
  let total_ltv_by_year : list Q := list_repeat 0 5 in
  let archetype_contributions : dict Q := [] in
  for_each (items seller_counts) (total_body profiles)
           (total_ltv_by_year, archetype_contributions).

End SurvivalOverflow.

Module AnnualOverflow.

Import Annual.

(** [remaining_sellers] is the [int] [count] in the first year and a float
    from the second year on. *)
Record year_state : Type := {
  yearly_ltv : list Q;
  remaining_sellers : number
}.

(** One turn of [for year in range(1, 6)]: the power, then the product with
    [remaining_sellers], then [remaining_sellers *= retention_rate]. *)
Definition year_body (base_ltv growth_rate retention_rate : Q)
           (st : year_state) (year : Z) : result year_state :=
  power <- float_pow (1 + growth_rate) year ;;
  year_ltv <- float_mul (base_ltv * power) (remaining_sellers st) ;;
  remaining_sellers' <- mul_float (remaining_sellers st) retention_rate ;;
  Ok {| yearly_ltv := yearly_ltv st ++ [year_ltv];
        remaining_sellers := Float remaining_sellers' |}.

Definition project_years (data : archetype_data) (count : Z)
  : result (list Q) :=
  st <- for_each (range 1 6)
          (year_body (avg_ltv data) (growth_rate data) (retention_rate data))
          {| yearly_ltv := []; remaining_sellers := Int count |} ;;
  Ok (yearly_ltv st).

Definition impact_body (table : dict archetype_data)
           (st : Q * dict contribution) (item : string * Z)
  : result (Q * dict contribution) :=
  let '(total_impact, archetype_contributions) := st in
  let '(archetype, count) := item in
  if (count >? 0)%Z then
    data <- dict_get table archetype ;;
    yearly_ltv <- project_years data count ;;
    Ok (total_impact + sum yearly_ltv,
        dict_set archetype_contributions archetype
          {| total := sum yearly_ltv;
             yearly := yearly_ltv;
             contribution_name := name data;
             contribution_color := color data |})
  else Ok (total_impact, archetype_contributions).

Definition calculate_ltv_impact (table : dict archetype_data)
           (seller_counts : dict Z)
  : result (Q * list Q * dict contribution) :=
  let total_impact : Q := 0 in
  let archetype_contributions : dict contribution := [] in
  '(total_impact, archetype_contributions) <-
    for_each (items seller_counts) (impact_body table)
             (total_impact, archetype_contributions) ;;
  yearly_projections <-
    for_each (range 0 5) (projection_body archetype_contributions) [] ;;
  Ok (total_impact, yearly_projections, archetype_contributions).

End AnnualOverflow.

(** ** Scenarios of the specification *)

Definition scenario : string := "scenario".

(** The survival scenario: monthly churn 0.10 and a fee of 50. *)
Definition scenario_profile : Survival.archetype_params :=
  {| Survival.initial_monthly_revenue := 0;
     Survival.monthly_growth_rate := 0;
     Survival.monthly_churn_rate := 0.10;
     Survival.subscription_fee := 50;
     Survival.color := EmptyString;
     Survival.description := EmptyString |}.

Definition scenario_params : dict Survival.archetype_params :=
  [(scenario, scenario_profile)].



(** A table for the page in which nobody churns: Born Successful sellers
    pay 100 a month, the others 50. *)
Definition flat_profile (fee : Q) : Survival.archetype_params :=
  {| Survival.initial_monthly_revenue := 0;
     Survival.monthly_growth_rate := 0;
     Survival.monthly_churn_rate := 0;
     Survival.subscription_fee := fee;
     Survival.color := EmptyString;
     Survival.description := EmptyString |}.

Definition contrast_params : dict Survival.archetype_params :=
  [("Born Successful"%string, flat_profile 100);
   ("Grown Successful"%string, flat_profile 50);
   ("Struggling"%string, flat_profile 50);
   ("Failed"%string, flat_profile 50)].

(** The annual scenario: base revenue 1000, growth 0.10, retention 0.80. *)
Definition scenario_archetype : Annual.archetype_data :=
  {| Annual.name := EmptyString;
     Annual.description := EmptyString;
     Annual.avg_ltv := 1000;
     Annual.growth_rate := 0.10;
     Annual.retention_rate := 0.80;
     Annual.color := EmptyString |}.

Definition scenario_data : dict Annual.archetype_data :=
  [(scenario, scenario_archetype)].

(** ** Closed forms used in the statements *)

(** Survival after [k] months and the fee accrued over them, by the
    recurrences of the month loop. *)
Fixpoint survival_after (p : Survival.archetype_params) (k : nat) : Q :=
  match k with
  | O => 1.0
  | S k' => survival_after p k' * (1 - Survival.monthly_churn_rate p)
  end.

Fixpoint cumulative_after (p : Survival.archetype_params) (k : nat) : Q :=
  match k with
  | O => 0.0
  | S k' =>
      cumulative_after p k' +
      Survival.subscription_fee p * survival_after p (S k')
  end.

(** The sum of [fee * (1 - churn)^m] for [m] from 1 to [k]. *)
Definition geometric_fee_sum (fee churn : Q) (k : Z) : Q :=
  sum (map (fun m => fee * (1 - churn) ^ m) (range 1 (k + 1))).

(** Two series agree item by item, up to the equality of rationals. *)
Definition series_eq : list Q -> list Q -> Prop := Forall2 Qeq.

(** The second series is the first one scaled by [c]. *)
Definition series_scaled (c : Q) : list Q -> list Q -> Prop :=
  Forall2 (fun x y => y == c * x).

(** The entry [calculate_ltv_impact] stores for an archetype. *)
Definition contribution_of (data : Annual.archetype_data) (count : Z)
  : Annual.contribution :=
  {| Annual.total := sum (Annual.project_years data count);
     Annual.yearly := Annual.project_years data count;
     Annual.contribution_name := Annual.name data;
     Annual.contribution_color := Annual.color data |}.

(** The entries a run of the allocation loop adds, in order: one for each
    archetype with a positive count that the table knows. *)
Definition contributions_of (table : dict Annual.archetype_data)
           (seller_counts : dict Z) : dict Annual.contribution :=
  flat_map
    (fun item : string * Z =>
       let (archetype, count) := item in
       if (count >? 0)%Z then
         match lookup table archetype with
         | Some data => [(archetype, contribution_of data count)]
         | None => []
         end
       else [])
    seller_counts.

(** The first entry of an allocation that makes a lookup fail: an archetype
    the table lacks whose count passes [active]. *)
Definition first_unknown {V : Type} (table : dict V) (active : Z -> bool)
           (seller_counts : dict Z) : option string :=
  option_map fst
    (find (fun item : string * Z =>
             active (snd item) &&
             match lookup table (fst item) with
             | Some _ => false
             | None => true
             end)
          seller_counts).

(** What goes wrong with one entry of an allocation, if anything: the lookup
    behind the guard on the count, then the numbers. *)
Definition fits_float (n : Z) : bool := (Z.abs n <? float_limit)%Z.

Definition power_fits (x : Q) (y : Z) : bool :=
  negb (Qle_bool (inject_Z float_limit) (Qabs (x ^ y))).

Definition powers_fit (data : Annual.archetype_data) : bool :=
  forallb (power_fits (1 + Annual.growth_rate data)) (range 1 6).

Definition survival_failure (profiles : dict Survival.archetype_params)
           (item : string * Z) : option exn :=
  let '(archetype, count) := item in
  if (count =? 0)%Z then None
  else match lookup profiles archetype with
       | None => Some (KeyError archetype)
       | Some _ => if fits_float count then None else Some OverflowError
       end.

Definition annual_failure (table : dict Annual.archetype_data)
           (item : string * Z) : option exn :=
  let '(archetype, count) := item in
  if (count >? 0)%Z then
    match lookup table archetype with
    | None => Some (KeyError archetype)
    | Some data =>
        if fits_float count && powers_fit data then None
        else Some OverflowError
    end
  else None.

(** The failure of the first entry that has one. *)
Fixpoint first_failure {A : Type} (failure : A -> option exn) (xs : list A)
  : option exn :=
  match xs with
  | [] => None
  | x :: xs' =>
      match failure x with
      | Some e => Some e
      | None => first_failure failure xs'
      end
  end.

(** The unsorted efficiency list: contribution over count for the archetypes
    with a positive count, in the order of the contributions. *)
Definition efficiencies (archetype_contributions : dict Q)
           (seller_counts : dict Z) : list (string * Q) :=
  flat_map
    (fun item : string * Q =>
       let (archetype, contribution) := item in
       match lookup seller_counts archetype with
       | Some count =>
           if (count >? 0)%Z then [(archetype, contribution / inject_Z count)]
           else []
       | None => []
       end)
    archetype_contributions.

(** An entry with a five-year series whose sum is its total. *)
Definition well_formed (c : Annual.contribution) : Prop :=
  List.length (Annual.yearly c) = 5%nat /\
  Annual.total c = sum (Annual.yearly c).

(** [x] may stand before [y] in a list sorted by decreasing key. *)
Definition key_ge {A : Type} (key : A -> Q) (x y : A) : Prop :=
  key y <= key x.

(** The items whose key equals [q]. *)
Definition has_key {A : Type} (key : A -> Q) (q : Q) (x : A) : bool :=
  Qeq_bool (key x) q.




(** The five-year series of every entry of an allocation, in order. *)
Definition series_of (profiles : dict Survival.archetype_params)
           (seller_counts : dict Z) : result (list (list Q)) :=
  comprehension
    (fun item : string * Z =>
       Survival.simulate_archetype_ltv profiles (fst item) (snd item) 60)
    seller_counts.

(** [entry] is what [calculate_total_ltv] records for [item]: the last year
    of the series of the archetype, under its name. *)
Definition recorded (profiles : dict Survival.archetype_params)
           (item : string * Z) (entry : string * Q) : Prop :=
  fst entry = fst item /\
  exists series,
    Survival.simulate_archetype_ltv profiles (fst item) (snd item) 60 =
    Ok series /\
    getitem series (-1) = Ok (snd entry).

(** The 5-year value of one seller of an archetype. *)
Definition value_per_seller (data : Annual.archetype_data) : Q :=
  sum (Annual.project_years data 1).

(** The entries of an allocation that [calculate_ltv_impact] projects. *)
Definition active (seller_counts : dict Z) : dict Z :=
  filter (fun item : string * Z => (snd item >? 0)%Z) seller_counts.

(** An archetype the annual model can divide by: a base revenue > 0, a
    growth above -1 and a retention >= 0. *)
Definition earning (data : Annual.archetype_data) : Prop :=
  0 < Annual.avg_ltv data /\ -1 < Annual.growth_rate data /\
  0 <= Annual.retention_rate data.

(** ** Lists, ranges and sums *)

Section Basics.

Lemma Ok_inj {A : Type} (x y : A) : Ok x = Ok y -> x = y.
Proof. now intros [= ->]. Qed.

Lemma range_0_5 : range 0 5 = [0; 1; 2; 3; 4]%Z.
Proof. reflexivity. Qed.

Lemma range_1_6 : range 1 6 = [1; 2; 3; 4; 5]%Z.
Proof. reflexivity. Qed.

Lemma range_snoc (k : nat) :
  range 1 (Z.of_nat (S k) + 1) = range 1 (Z.of_nat k + 1) ++ [Z.of_nat (S k)].
Proof.
  unfold range.
  replace (Z.to_nat (Z.of_nat (S k) + 1 - 1)) with (S k) by lia.
  replace (Z.to_nat (Z.of_nat k + 1 - 1)) with k by lia.
  rewrite seq_S, map_app. cbn [map]. f_equal. f_equal. lia.
Qed.

Lemma fold_Qplus_acc (xs : list Q) (a : Q) :
  fold_left Qplus xs a == a + sum xs.
Proof.
  unfold sum. revert a.
  induction xs as [|x xs IH]; intro a; simpl.
  - ring.
  - rewrite IH, (IH (0 + x)). ring.
Qed.

Lemma sum_nil : sum [] = 0.
Proof. reflexivity. Qed.

Lemma sum_cons (x : Q) (xs : list Q) : sum (x :: xs) == x + sum xs.
Proof.
  unfold sum at 1. simpl. rewrite fold_Qplus_acc. ring.
Qed.

Lemma sum_app (xs ys : list Q) : sum (xs ++ ys) == sum xs + sum ys.
Proof.
  induction xs as [|x xs IH]; simpl.
  - rewrite sum_nil. ring.
  - rewrite !sum_cons, IH. ring.
Qed.

Lemma sum_snoc (xs : list Q) (x : Q) : sum (xs ++ [x]) == sum xs + x.
Proof.
  rewrite sum_app, sum_cons, sum_nil. ring.
Qed.

End Basics.

(** ** The month loop of the survival model *)

Section SurvivalLoop.

Import Survival.

Variable p : archetype_params.

Lemma month_loop (k : nat) :
  fold_left (month_body p) (range 1 (Z.of_nat k + 1)) month_init =
  {| single_seller_ltv :=
       map (fun y => cumulative_after p (12 * y)) (seq 1 (k / 12));
     survival_probability := survival_after p k;
     cumulative_ltv := cumulative_after p k |}.
Proof.
  induction k as [|k IH].
  - reflexivity.
  - rewrite range_snoc, fold_left_app, IH.
    cbn [fold_left]. unfold month_body.
    cbn [single_seller_ltv survival_probability cumulative_ltv].
    f_equal.
    pose proof (Nat2Z.inj_div (S k) 12) as HS.
    pose proof (Nat2Z.inj_div k 12) as Hk.
    destruct (Z.eqb_spec (Z.of_nat (S k) mod 12) 0) as [Hm|Hm].
    + assert (Hd : (S k / 12 = S (k / 12))%nat)
        by (apply Nat2Z.inj; Z.div_mod_to_equations; lia).
      assert (He : (12 * (1 + k / 12) = S k)%nat)
        by (apply Nat2Z.inj; Z.div_mod_to_equations; lia).
      rewrite Hd, seq_S, map_app. cbn [map]. rewrite He. reflexivity.
    + assert (Hd : (S k / 12 = k / 12)%nat)
        by (apply Nat2Z.inj; Z.div_mod_to_equations; lia).
      rewrite Hd. reflexivity.
Qed.

Lemma range_to_nat (months : Z) :
  range 1 (months + 1) = range 1 (Z.of_nat (Z.to_nat months) + 1).
Proof.
  unfold range. do 2 f_equal. lia.
Qed.

Lemma survival_after_power (k : nat) :
  survival_after p k == (1 - monthly_churn_rate p) ^ Z.of_nat k.
Proof.
  induction k as [|k IH].
  - reflexivity.
  - cbn [survival_after]. rewrite IH.
    replace (Z.of_nat (S k)) with (Z.of_nat k + 1)%Z by lia.
    rewrite Qpower_plus' by lia. rewrite Qpower_1_r. reflexivity.
Qed.

Lemma cumulative_after_sum (k : nat) :
  cumulative_after p k ==
  geometric_fee_sum (subscription_fee p) (monthly_churn_rate p) (Z.of_nat k).
Proof.
  unfold geometric_fee_sum.
  induction k as [|k IH].
  - reflexivity.
  - rewrite range_snoc, map_app. cbn [map]. rewrite sum_snoc.
    rewrite <- IH. change (cumulative_after p (S k)) with
      (cumulative_after p k + subscription_fee p * survival_after p (S k)).
    rewrite (survival_after_power (S k)). reflexivity.
Qed.

Hypothesis churn_le_1 : monthly_churn_rate p <= 1.
Hypothesis fee_nonneg : 0 <= subscription_fee p.

Lemma survival_after_nonneg (k : nat) : 0 <= survival_after p k.
Proof.
  induction k as [|k IH]; cbn [survival_after].
  - lra.
  - apply Qmult_le_0_compat; lra.
Qed.

Lemma cumulative_after_step (k : nat) :
  cumulative_after p k <= cumulative_after p (S k).
Proof.
  cbn [cumulative_after].
  pose proof (survival_after_nonneg (S k)) as Hs.
  pose proof (Qmult_le_0_compat _ _ fee_nonneg Hs). lra.
Qed.

Lemma cumulative_after_mono (j k : nat) :
  (j <= k)%nat -> cumulative_after p j <= cumulative_after p k.
Proof.
  induction 1 as [|k _ IH].
  - apply Qle_refl.
  - eapply Qle_trans; [exact IH | apply cumulative_after_step].
Qed.

Lemma cumulative_after_nonneg (k : nat) : 0 <= cumulative_after p k.
Proof.
  apply (Qle_trans _ (cumulative_after p 0)).
  - cbn. lra.
  - apply cumulative_after_mono. lia.
Qed.

End SurvivalLoop.

(** ** What [simulate_archetype_ltv] returns *)

Section Simulate.

Import Survival.

Lemma Forall2_map_same {A B C : Type} (R : B -> C -> Prop)
      (f : A -> B) (g : A -> C) (xs : list A) :
  (forall x, In x xs -> R (f x) (g x)) -> Forall2 R (map f xs) (map g xs).
Proof.
  induction xs as [|x xs IH]; intro H; cbn [map]; constructor.
  - apply H. now left.
  - apply IH. intros y Hy. apply H. now right.
Qed.

Lemma years_of_months (months : Z) :
  Z.to_nat (months / 12) = (Z.to_nat months / 12)%nat.
Proof.
  destruct (Z.le_gt_cases 0 months) as [H|H].
  - now rewrite Z2Nat.inj_div by lia.
  - replace (Z.to_nat months) with 0%nat by lia.
    assert (months / 12 < 0)%Z by (Z.div_mod_to_equations; lia).
    cbn. lia.
Qed.


Lemma simulate_zero (profiles : dict archetype_params) (a : string)
      (months : Z) :
  simulate_archetype_ltv profiles a 0 months =
  Ok (list_repeat 0 (months / 12)).
Proof. reflexivity. Qed.

Lemma simulate_known (profiles : dict archetype_params) (a : string)
      (p : archetype_params) (n months : Z) :
  lookup profiles a = Some p -> n <> 0%Z ->
  simulate_archetype_ltv profiles a n months =
  Ok (map (fun ltv => ltv * inject_Z n)
          (map (fun y => cumulative_after p (12 * y))
               (seq 1 (Z.to_nat months / 12)))).
Proof.
  intros Hl Hn. unfold simulate_archetype_ltv.
  destruct (Z.eqb_spec n 0) as [E|_]; [contradiction|].
  unfold dict_get. rewrite Hl. cbn [bind].
  rewrite range_to_nat, month_loop. reflexivity.
Qed.

Lemma simulate_unknown (profiles : dict archetype_params) (a : string)
      (n months : Z) :
  lookup profiles a = None -> n <> 0%Z ->
  simulate_archetype_ltv profiles a n months = Raise (KeyError a).
Proof.
  intros Hl Hn. unfold simulate_archetype_ltv.
  destruct (Z.eqb_spec n 0) as [E|_]; [contradiction|].
  unfold dict_get. now rewrite Hl.
Qed.

(** With the default of 60 months a series has five entries. *)
Lemma simulate_60_length (profiles : dict archetype_params) (a : string)
      (n : Z) (series : list Q) :
  simulate_archetype_ltv profiles a n 60 = Ok series ->
  List.length series = 5%nat.
Proof.
  destruct (Z.eq_dec n 0) as [->|Hn].
  - rewrite simulate_zero. intros [= <-]. reflexivity.
  - destruct (lookup profiles a) as [p|] eqn:Hl.
    + rewrite (simulate_known _ _ p) by assumption.
      intro H. apply Ok_inj in H. rewrite <- H.
      now rewrite !length_map.
    + now rewrite simulate_unknown.
Qed.

Lemma StronglySorted_repeat_0 (n : nat) : StronglySorted Qle (repeat 0 n).
Proof.
  induction n as [|n IH]; cbn [repeat]; constructor; [exact IH|].
  apply Forall_forall. intros x Hx. apply repeat_spec in Hx. subst. lra.
Qed.

Lemma StronglySorted_map_seq (f : nat -> Q) (start len : nat) :
  (forall i j, (i <= j)%nat -> f i <= f j) ->
  StronglySorted Qle (map f (seq start len)).
Proof.
  intro Hf. revert start.
  induction len as [|len IH]; intro start; cbn [seq map]; constructor.
  - apply IH.
  - apply Forall_forall. intros x Hx.
    apply in_map_iff in Hx. destruct Hx as (j & <- & Hj).
    apply in_seq in Hj. apply Hf. lia.
Qed.

Lemma StronglySorted_scale (c : Q) (xs : list Q) :
  0 <= c -> StronglySorted Qle xs ->
  StronglySorted Qle (map (fun x => x * c) xs).
Proof.
  intro Hc. induction 1 as [|x xs _ IH Hall]; cbn [map]; constructor.
  - exact IH.
  - apply Forall_forall. intros y Hy.
    apply in_map_iff in Hy. destruct Hy as (z & <- & Hz).
    rewrite Forall_forall in Hall. specialize (Hall z Hz).
    apply Qmult_le_compat_r; assumption.
Qed.

Lemma inject_Z_nonneg (n : Z) : (0 <= n)%Z -> 0 <= inject_Z n.
Proof.
  intro H. change 0 with (inject_Z 0). now rewrite <- Zle_Qle.
Qed.

End Simulate.

(** ** Dictionaries *)

Section Dicts.

Context {V : Type}.

Lemma dict_set_fresh (d : dict V) (k : string) (v : V) :
  ~ In k (keys d) -> dict_set d k v = d ++ [(k, v)].
Proof.
  induction d as [|[k' v'] d IH]; intro H; cbn [dict_set app].
  - reflexivity.
  - destruct (String.eqb_spec k' k) as [->|_].
    + exfalso. apply H. now left.
    + rewrite IH; [reflexivity|]. intro Hin. apply H. now right.
Qed.

Lemma keys_app (d1 d2 : dict V) : keys (d1 ++ d2) = keys d1 ++ keys d2.
Proof. apply map_app. Qed.

Lemma values_app (d1 d2 : dict V) :
  values (d1 ++ d2) = values d1 ++ values d2.
Proof. apply map_app. Qed.

Lemma lookup_None (d : dict V) (k : string) :
  lookup d k = None <-> ~ In k (keys d).
Proof.
  induction d as [|[k' v'] d IH]; cbn [lookup keys map fst In].
  - tauto.
  - destruct (String.eqb_spec k' k) as [->|Hne].
    + split; [discriminate | intro H; exfalso; apply H; now left].
    + fold (keys d). rewrite IH. tauto.
Qed.

Lemma lookup_NoDup (d : dict V) (k : string) (v : V) :
  NoDup (keys d) -> In (k, v) d -> lookup d k = Some v.
Proof.
  induction d as [|[k' v'] d IH]; cbn [lookup keys map fst];
    intros Hnd Hin; [contradiction|].
  inversion Hnd as [|? ? Hfresh Hnd']; subst.
  destruct Hin as [[= -> ->]|Hin].
  - now rewrite String.eqb_refl.
  - destruct (String.eqb_spec k' k) as [->|_].
    + exfalso. apply Hfresh. change (In (fst (k, v)) (map fst d)).
      now apply in_map.
    + now apply IH.
Qed.

End Dicts.

(** ** The allocation loop of [calculate_total_ltv] *)

Section TotalLoop.

Import Survival.

Variable profiles : dict archetype_params.

Lemma length_5 {A : Type} (xs : list A) :
  List.length xs = 5%nat -> exists a b c d e, xs = [a; b; c; d; e].
Proof.
  destruct xs as [|a [|b [|c [|d [|e [|f xs]]]]]]; try discriminate.
  intros _. now exists a, b, c, d, e.
Qed.

Lemma add_years_5 (t0 t1 t2 t3 t4 a0 a1 a2 a3 a4 : Q) :
  add_years [t0; t1; t2; t3; t4] [a0; a1; a2; a3; a4] =
  Ok [t0 + a0; t1 + a1; t2 + a2; t3 + a3; t4 + a4].
Proof. reflexivity. Qed.

(** A turn of the loop either passes on the failure of the projection or
    adds the series to the totals and records its last entry. *)
Lemma total_body_raise (total : list Q) (contribs : dict Q) (a : string)
      (c : Z) (e : exn) :
  simulate_archetype_ltv profiles a c 60 = Raise e ->
  total_body profiles (total, contribs) (a, c) = Raise e.
Proof.
  intro H. unfold total_body. now rewrite H.
Qed.

Lemma total_body_ok (total : list Q) (contribs : dict Q) (a : string)
      (c : Z) (series : list Q) :
  List.length total = 5%nat ->
  simulate_archetype_ltv profiles a c 60 = Ok series ->
  exists t0 t1 t2 t3 t4 a0 a1 a2 a3 a4,
    total = [t0; t1; t2; t3; t4] /\
    series = [a0; a1; a2; a3; a4] /\
    total_body profiles (total, contribs) (a, c) =
    Ok ([t0 + a0; t1 + a1; t2 + a2; t3 + a3; t4 + a4],
        dict_set contribs a a4).
Proof.
  intros Ht Hs.
  destruct (length_5 total Ht) as (t0 & t1 & t2 & t3 & t4 & ->).
  destruct (length_5 series (simulate_60_length _ _ _ _ Hs))
    as (a0 & a1 & a2 & a3 & a4 & ->).
  exists t0, t1, t2, t3, t4, a0, a1, a2, a3, a4.
  repeat split. unfold total_body. rewrite Hs. reflexivity.
Qed.

Lemma total_loop_consistent (seller_counts : dict Z) :
  forall (total : list Q) (contribs : dict Q) (total' : list Q)
         (contribs' : dict Q),
    NoDup (keys seller_counts) ->
    (forall a, In a (keys seller_counts) -> ~ In a (keys contribs)) ->
    List.length total = 5%nat ->
    sum (values contribs) == nth 4 total 0 ->
    for_each seller_counts (total_body profiles) (total, contribs) =
    Ok (total', contribs') ->
    List.length total' = 5%nat /\ sum (values contribs') == nth 4 total' 0.
Proof.
  induction seller_counts as [|[a c] rest IH];
    intros total contribs total' contribs' Hnd Hfresh Ht Hinv Hrun.
  - cbn in Hrun. apply Ok_inj in Hrun. injection Hrun as <- <-. now split.
  - cbn [for_each] in Hrun.
    destruct (simulate_archetype_ltv profiles a c 60) as [series|e] eqn:Hs.
    2: { now rewrite (total_body_raise _ _ _ _ _ Hs) in Hrun. }
    destruct (total_body_ok total contribs a c series Ht Hs)
      as (t0 & t1 & t2 & t3 & t4 & a0 & a1 & a2 & a3 & a4 & -> & -> & Hb).
    rewrite Hb in Hrun. cbn [bind] in Hrun.
    cbn [keys map fst] in Hnd, Hfresh.
    inversion Hnd as [|? ? Ha Hnd']; subst.
    rewrite dict_set_fresh in Hrun by (apply Hfresh; now left).
    eapply IH; [exact Hnd' | | | | exact Hrun].
    + intros b Hb' Hin. rewrite keys_app in Hin.
      apply in_app_or in Hin. destruct Hin as [Hin|[<-|[]]].
      * apply (Hfresh b); [now right | exact Hin].
      * now apply Ha.
    + reflexivity.
    + rewrite values_app. cbn [values map snd nth] in *.
      rewrite sum_snoc, Hinv. reflexivity.
Qed.

(** The loop fails exactly at the first archetype that is missing from the
    table and has a count other than 0. *)
Lemma total_loop_failure (seller_counts : dict Z) :
  forall (total : list Q) (contribs : dict Q),
    List.length total = 5%nat ->
    match first_unknown profiles (fun c => negb (c =? 0)%Z) seller_counts with
    | Some a =>
        for_each seller_counts (total_body profiles) (total, contribs) =
        Raise (KeyError a)
    | None =>
        exists r,
        for_each seller_counts (total_body profiles) (total, contribs) = Ok r
    end.
Proof.
  unfold first_unknown.
  induction seller_counts as [|[a c] rest IH]; intros total contribs Ht.
  - cbn. now eexists.
  - cbn [find for_each fst snd].
    destruct (Z.eqb_spec c 0) as [->|Hc]; cbn [negb andb].
    + destruct (total_body_ok total contribs a 0 _ Ht (simulate_zero _ _ _))
        as (t0 & t1 & t2 & t3 & t4 & a0 & a1 & a2 & a3 & a4 & -> & _ & Hb).
      rewrite Hb. cbn [bind]. now apply IH.
    + destruct (lookup profiles a) as [p|] eqn:Hl.
      * destruct (total_body_ok total contribs a c _ Ht
                    (simulate_known _ _ p _ 60 Hl Hc))
          as (t0 & t1 & t2 & t3 & t4 & a0 & a1 & a2 & a3 & a4 & -> & _ & Hb).
        rewrite Hb. cbn [bind]. now apply IH.
      * cbn [option_map fst].
        now rewrite (total_body_raise _ _ _ _ _
                       (simulate_unknown _ _ _ 60 Hl Hc)).
Qed.

(** The whole call fails exactly when its loop does. *)
Lemma total_failure (seller_counts : dict Z) :
  match first_unknown profiles (fun c => negb (c =? 0)%Z) seller_counts with
  | Some a => calculate_total_ltv profiles seller_counts = Raise (KeyError a)
  | None => is_ok (calculate_total_ltv profiles seller_counts) = true
  end.
Proof.
  pose proof (total_loop_failure seller_counts (list_repeat 0 5) [] eq_refl)
    as H.
  unfold calculate_total_ltv, items; cbv zeta.
  destruct (first_unknown profiles _ seller_counts).
  - exact H.
  - destruct H as (r & Hr). exact (f_equal is_ok Hr).
Qed.

End TotalLoop.

(** ** The loops of [calculate_ltv_impact] *)

Section ImpactLoop.

Import Annual.

Variable table : dict archetype_data.

Lemma project_years_unfold (data : archetype_data) (count : Z) :
  let b := avg_ltv data in
  let g := growth_rate data in
  let r := retention_rate data in
  let n := inject_Z count in
  project_years data count =
  [ b * (1 + g) ^ 1 * n;
    b * (1 + g) ^ 2 * (n * r);
    b * (1 + g) ^ 3 * (n * r * r);
    b * (1 + g) ^ 4 * (n * r * r * r);
    b * (1 + g) ^ 5 * (n * r * r * r * r) ].
Proof. reflexivity. Qed.

Lemma keys_contributions_of (seller_counts : dict Z) (a : string) :
  In a (keys (contributions_of table seller_counts)) ->
  In a (keys seller_counts).
Proof.
  induction seller_counts as [|[b c] rest IH];
    cbn [contributions_of flat_map]; [tauto|].
  fold (contributions_of table rest).
  rewrite keys_app. intro H. apply in_app_or in H.
  destruct H as [H|H].
  - left. destruct (c >? 0)%Z; [|contradiction].
    destruct (lookup table b); [|contradiction].
    destruct H as [<-|[]]. reflexivity.
  - right. now apply IH.
Qed.

Lemma impact_loop_ok (seller_counts : dict Z) :
  forall (total_impact : Q) (contribs : dict contribution)
         (total_impact' : Q) (contribs' : dict contribution),
    NoDup (keys seller_counts) ->
    (forall a, In a (keys seller_counts) -> ~ In a (keys contribs)) ->
    for_each seller_counts (impact_body table) (total_impact, contribs) =
    Ok (total_impact', contribs') ->
    contribs' = contribs ++ contributions_of table seller_counts /\
    total_impact' ==
    total_impact +
    sum (map total (values (contributions_of table seller_counts))).
Proof.
  induction seller_counts as [|[a c] rest IH];
    intros t0 c0 t1 c1 Hnd Hfresh Hrun.
  - cbn in Hrun. apply Ok_inj in Hrun. injection Hrun as <- <-.
    cbn [contributions_of flat_map values map].
    rewrite app_nil_r, sum_nil. split; [reflexivity | ring].
  - cbn [for_each impact_body] in Hrun.
    cbn [keys map fst] in Hnd, Hfresh.
    inversion Hnd as [|? ? Ha Hnd']; subst.
    cbn [contributions_of flat_map]. fold (contributions_of table rest).
    destruct (c >? 0)%Z.
    + unfold dict_get in Hrun.
      destruct (lookup table a) as [data|]; [|discriminate].
      cbn [bind] in Hrun.
      rewrite dict_set_fresh in Hrun by (apply Hfresh; now left).
      apply IH in Hrun; [|exact Hnd'|].
      * destruct Hrun as [-> Ht]. split.
        -- now rewrite <- app_assoc.
        -- rewrite Ht. rewrite values_app, map_app, sum_app.
           cbn [values map snd contribution_of total].
           rewrite sum_cons, sum_nil. ring.
      * intros b Hb Hin. rewrite keys_app in Hin.
        apply in_app_or in Hin. destruct Hin as [Hin|[<-|[]]].
        -- apply (Hfresh b); [now right | exact Hin].
        -- now apply Ha.
    + cbn [bind] in Hrun. apply IH in Hrun; [|exact Hnd'|].
      * exact Hrun.
      * intros b Hb. apply Hfresh. now right.
Qed.

(** The loop fails exactly at the first archetype that is missing from the
    table and has a positive count. *)
Lemma impact_loop_failure (seller_counts : dict Z) :
  forall (st : Q * dict contribution),
    match first_unknown table (fun c => (c >? 0)%Z) seller_counts with
    | Some a =>
        for_each seller_counts (impact_body table) st = Raise (KeyError a)
    | None =>
        exists r, for_each seller_counts (impact_body table) st = Ok r
    end.
Proof.
  unfold first_unknown.
  induction seller_counts as [|[a c] rest IH]; intros [t0 c0].
  - cbn. now eexists.
  - cbn [find for_each fst snd impact_body].
    destruct (c >? 0)%Z; cbn [andb].
    + unfold dict_get. destruct (lookup table a) as [data|].
      * cbn [bind]. apply IH.
      * reflexivity.
    + cbn [bind]. apply IH.
Qed.

Lemma getitem_nth {A : Type} (xs : list A) (i : nat) (d : A) :
  (i < List.length xs)%nat -> getitem xs (Z.of_nat i) = Ok (nth i xs d).
Proof.
  intro Hi. unfold getitem.
  destruct (Z.ltb_spec (Z.of_nat i) 0) as [?|_]; [lia|].
  destruct (Z.ltb_spec (Z.of_nat i) 0) as [?|_]; [lia|].
  destruct (Z.leb_spec (Z.of_nat (List.length xs)) (Z.of_nat i)) as [?|_];
    [lia|].
  cbn [orb]. rewrite Nat2Z.id.
  destruct (nth_error xs i) as [x|] eqn:Hn.
  - now rewrite (nth_error_nth _ _ d Hn).
  - apply nth_error_None in Hn. lia.
Qed.

Lemma contributions_of_well_formed (seller_counts : dict Z) :
  Forall well_formed (values (contributions_of table seller_counts)).
Proof.
  induction seller_counts as [|[a c] rest IH];
    cbn [contributions_of flat_map]; [constructor|].
  fold (contributions_of table rest). rewrite values_app.
  apply Forall_app. split; [|exact IH].
  destruct (c >? 0)%Z; [|constructor].
  destruct (lookup table a); constructor; [|constructor].
  split; reflexivity.
Qed.

Lemma column (cs : list contribution) (year : Z) :
  Forall well_formed cs -> (0 <= year < 5)%Z ->
  comprehension (fun contrib => getitem (yearly contrib) year) cs =
  Ok (map (fun contrib => nth (Z.to_nat year) (yearly contrib) 0) cs).
Proof.
  intros Hwf Hy. induction Hwf as [|c cs [Hlen _] _ IH].
  - reflexivity.
  - cbn [comprehension map].
    rewrite <- (Z2Nat.id year) at 1 by lia.
    rewrite (getitem_nth _ _ 0) by lia. cbn [bind].
    rewrite IH. reflexivity.
Qed.

Lemma projection_loop (contribs : dict contribution) :
  Forall well_formed (values contribs) ->
  for_each (range 0 5) (projection_body contribs) [] =
  Ok (map (fun year =>
             sum (map (fun contrib => nth year (yearly contrib) 0)
                      (values contribs)))
          (seq 0 5)).
Proof.
  intro Hwf. rewrite range_0_5. cbn [for_each]. unfold projection_body.
  rewrite !(column _ _ Hwf) by lia. reflexivity.
Qed.


End ImpactLoop.

(** ** The stable sort by decreasing key *)

Section SortReverse.

Context {A : Type}.
Variable key : A -> Q.

Lemma insert_reverse_perm (x : A) (xs : list A) :
  Permutation (insert_reverse key x xs) (x :: xs).
Proof.
  induction xs as [|y xs IH]; cbn [insert_reverse].
  - reflexivity.
  - destruct (Qle_bool (key y) (key x)).
    + reflexivity.
    + rewrite IH. apply perm_swap.
Qed.

Lemma sort_reverse_perm (xs : list A) : Permutation (sort_reverse key xs) xs.
Proof.
  induction xs as [|x xs IH]; cbn [sort_reverse fold_right].
  - reflexivity.
  - fold (sort_reverse key xs). now rewrite insert_reverse_perm, IH.
Qed.

Lemma insert_reverse_sorted (x : A) (xs : list A) :
  StronglySorted (key_ge key) xs ->
  StronglySorted (key_ge key) (insert_reverse key x xs).
Proof.
  induction 1 as [|y xs Hs IH Hall]; cbn [insert_reverse].
  - repeat constructor.
  - destruct (Qle_bool (key y) (key x)) eqn:Hle.
    + apply Qle_bool_iff in Hle. constructor.
      * now constructor.
      * constructor; [exact Hle|].
        eapply Forall_impl; [|exact Hall].
        intros z Hz. unfold key_ge in *. lra.
    + constructor; [exact IH|].
      apply (Permutation_Forall (Permutation_sym (insert_reverse_perm x xs))).
      constructor; [|exact Hall].
      unfold key_ge.
      destruct (Qlt_le_dec (key y) (key x)) as [Hlt|Hge]; [|exact Hge].
      apply Qlt_le_weak, Qle_bool_iff in Hlt. congruence.
Qed.

Lemma sort_reverse_sorted (xs : list A) :
  StronglySorted (key_ge key) (sort_reverse key xs).
Proof.
  induction xs as [|x xs IH]; cbn [sort_reverse fold_right].
  - constructor.
  - now apply insert_reverse_sorted.
Qed.

(** Stability: the items of any one key keep the order they had. *)
Lemma insert_reverse_stable (q : Q) (x : A) (xs : list A) :
  filter (has_key key q) (insert_reverse key x xs) =
  filter (has_key key q) (x :: xs).
Proof.
  induction xs as [|y xs IH]; cbn [insert_reverse].
  - reflexivity.
  - destruct (Qle_bool (key y) (key x)) eqn:Hle; [reflexivity|].
    cbn [filter] in *. rewrite IH. unfold has_key.
    destruct (Qeq_bool (key y) q) eqn:Hy; [|reflexivity].
    destruct (Qeq_bool (key x) q) eqn:Hx; [|reflexivity].
    apply Qeq_bool_iff in Hx, Hy.
    assert (Habs : Qle_bool (key y) (key x) = true)
      by (apply Qle_bool_iff; lra).
    congruence.
Qed.

Lemma sort_reverse_stable (q : Q) (xs : list A) :
  filter (has_key key q) (sort_reverse key xs) = filter (has_key key q) xs.
Proof.
  induction xs as [|x xs IH]; cbn [sort_reverse fold_right].
  - reflexivity.
  - fold (sort_reverse key xs). rewrite insert_reverse_stable.
    cbn [filter]. now rewrite IH.
Qed.

End SortReverse.

(** ** The loop that fills [efficiency_data] *)

Section Efficiency.

Import Survival.

Variable seller_counts : dict Z.

Lemma truediv_positive (x : Q) (count : Z) :
  (0 < count)%Z -> truediv x (inject_Z count) = Ok (x / inject_Z count).
Proof.
  intro H. unfold truediv.
  destruct (Qeq_bool (inject_Z count) 0) eqn:E; [|reflexivity].
  apply Qeq_bool_iff in E. unfold Qeq in E. cbn in E. lia.
Qed.

Lemma efficiency_loop (contribs : dict Q) :
  forall acc : list (string * Q),
    (forall a, In a (keys contribs) -> lookup seller_counts a <> None) ->
    for_each contribs (efficiency_body seller_counts) acc =
    Ok (acc ++ efficiencies contribs seller_counts).
Proof.
  induction contribs as [|[a c] rest IH]; intros acc Hk.
  - cbn. now rewrite app_nil_r.
  - cbn [for_each efficiency_body efficiencies flat_map].
    fold (efficiencies rest seller_counts).
    unfold dict_get.
    destruct (lookup seller_counts a) as [count|] eqn:Hl.
    2: { exfalso. apply (Hk a); [now left | exact Hl]. }
    cbn [bind].
    destruct (Z.gtb_spec count 0) as [Hpos|_].
    + rewrite truediv_positive by lia. cbn [bind].
      rewrite IH by (intros b Hb; apply Hk; now right).
      now rewrite <- app_assoc.
    + cbn [bind]. apply IH. intros b Hb. apply Hk. now right.
Qed.

Lemma efficiencies_keys (contribs : dict Q) (a : string) :
  In a (keys (efficiencies contribs seller_counts)) <->
  In a (keys contribs) /\
  exists count, lookup seller_counts a = Some count /\ (count > 0)%Z.
Proof.
  induction contribs as [|[b c] rest IH];
    cbn [efficiencies flat_map keys map fst In].
  - tauto.
  - fold (efficiencies rest seller_counts).
    change (map fst ?d) with (keys d). rewrite keys_app, in_app_iff, IH.
    assert (Hhead :
      In a (keys match lookup seller_counts b with
                 | Some count =>
                     if (count >? 0)%Z then [(b, c / inject_Z count)] else []
                 | None => []
                 end) <->
      b = a /\
      exists count, lookup seller_counts a = Some count /\ (count > 0)%Z).
    { destruct (lookup seller_counts b) as [count|] eqn:Hl.
      - destruct (Z.gtb_spec count 0) as [Hpos|Hneg]; cbn.
        + split.
          * intros [<-|[]]. split; [reflexivity|].
            exists count. split; [exact Hl|lia].
          * intros [<- _]. now left.
        + split; [tauto|]. intros [<- (n & Hn & Hp)]. rewrite Hl in Hn.
          injection Hn as <-. lia.
      - cbn. split; [tauto|]. intros [<- (n & Hn & _)]. congruence. }
    rewrite Hhead. tauto.
Qed.

End Efficiency.

(** ** [max] and [index] *)

Section MaxIndex.

Lemma greater_cases (m y : Q) :
  (greater m y = m /\ y <= m) \/ (greater m y = y /\ m < y).
Proof.
  unfold greater. destruct (Qcompare_spec m y) as [H|H|H].
  - left. split; [reflexivity | lra].
  - right. now split.
  - left. split; [reflexivity | lra].
Qed.

Lemma fold_greater (xs : list Q) :
  forall m0 : Q,
    let m := fold_left greater xs m0 in
    (m = m0 \/ In m xs) /\ m0 <= m /\ Forall (fun x => x <= m) xs.
Proof.
  induction xs as [|y xs IH]; intro m0; cbn [fold_left].
  - repeat split; [now left | lra | constructor].
  - destruct (IH (greater m0 y)) as (Hin & Hle & Hall).
    destruct (greater_cases m0 y) as [[E Hy]|[E Hy]]; rewrite E in *.
    + repeat split.
      * destruct Hin as [->|Hin]; [now left | right; now right].
      * exact Hle.
      * constructor; [lra | exact Hall].
    + repeat split.
      * destruct Hin as [->|Hin]; right; [now left | now right].
      * lra.
      * constructor; [exact Hle | exact Hall].
Qed.

Lemma max_spec (x : Q) (xs : list Q) :
  exists m, max (x :: xs) = Ok m /\ In m (x :: xs) /\
            Forall (fun y => y <= m) (x :: xs).
Proof.
  exists (fold_left greater xs x).
  destruct (fold_greater xs x) as (Hin & Hle & Hall).
  split; [reflexivity|]. split.
  - destruct Hin as [->|Hin]; [now left | now right].
  - constructor; assumption.
Qed.

Lemma index_spec (xs : list Q) (v : Q) :
  (exists x, In x xs /\ x == v) ->
  exists i : nat,
    index xs v = Ok (Z.of_nat i) /\ (i < List.length xs)%nat /\
    nth i xs 0 == v /\
    forall j, (j < i)%nat -> ~ nth j xs 0 == v.
Proof.
  induction xs as [|y xs IH]; intros (x & Hin & Hx).
  - contradiction.
  - cbn [index]. destruct (Qeq_bool y v) eqn:E.
    + exists 0%nat. apply Qeq_bool_iff in E.
      repeat split; [cbn; lia | exact E | intros j Hj; lia].
    + apply Qeq_bool_neq in E.
      destruct Hin as [->|Hin]; [contradiction|].
      destruct IH as (i & Hi & Hlen & Hnth & Hfirst); [now exists x|].
      exists (S i). rewrite Hi. cbn [bind List.length nth].
      repeat split.
      * f_equal. lia.
      * lia.
      * exact Hnth.
      * intros [|j] Hj; [exact E | apply Hfirst; lia].
Qed.

End MaxIndex.

(** ** What [calculate_ltv_impact] returns *)

Section Impact.

Import Annual.

Variable table : dict archetype_data.

Lemma dict_set_values_Forall {V : Type} (P : V -> Prop) (d : dict V)
      (k : string) (v : V) :
  Forall P (values d) -> P v -> Forall P (values (dict_set d k v)).
Proof.
  intros Hd Hv. induction d as [|[k' v'] d IH]; cbn [dict_set].
  - repeat constructor. exact Hv.
  - cbn [values map snd] in Hd. inversion Hd as [|? ? Hv' Hd']; subst.
    destruct (String.eqb k' k); cbn [values map snd]; constructor; auto.
Qed.

Lemma impact_loop_well_formed (seller_counts : dict Z) :
  forall (st st' : Q * dict contribution),
    Forall well_formed (values (snd st)) ->
    for_each seller_counts (impact_body table) st = Ok st' ->
    Forall well_formed (values (snd st')).
Proof.
  induction seller_counts as [|[a c] rest IH]; intros [t0 c0] st' Hwf Hrun.
  - cbn in Hrun. apply Ok_inj in Hrun. now subst.
  - cbn [for_each impact_body] in Hrun.
    destruct (c >? 0)%Z.
    + unfold dict_get in Hrun.
      destruct (lookup table a) as [data|]; [|discriminate].
      cbn [bind] in Hrun. eapply IH; [|exact Hrun].
      cbn [snd] in *. apply dict_set_values_Forall; [exact Hwf|].
      split; reflexivity.
    + cbn [bind] in Hrun. eapply IH; [|exact Hrun]. exact Hwf.
Qed.

(** The whole call fails exactly when its first loop does. *)
Lemma impact_failure (seller_counts : dict Z) :
  match first_unknown table (fun c => (c >? 0)%Z) seller_counts with
  | Some a => calculate_ltv_impact table seller_counts = Raise (KeyError a)
  | None => is_ok (calculate_ltv_impact table seller_counts) = true
  end.
Proof.
  unfold calculate_ltv_impact, items; cbv zeta.
  pose proof (impact_loop_failure table seller_counts
                (@pair Q (dict contribution) 0 [])) as H.
  destruct (first_unknown table _ seller_counts) as [a|].
  - now rewrite H.
  - destruct H as ([t c] & H). rewrite H. cbn [bind].
    rewrite projection_loop; [reflexivity|].
    apply (impact_loop_well_formed _ (@pair Q (dict contribution) 0 []) (t, c)
             (Forall_nil _) H).
Qed.

Lemma impact_ok (seller_counts : dict Z) (total_impact : Q)
      (yearly_projections : list Q) (contribs : dict contribution) :
  NoDup (keys seller_counts) ->
  calculate_ltv_impact table seller_counts =
  Ok (total_impact, yearly_projections, contribs) ->
  contribs = contributions_of table seller_counts /\
  total_impact == sum (map total (values contribs)) /\
  yearly_projections =
  map (fun year =>
         sum (map (fun c => nth year (yearly c) 0) (values contribs)))
      (seq 0 5).
Proof.
  intros Hnd Hrun. unfold calculate_ltv_impact, items in Hrun.
  cbv zeta in Hrun.
  destruct (for_each seller_counts (impact_body table)
              (@pair Q (dict contribution) 0 []))
    as [[t c]|e] eqn:Hloop; [|discriminate].
  cbn [bind] in Hrun.
  apply impact_loop_ok in Hloop; [|exact Hnd|intros a _ []].
  destruct Hloop as [Hc Ht]. cbn [app] in Hc. subst c.
  rewrite projection_loop in Hrun
    by apply contributions_of_well_formed.
  cbn [bind] in Hrun. apply Ok_inj in Hrun.
  injection Hrun as <- <- <-.
  repeat split. rewrite Ht. ring.
Qed.

Lemma first_unknown_None (seller_counts : dict Z) (a : string) (n : Z) :
  first_unknown table (fun c => (c >? 0)%Z) seller_counts = None ->
  In (a, n) seller_counts -> (n > 0)%Z -> lookup table a <> None.
Proof.
  unfold first_unknown. intros H Hin Hn Hl.
  destruct (find _ seller_counts) as [x|] eqn:Hf; [discriminate|].
  apply (find_none _ _ Hf) in Hin. cbn [fst snd] in Hin.
  rewrite Hl in Hin. destruct (Z.gtb_spec n 0); [discriminate | lia].
Qed.

Lemma impact_ok_known (seller_counts : dict Z)
      (r : Q * list Q * dict contribution) (a : string) (n : Z) :
  calculate_ltv_impact table seller_counts = Ok r ->
  In (a, n) seller_counts -> (n > 0)%Z -> lookup table a <> None.
Proof.
  intros Hrun. pose proof (impact_failure seller_counts) as H.
  destruct (first_unknown table _ seller_counts) as [b|] eqn:Hf.
  - congruence.
  - now apply first_unknown_None.
Qed.

Lemma contributions_of_In (seller_counts : dict Z) (a : string)
      (c : contribution) :
  In (a, c) (contributions_of table seller_counts) <->
  exists n data,
    In (a, n) seller_counts /\ (n > 0)%Z /\ lookup table a = Some data /\
    c = contribution_of data n.
Proof.
  unfold contributions_of. rewrite in_flat_map. split.
  - intros ([b n] & Hin & Hx).
    destruct (Z.gtb_spec n 0) as [Hn|_]; [|contradiction].
    destruct (lookup table b) as [data|] eqn:Hl; [|contradiction].
    destruct Hx as [[= -> <-]|[]]. exists n, data. repeat split; auto. lia.
  - intros (n & data & Hin & Hn & Hl & ->). exists (a, n). split; [exact Hin|].
    destruct (Z.gtb_spec n 0) as [_|?]; [|lia]. rewrite Hl. now left.
Qed.

Lemma contributions_of_NoDup (seller_counts : dict Z) :
  NoDup (keys seller_counts) ->
  NoDup (keys (contributions_of table seller_counts)).
Proof.
  induction seller_counts as [|[a n] rest IH]; intro Hnd;
    cbn [contributions_of flat_map]; [constructor|].
  fold (contributions_of table rest).
  cbn [keys map fst] in Hnd. inversion Hnd as [|? ? Ha Hnd']; subst.
  destruct (n >? 0)%Z; [|now apply IH].
  destruct (lookup table a); [|now apply IH].
  cbn [app keys map fst]. constructor; [|now apply IH].
  intro Hin. apply Ha. now apply (keys_contributions_of table).
Qed.

Lemma contributions_of_lookup (seller_counts : dict Z) (a : string) (n : Z)
      (data : archetype_data) :
  NoDup (keys seller_counts) -> In (a, n) seller_counts -> (n > 0)%Z ->
  lookup table a = Some data ->
  lookup (contributions_of table seller_counts) a =
  Some (contribution_of data n).
Proof.
  intros Hnd Hin Hn Hl. apply lookup_NoDup.
  - now apply contributions_of_NoDup.
  - apply contributions_of_In. now exists n, data.
Qed.

End Impact.

(** ** The failures of float arithmetic *)


Lemma comprehension_float_mul (n : Z) (xs : list Q) :
  comprehension (fun ltv => float_mul ltv (Int n)) xs =
  if fits_float n then Ok (map (fun ltv => ltv * inject_Z n) xs)
  else match xs with
       | [] => Ok []
       | _ :: _ => Raise OverflowError
       end.
Proof.
  unfold fits_float.
  destruct (Z.abs n <? float_limit)%Z eqn:E.
  - induction xs as [|x xs IH]; cbn [comprehension map]; [reflexivity|].
    rewrite IH. unfold float_mul, to_float, float_of_int. rewrite E.
    reflexivity.
  - destruct xs as [|x xs]; cbn [comprehension]; [reflexivity|].
    unfold float_mul, to_float, float_of_int. rewrite E. reflexivity.
Qed.

Section SurvivalOverflowLoop.

Variable profiles : dict Survival.archetype_params.

(** With the default of 60 months, a projection either fails as
    [survival_failure] says or is the projection without the limit. *)
Lemma overflow_simulate (a : string) (n : Z) :
  match survival_failure profiles (a, n) with
  | Some e =>
      SurvivalOverflow.simulate_archetype_ltv profiles a n 60 = Raise e
  | None =>
      SurvivalOverflow.simulate_archetype_ltv profiles a n 60 =
      Survival.simulate_archetype_ltv profiles a n 60
  end.
Proof.
  unfold survival_failure, SurvivalOverflow.simulate_archetype_ltv,
    Survival.simulate_archetype_ltv.
  destruct (n =? 0)%Z; [reflexivity|].
  unfold dict_get. destruct (lookup profiles a) as [p|]; [|reflexivity].
  cbn [bind]. rewrite comprehension_float_mul.
  destruct (fits_float n); [reflexivity|].
  rewrite range_to_nat, month_loop. reflexivity.
Qed.

Lemma overflow_total_body (st : list Q * dict Q) (a : string) (n : Z) :
  match survival_failure profiles (a, n) with
  | Some e => SurvivalOverflow.total_body profiles st (a, n) = Raise e
  | None =>
      SurvivalOverflow.total_body profiles st (a, n) =
      Survival.total_body profiles st (a, n)
  end.
Proof.
  pose proof (overflow_simulate a n) as H. destruct st as [total contribs].
  unfold SurvivalOverflow.total_body, Survival.total_body.
  destruct (survival_failure profiles (a, n)); now rewrite H.
Qed.

(** An entry without a failure is processed. *)
Lemma total_body_accepts (total : list Q) (contribs : dict Q) (a : string)
      (n : Z) :
  List.length total = 5%nat ->
  survival_failure profiles (a, n) = None ->
  exists total' contribs',
    Survival.total_body profiles (total, contribs) (a, n) =
    Ok (total', contribs') /\
    List.length total' = 5%nat.
Proof.
  intros Ht Hnone. unfold survival_failure in Hnone.
  assert (Hs : exists series,
             Survival.simulate_archetype_ltv profiles a n 60 = Ok series).
  { destruct (Z.eqb_spec n 0) as [->|Hn].
    - eexists. apply simulate_zero.
    - destruct (lookup profiles a) as [p|] eqn:Hl; [|discriminate].
      eexists. exact (simulate_known _ _ p _ 60 Hl Hn). }
  destruct Hs as (series & Hs).
  destruct (total_body_ok profiles total contribs a n series Ht Hs)
    as (t0 & t1 & t2 & t3 & t4 & a0 & a1 & a2 & a3 & a4 & _ & _ & Hb).
  do 2 eexists. split; [exact Hb | reflexivity].
Qed.

Lemma overflow_total_loop (seller_counts : dict Z) :
  forall (total : list Q) (contribs : dict Q),
    List.length total = 5%nat ->
    match first_failure (survival_failure profiles) seller_counts with
    | Some e =>
        for_each seller_counts (SurvivalOverflow.total_body profiles)
                 (total, contribs) = Raise e
    | None =>
        for_each seller_counts (SurvivalOverflow.total_body profiles)
                 (total, contribs) =
        for_each seller_counts (Survival.total_body profiles)
                 (total, contribs) /\
        exists r,
          for_each seller_counts (Survival.total_body profiles)
                   (total, contribs) = Ok r
    end.
Proof.
  induction seller_counts as [|[a n] rest IH]; intros total contribs Ht.
  - cbn. split; [reflexivity | now eexists].
  - cbn [first_failure for_each].
    pose proof (overflow_total_body (total, contribs) a n) as Hb.
    destruct (survival_failure profiles (a, n)) as [e|] eqn:Hf.
    + now rewrite Hb.
    + rewrite Hb.
      destruct (total_body_accepts total contribs a n Ht Hf)
        as (total' & contribs' & -> & Ht').
      cbn [bind]. now apply IH.
Qed.

(** The aggregator fails at the first entry that has a failure, with that
    failure; without one it is the aggregator without the limit. *)
Lemma overflow_total (seller_counts : dict Z) :
  match first_failure (survival_failure profiles) seller_counts with
  | Some e =>
      SurvivalOverflow.calculate_total_ltv profiles seller_counts = Raise e
  | None =>
      SurvivalOverflow.calculate_total_ltv profiles seller_counts =
      Survival.calculate_total_ltv profiles seller_counts /\
      is_ok (Survival.calculate_total_ltv profiles seller_counts) = true
  end.
Proof.
  pose proof (overflow_total_loop seller_counts (list_repeat 0 5) [] eq_refl)
    as H.
  unfold SurvivalOverflow.calculate_total_ltv, Survival.calculate_total_ltv,
    items; cbv zeta.
  destruct (first_failure (survival_failure profiles) seller_counts).
  - exact H.
  - destruct H as (H & r & Hr). split; [exact H|]. now rewrite Hr.
Qed.

End SurvivalOverflowLoop.

Section AnnualOverflowLoop.

Variable table : dict Annual.archetype_data.

Lemma float_pow_fits (x : Q) (y : Z) :
  (0 <= y)%Z ->
  float_pow x y =
  if power_fits x y then Ok (x ^ y) else Raise OverflowError.
Proof.
  intro Hy. unfold float_pow, power_fits.
  destruct (Z.ltb_spec y 0) as [?|_]; [lia|]. cbn [andb].
  now destruct (Qle_bool (inject_Z float_limit) (Qabs (x ^ y))).
Qed.

(** The year loop from the second year on, where [remaining_sellers] is a
    float. *)
Lemma overflow_year_loop (b g r : Q) (years : list Z) :
  Forall (fun y => (0 <= y)%Z) years ->
  forall (yearly : list Q) (remaining : Q),
    for_each years (AnnualOverflow.year_body b g r)
             {| AnnualOverflow.yearly_ltv := yearly;
                AnnualOverflow.remaining_sellers := Float remaining |} =
    if forallb (power_fits (1 + g)) years
    then
      Ok {| AnnualOverflow.yearly_ltv :=
              Annual.yearly_ltv
                (fold_left (Annual.year_body b g r) years
                   {| Annual.yearly_ltv := yearly;
                      Annual.remaining_sellers := remaining |});
            AnnualOverflow.remaining_sellers :=
              Float (Annual.remaining_sellers
                       (fold_left (Annual.year_body b g r) years
                          {| Annual.yearly_ltv := yearly;
                             Annual.remaining_sellers := remaining |})) |}
    else Raise OverflowError.
Proof.
  induction 1 as [|y years Hy Hyears IH]; intros yearly remaining.
  - reflexivity.
  - cbn [for_each forallb fold_left].
    unfold AnnualOverflow.year_body at 1.
    rewrite (float_pow_fits _ _ Hy).
    destruct (power_fits (1 + g) y); cbn [bind andb]; [|reflexivity].
    apply IH.
Qed.

Lemma overflow_project_years (data : Annual.archetype_data) (n : Z) :
  AnnualOverflow.project_years data n =
  if fits_float n && powers_fit data
  then Ok (Annual.project_years data n)
  else Raise OverflowError.
Proof.
  unfold AnnualOverflow.project_years, powers_fit.
  rewrite range_1_6.
  assert (Hyears : Forall (fun y => (0 <= y)%Z) [2; 3; 4; 5]%Z)
    by (repeat constructor; lia).
  change (forallb (power_fits (1 + Annual.growth_rate data))
                  [1; 2; 3; 4; 5]%Z)
    with (power_fits (1 + Annual.growth_rate data) 1 &&
          forallb (power_fits (1 + Annual.growth_rate data)) [2; 3; 4; 5]%Z).
  match goal with
  | |- context [for_each (?y :: ?ys) ?body ?st] =>
      change (for_each (y :: ys) body st)
        with (bind (body st y) (for_each ys body))
  end.
  unfold AnnualOverflow.year_body at 1.
  rewrite float_pow_fits by lia.
  unfold fits_float.
  destruct (power_fits (1 + Annual.growth_rate data) 1) eqn:E1;
    cbn [bind andb].
  - unfold float_mul, mul_float, to_float, float_of_int.
    cbn [AnnualOverflow.remaining_sellers AnnualOverflow.yearly_ltv].
    destruct (Z.abs n <? float_limit)%Z; cbn [bind andb]; [|reflexivity].
    rewrite (overflow_year_loop _ _ _ _ Hyears).
    destruct (forallb _ [2; 3; 4; 5]%Z); reflexivity.
  - now rewrite andb_false_r.
Qed.

Lemma overflow_impact_body (st : Q * dict Annual.contribution) (a : string)
      (n : Z) :
  match annual_failure table (a, n) with
  | Some e => AnnualOverflow.impact_body table st (a, n) = Raise e
  | None =>
      AnnualOverflow.impact_body table st (a, n) =
      Annual.impact_body table st (a, n) /\
      exists st', Annual.impact_body table st (a, n) = Ok st'
  end.
Proof.
  destruct st as [total contribs].
  unfold annual_failure, AnnualOverflow.impact_body, Annual.impact_body.
  destruct (n >? 0)%Z; [|split; [reflexivity | now eexists]].
  unfold dict_get. destruct (lookup table a) as [data|]; [|reflexivity].
  cbn [bind]. rewrite overflow_project_years.
  destruct (fits_float n && powers_fit data); [|reflexivity].
  split; [reflexivity | now eexists].
Qed.

Lemma overflow_impact_loop (seller_counts : dict Z) :
  forall st : Q * dict Annual.contribution,
    match first_failure (annual_failure table) seller_counts with
    | Some e =>
        for_each seller_counts (AnnualOverflow.impact_body table) st =
        Raise e
    | None =>
        for_each seller_counts (AnnualOverflow.impact_body table) st =
        for_each seller_counts (Annual.impact_body table) st
    end.
Proof.
  induction seller_counts as [|[a n] rest IH]; intro st.
  - reflexivity.
  - cbn [first_failure for_each].
    pose proof (overflow_impact_body st a n) as Hb.
    destruct (annual_failure table (a, n)) as [e|].
    + now rewrite Hb.
    + destruct Hb as (-> & st' & ->). cbn [bind]. apply IH.
Qed.

Lemma first_failure_unknown (seller_counts : dict Z) :
  first_failure (annual_failure table) seller_counts = None ->
  first_unknown table (fun c => (c >? 0)%Z) seller_counts = None.
Proof.
  unfold first_unknown.
  induction seller_counts as [|[a n] rest IH]; cbn [first_failure find];
    [reflexivity|].
  unfold annual_failure at 1. cbn [fst snd].
  destruct (n >? 0)%Z; cbn [andb]; [|exact IH].
  destruct (lookup table a) as [data|]; [|discriminate].
  destruct (fits_float n && powers_fit data); [exact IH | discriminate].
Qed.

Lemma overflow_impact (seller_counts : dict Z) :
  match first_failure (annual_failure table) seller_counts with
  | Some e =>
      AnnualOverflow.calculate_ltv_impact table seller_counts = Raise e
  | None =>
      AnnualOverflow.calculate_ltv_impact table seller_counts =
      Annual.calculate_ltv_impact table seller_counts /\
      is_ok (Annual.calculate_ltv_impact table seller_counts) = true
  end.
Proof.
  pose proof (overflow_impact_loop seller_counts
                (@pair Q (dict Annual.contribution) 0 [])) as H.
  pose proof (first_failure_unknown seller_counts) as Hu.
  pose proof (impact_failure table seller_counts) as Hok.
  unfold AnnualOverflow.calculate_ltv_impact; cbv zeta.
  destruct (first_failure (annual_failure table) seller_counts).
  - unfold items. now rewrite H.
  - rewrite (Hu eq_refl) in Hok. split; [|exact Hok].
    unfold Annual.calculate_ltv_impact, items; cbv zeta. now rewrite H.
Qed.

End AnnualOverflowLoop.


(** * The claims *)




(** C2, as amended.  Neither projection checks its allocation.  With the
    default of 60 months, [simulate_archetype_ltv] fails in two ways only:
    with [KeyError] on the archetype when the count is not 0 and the
    archetype is missing from the table, and with [OverflowError] when the
    archetype is there and the count is too large to be converted to a
    float.  [calculate_ltv_impact] fails for an entry with a count > 0 only:
    with [KeyError] when its archetype is missing, with [OverflowError] when
    the count is too large for a float or a power of 1 + growth_rate is out
    of range, which no power is on the table of the module.  The aggregators
    fail at the first entry of the allocation that has such a failure, with
    that failure.  Every other allocation, negative counts included, is
    projected, and to the result of the projection without a limit on
    floats. *)
Theorem projection_failures :
  (forall profiles archetype seller_count,
      match survival_failure profiles (archetype, seller_count) with
      | Some e =>
          SurvivalOverflow.simulate_archetype_ltv
            profiles archetype seller_count 60 = Raise e
      | None =>
          SurvivalOverflow.simulate_archetype_ltv
            profiles archetype seller_count 60 =
          Survival.simulate_archetype_ltv profiles archetype seller_count 60 /\
          is_ok (Survival.simulate_archetype_ltv
                   profiles archetype seller_count 60) = true
      end) /\
  (forall profiles seller_counts,
      match first_failure (survival_failure profiles) seller_counts with
      | Some e =>
          SurvivalOverflow.calculate_total_ltv profiles seller_counts =
          Raise e
      | None =>
          SurvivalOverflow.calculate_total_ltv profiles seller_counts =
          Survival.calculate_total_ltv profiles seller_counts /\
          is_ok (Survival.calculate_total_ltv profiles seller_counts) = true
      end) /\
  (forall table seller_counts,
      match first_failure (annual_failure table) seller_counts with
      | Some e =>
          AnnualOverflow.calculate_ltv_impact table seller_counts = Raise e
      | None =>
          AnnualOverflow.calculate_ltv_impact table seller_counts =
          Annual.calculate_ltv_impact table seller_counts /\
          is_ok (Annual.calculate_ltv_impact table seller_counts) = true
      end) /\
  forallb (fun item : string * Annual.archetype_data =>
             powers_fit (snd item))
          Annual.ARCHETYPE_DATA = true.
Proof.
  split; [|split; [|split; [|vm_compute; reflexivity]]].
  - intros profiles a n.
    pose proof (overflow_simulate profiles a n) as H.
    destruct (survival_failure profiles (a, n)) as [e|] eqn:Hf;
      [exact H|].
    split; [exact H|]. unfold survival_failure in Hf.
    destruct (Z.eq_dec n 0) as [E|Hn].
    + rewrite E, simulate_zero. reflexivity.
    + pose proof (proj2 (Z.eqb_neq n 0) Hn) as Hnb. rewrite Hnb in Hf.
      destruct (lookup profiles a) as [p|] eqn:Hl; [|discriminate].
      now rewrite (simulate_known _ _ p) by assumption.
  - intros profiles seller_counts. apply overflow_total.
  - intros table seller_counts. apply overflow_impact.
Qed.

(** A count of 10^400 does not fit a float: both projections raise
    [OverflowError] on it. *)
Lemma huge_count_overflows :
  SurvivalOverflow.simulate_archetype_ltv Survival.ARCHETYPE_PARAMS
    "Born Successful" (10 ^ 400) 12 = Raise OverflowError /\
  AnnualOverflow.calculate_ltv_impact Annual.ARCHETYPE_DATA
    [("Rising_Star"%string, (10 ^ 400)%Z)] = Raise OverflowError.
Proof.
  split; vm_compute; reflexivity.
Qed.

(** C2 as stated fails: an allocation that names an archetype missing from
    the table (with count 0) and gives a negative count is projected without
    any failure by both aggregators. *)
Lemma unknown_and_negative_are_accepted :
  is_ok (Survival.calculate_total_ltv Survival.ARCHETYPE_PARAMS
           [("Nobody"%string, 0%Z); ("Born Successful"%string, (-1)%Z)]) =
  true /\
  Annual.calculate_ltv_impact Annual.ARCHETYPE_DATA
    [("Nobody"%string, 0%Z); ("Rising_Star"%string, (-1)%Z)] =
  Ok (0, [0; 0; 0; 0; 0], []).
Proof.
  split; [|reflexivity].
  exact (total_failure Survival.ARCHETYPE_PARAMS
           [("Nobody"%string, 0%Z); ("Born Successful"%string, (-1)%Z)]).
Qed.



(** C4.  For each archetype with a positive count the year loop of
    [calculate_ltv_impact] books [base * (1 + growth)^y * remaining] for the
    years y = 1..5, starting from [remaining = count] and multiplying
    [remaining] by the retention rate only after the year is booked; so the
    entry of year y is [base * (1 + growth)^y * (count * retention^(y-1))].
    With base 1000, growth 0.10, retention 0.80 and 100 sellers the first
    three years are 110000, 96800 and 85184 (then 74961.92 and
    65966.4896). *)
Theorem annual_growth_retention_model :
  (forall table seller_counts archetype data count
          total_impact yearly_projections archetype_contributions,
      NoDup (keys seller_counts) ->
      In (archetype, count) seller_counts ->
      (0 < count)%Z ->
      lookup table archetype = Some data ->
      Annual.calculate_ltv_impact table seller_counts =
      Ok (total_impact, yearly_projections, archetype_contributions) ->
      let b := Annual.avg_ltv data in
      let g := Annual.growth_rate data in
      let r := Annual.retention_rate data in
      (forall st year,
          let st' := Annual.year_body b g r st year in
          Annual.yearly_ltv st' =
          Annual.yearly_ltv st ++
          [b * (1 + g) ^ year * Annual.remaining_sellers st] /\
          Annual.remaining_sellers st' = Annual.remaining_sellers st * r) /\
      exists contrib,
        lookup archetype_contributions archetype = Some contrib /\
        series_eq (Annual.yearly contrib)
          (map (fun year =>
                  b * (1 + g) ^ year * (inject_Z count * r ^ (year - 1)))
               (range 1 6)) /\
        Annual.total contrib = sum (Annual.yearly contrib)) /\
  (exists total_impact yearly_projections contrib,
      Annual.calculate_ltv_impact scenario_data [(scenario, 100%Z)] =
      Ok (total_impact, yearly_projections, [(scenario, contrib)]) /\
      series_eq (Annual.yearly contrib)
        [110000; 96800; 85184; 74961.92; 65966.4896]).
Proof.
  split.
  - intros table seller_counts a data n t y c Hnd Hin Hn Hl Hrun b g r.
    split; [intros st year; split; reflexivity|].
    destruct (impact_ok table _ _ _ _ Hnd Hrun) as (-> & _ & _).
    exists (contribution_of data n).
    split; [apply contributions_of_lookup; auto; lia|].
    split; [|reflexivity].
    cbn [contribution_of Annual.yearly].
    rewrite project_years_unfold, range_1_6. cbn [map].
    fold b g r. unfold series_eq.
    repeat constructor; simpl Z.sub; ring.
  - do 3 eexists. split; [reflexivity|].
    cbn [Annual.yearly]. unfold series_eq.
    repeat constructor; vm_compute; reflexivity.
Qed.

Lemma annual_growth_retention_model_witness :
  exists contrib,
    lookup [(scenario, contribution_of scenario_archetype 100)] scenario =
    Some contrib /\
    series_eq (Annual.yearly contrib)
      (map (fun year =>
              1000 * (1 + 0.10) ^ year * (inject_Z 100 * 0.80 ^ (year - 1)))
           (range 1 6)) /\
    Annual.total contrib = sum (Annual.yearly contrib).
Proof.
  refine (proj2 (proj1 annual_growth_retention_model
                   scenario_data [(scenario, 100%Z)] scenario
                   scenario_archetype 100%Z _ _ _ _ _ _ eq_refl eq_refl)).
  - repeat constructor. cbn. tauto.
  - now left.
  - lia.
Defined.

(** C5.  A count of 0 takes a path of its own that reads no profile and does
    no arithmetic: for every archetype name, in the table or not,
    [simulate_archetype_ltv] returns five zeros over the 60-month horizon
    (months/12 zeros in general), and [calculate_ltv_impact] skips the entry,
    so that an allocation giving the archetype a count of 0 projects to five
    zeros. *)
Theorem zero_count_fast_path (archetype : string) :
  (forall profiles,
      Survival.simulate_archetype_ltv profiles archetype 0 60 =
      Ok [0; 0; 0; 0; 0]) /\
  (forall profiles months,
      Survival.simulate_archetype_ltv profiles archetype 0 months =
      Ok (list_repeat 0 (months / 12))) /\
  (forall table st, Annual.impact_body table st (archetype, 0%Z) = Ok st) /\
  (forall table,
      Annual.calculate_ltv_impact table [(archetype, 0%Z)] =
      Ok (0, [0; 0; 0; 0; 0], [])).
Proof.
  repeat split.
  intros table [t c]. reflexivity.
Qed.









(** C8.  When every archetype of the contributions has a count, the ranking
    is computed without a failure (no division by a zero count) and it is
    the list of contribution/count for exactly the archetypes with a count
    > 0, sorted by decreasing efficiency, archetypes of equal efficiency
    keeping the order of the contributions.  For contributions A: 500,
    B: 1000 and counts A: 10, B: 10 it is B (100) then A (50); for
    contributions A: 500, B: 500, C: 0 and counts A: 10, B: 10, C: 0 it is
    A then B, without C. *)
Theorem efficiency_ranking :
  (forall archetype_contributions seller_counts,
      (forall a, In a (keys archetype_contributions) ->
                 In a (keys seller_counts)) ->
      exists ranking,
        Survival.efficiency_data archetype_contributions seller_counts =
        Ok ranking /\
        Permutation ranking
          (efficiencies archetype_contributions seller_counts) /\
        (forall a,
            In a (keys ranking) <->
            In a (keys archetype_contributions) /\
            exists count,
              lookup seller_counts a = Some count /\ (count > 0)%Z) /\
        StronglySorted (key_ge snd) ranking /\
        (forall q,
            filter (has_key snd q) ranking =
            filter (has_key snd q)
                   (efficiencies archetype_contributions seller_counts))) /\
  (exists efficiency_B efficiency_A,
      Survival.efficiency_data
        [("A"%string, 500); ("B"%string, 1000)]
        [("A"%string, 10%Z); ("B"%string, 10%Z)] =
      Ok [("B"%string, efficiency_B); ("A"%string, efficiency_A)] /\
      efficiency_B == 100 /\ efficiency_A == 50) /\
  (exists efficiency_A efficiency_B,
      Survival.efficiency_data
        [("A"%string, 500); ("B"%string, 500); ("C"%string, 0)]
        [("A"%string, 10%Z); ("B"%string, 10%Z); ("C"%string, 0%Z)] =
      Ok [("A"%string, efficiency_A); ("B"%string, efficiency_B)] /\
      efficiency_A == efficiency_B).
Proof.
  split.
  - intros contribs seller_counts Hkeys.
    exists (sort_reverse snd (efficiencies contribs seller_counts)).
    split.
    + unfold Survival.efficiency_data, items.
      rewrite efficiency_loop.
      * cbn [bind app].
        now destruct (efficiencies contribs seller_counts).
      * intros a Ha Hl. apply lookup_None in Hl. apply Hl, Hkeys, Ha.
    + split; [apply sort_reverse_perm|]. split; [|split].
      * intro a. rewrite <- efficiencies_keys. unfold keys.
        split; apply Permutation_in, Permutation_map;
          [|apply Permutation_sym]; apply sort_reverse_perm.
      * apply sort_reverse_sorted.
      * intro q. apply sort_reverse_stable.
  - split.
    + do 2 eexists. split; [reflexivity|]. split; reflexivity.
    + do 2 eexists. split; reflexivity.
Qed.

Lemma efficiency_ranking_witness :
  exists ranking,
    Survival.efficiency_data
      [("A"%string, 500); ("B"%string, 500); ("C"%string, 0)]
      [("A"%string, 10%Z); ("B"%string, 10%Z); ("C"%string, 0%Z)] =
    Ok ranking /\
    Permutation ranking
      (efficiencies
         [("A"%string, 500); ("B"%string, 500); ("C"%string, 0)]
         [("A"%string, 10%Z); ("B"%string, 10%Z); ("C"%string, 0%Z)]) /\
    (forall a,
        In a (keys ranking) <->
        In a (keys [("A"%string, 500); ("B"%string, 500); ("C"%string, 0)]) /\
        exists count,
          lookup [("A"%string, 10%Z); ("B"%string, 10%Z); ("C"%string, 0%Z)] a =
          Some count /\ (count > 0)%Z) /\
    StronglySorted (key_ge snd) ranking /\
    (forall q,
        filter (has_key snd q) ranking =
        filter (has_key snd q)
          (efficiencies
             [("A"%string, 500); ("B"%string, 500); ("C"%string, 0)]
             [("A"%string, 10%Z); ("B"%string, 10%Z); ("C"%string, 0%Z)])).
Proof.
  apply (proj1 efficiency_ranking
           [("A"%string, 500); ("B"%string, 500); ("C"%string, 0)]
           [("A"%string, 10%Z); ("B"%string, 10%Z); ("C"%string, 0%Z)]).
  intros a Ha. exact Ha.
Defined.

(** C9.  For a series that is not empty, the best year is the position of a
    greatest value of the series, and every earlier year is strictly
    smaller: of several greatest years the earliest is chosen. *)
Theorem best_performing_year (yearly_projections : list Q) :
  yearly_projections <> [] ->
  exists year : nat,
    Annual.max_year_idx yearly_projections = Ok (Z.of_nat year) /\
    (year < List.length yearly_projections)%nat /\
    (forall other,
        (other < List.length yearly_projections)%nat ->
        nth other yearly_projections 0 <= nth year yearly_projections 0) /\
    (forall earlier,
        (earlier < year)%nat ->
        nth earlier yearly_projections 0 < nth year yearly_projections 0).
Proof.
  destruct yearly_projections as [|x xs]; [congruence|]. intros _.
  destruct (max_spec x xs) as (m & Hmax & Hin & Hall).
  destruct (index_spec (x :: xs) m) as (i & Hi & Hlen & Hnth & Hfirst).
  { exists m. split; [exact Hin | reflexivity]. }
  exists i. unfold Annual.max_year_idx. rewrite Hmax. cbn [bind].
  rewrite Forall_forall in Hall.
  repeat split; [exact Hi | exact Hlen | |].
  - intros j Hj. rewrite Hnth. apply Hall, nth_In, Hj.
  - intros j Hj. rewrite Hnth.
    assert (Hle : nth j (x :: xs) 0 <= m) by (apply Hall, nth_In; lia).
    specialize (Hfirst j Hj).
    destruct (Qlt_le_dec (nth j (x :: xs) 0) m) as [Hlt|Hge]; [exact Hlt|].
    exfalso. apply Hfirst. lra.
Qed.

Lemma best_performing_year_witness :
  exists year : nat,
    Annual.max_year_idx [1; 3; 2; 3] = Ok (Z.of_nat year) /\
    (year < List.length [1; 3; 2; 3])%nat /\
    (forall other,
        (other < List.length [1; 3; 2; 3])%nat ->
        nth other [1; 3; 2; 3] 0 <= nth year [1; 3; 2; 3] 0) /\
    (forall earlier,
        (earlier < year)%nat ->
        nth earlier [1; 3; 2; 3] 0 < nth year [1; 3; 2; 3] 0).
Proof.
  apply (best_performing_year [1; 3; 2; 3]). discriminate.
Defined.

(** C10.  [calculate_ltv_impact] records an entry for exactly the archetypes
    of the allocation with a count > 0: an archetype with a count <= 0 has no
    entry at all.  When every count is <= 0 it returns a total impact of 0,
    a yearly series of five zeros and no entry. *)
Theorem nonpositive_counts_are_omitted :
  forall table seller_counts,
    NoDup (keys seller_counts) ->
    (forall total_impact yearly_projections archetype_contributions,
        Annual.calculate_ltv_impact table seller_counts =
        Ok (total_impact, yearly_projections, archetype_contributions) ->
        (forall a,
            In a (keys archetype_contributions) <->
            exists count, In (a, count) seller_counts /\ (count > 0)%Z) /\
        (forall a count,
            In (a, count) seller_counts -> (count <= 0)%Z ->
            lookup archetype_contributions a = None)) /\
    (Forall (fun item => (snd item <= 0)%Z) seller_counts ->
     Annual.calculate_ltv_impact table seller_counts =
     Ok (0, [0; 0; 0; 0; 0], [])).
Proof.
  intros table seller_counts Hnd. split.
  - intros t y c Hrun.
    destruct (impact_ok table _ _ _ _ Hnd Hrun) as (Hc & _ & _).
    assert (Hiff : forall a,
      In a (keys c) <->
      exists count, In (a, count) seller_counts /\ (count > 0)%Z).
    { intro a. subst c. unfold keys. rewrite in_map_iff. split.
      - intros ([b e] & <- & Hin). cbn [fst].
        apply contributions_of_In in Hin.
        destruct Hin as (n & data & Hin & Hn & _). now exists n.
      - intros (n & Hin & Hn).
        destruct (lookup table a) as [data|] eqn:Hl.
        + exists (a, contribution_of data n). split; [reflexivity|].
          apply contributions_of_In. now exists n, data.
        + exfalso. now apply (impact_ok_known table _ _ a n Hrun Hin Hn). }
    split; [exact Hiff|].
    intros a n Hin Hn. apply lookup_None. rewrite Hiff.
    intros (m & Hm & Hpos).
    assert (Some n = Some m) as [= ->]; [|lia].
    rewrite <- (lookup_NoDup seller_counts a n Hnd Hin).
    now apply lookup_NoDup.
  - intro Hall. unfold Annual.calculate_ltv_impact, items; cbv zeta.
    assert (Hloop : forall st,
      for_each seller_counts (Annual.impact_body table) st = Ok st).
    { clear Hnd. induction Hall as [|[a n] rest Hn _ IH]; intros [t c].
      - reflexivity.
      - cbn [for_each Annual.impact_body]. cbn [snd] in Hn.
        destruct (Z.gtb_spec n 0) as [?|_]; [lia|].
        cbn [bind]. apply IH. }
    rewrite Hloop. reflexivity.
Qed.

Lemma nonpositive_counts_are_omitted_witness :
  (forall a,
      In a (keys [(scenario,
                   contribution_of
                     scenario_archetype 100)]) <->
      exists count,
        In (a, count)
           [(scenario, 100%Z); ("idle"%string, 0%Z);
            ("lost"%string, (-5)%Z)] /\
        (count > 0)%Z) /\
  Annual.calculate_ltv_impact scenario_data
    [("idle"%string, 0%Z); ("lost"%string, (-5)%Z)] =
  Ok (0, [0; 0; 0; 0; 0], []).
Proof.
  split.
  - refine (proj1 (proj1 (nonpositive_counts_are_omitted scenario_data
                            [(scenario, 100%Z); ("idle"%string, 0%Z);
                             ("lost"%string, (-5)%Z)] _)
                         _ _ _ eq_refl)).
    repeat constructor; cbn; intuition discriminate.
  - refine (proj2 (nonpositive_counts_are_omitted scenario_data
                     [("idle"%string, 0%Z); ("lost"%string, (-5)%Z)] _) _).
    + repeat constructor; cbn; intuition discriminate.
    + repeat constructor; cbn; lia.
Defined.

(** * Further properties of the survival projection *)

Section SimulateMore.

Import Survival.

Lemma series_eq_zeros (f : nat -> Q) (start len : nat) :
  series_eq (repeat 0 len) (map (fun y => f y * inject_Z 0) (seq start len)).
Proof.
  revert start. induction len as [|len IH]; intro start; cbn [repeat seq map].
  - constructor.
  - constructor; [|apply IH]. change (inject_Z 0) with 0. ring.
Qed.

Lemma series_eq_refl (xs : list Q) : series_eq xs xs.
Proof.
  induction xs; constructor; [reflexivity | assumption].
Qed.

(** Whatever the count, the series of a known archetype is, up to [==], the
    per-seller accrual of each year times the count. *)
Lemma simulate_scaled (profiles : dict archetype_params) (a : string)
      (p : archetype_params) (n months : Z) :
  lookup profiles a = Some p ->
  exists series,
    simulate_archetype_ltv profiles a n months = Ok series /\
    series_eq series
      (map (fun y => cumulative_after p (12 * y) * inject_Z n)
           (seq 1 (Z.to_nat months / 12))).
Proof.
  intro Hl. destruct (Z.eq_dec n 0) as [->|Hn].
  - rewrite simulate_zero. eexists. split; [reflexivity|].
    unfold list_repeat. rewrite years_of_months. apply series_eq_zeros.
  - rewrite (simulate_known _ _ p) by assumption.
    eexists. split; [reflexivity|]. rewrite map_map. apply series_eq_refl.
Qed.

Lemma simulate_cases (profiles : dict archetype_params) (a : string)
      (n months : Z) (series : list Q) :
  simulate_archetype_ltv profiles a n months = Ok series ->
  n = 0%Z /\ series = list_repeat 0 (months / 12) \/
  n <> 0%Z /\
  exists p,
    lookup profiles a = Some p /\
    series =
    map (fun ltv => ltv * inject_Z n)
        (map (fun y => cumulative_after p (12 * y))
             (seq 1 (Z.to_nat months / 12))).
Proof.
  intro H. destruct (Z.eq_dec n 0) as [->|Hn].
  - left. rewrite simulate_zero in H. apply Ok_inj in H. now split.
  - right. split; [exact Hn|].
    destruct (lookup profiles a) as [p|] eqn:Hl.
    + exists p. rewrite (simulate_known _ _ p) in H by assumption.
      apply Ok_inj in H. now split.
    + now rewrite simulate_unknown in H.
Qed.

Lemma simulate_length_aux (profiles : dict archetype_params) (a : string)
      (n months : Z) (series : list Q) :
  simulate_archetype_ltv profiles a n months = Ok series ->
  List.length series = Z.to_nat (months / 12).
Proof.
  intro H. apply simulate_cases in H.
  destruct H as [[_ ->]|[_ (p & _ & ->)]].
  - apply repeat_length.
  - now rewrite !length_map, length_seq, years_of_months.
Qed.

Lemma firstn_repeat_le {A : Type} (x : A) (j k : nat) :
  (j <= k)%nat -> firstn j (repeat x k) = repeat x j.
Proof.
  revert k. induction j as [|j IH]; intros [|k] H; cbn; try reflexivity.
  - lia.
  - f_equal. apply IH. lia.
Qed.

Lemma firstn_seq_le (start j k : nat) :
  (j <= k)%nat -> firstn j (seq start k) = seq start j.
Proof.
  revert start k. induction j as [|j IH]; intros start [|k] H; cbn;
    try reflexivity.
  - lia.
  - f_equal. apply IH. lia.
Qed.

Lemma simulate_prefix_aux (profiles : dict archetype_params) (a : string)
      (n shorter longer : Z) (series : list Q) :
  (shorter <= longer)%Z ->
  simulate_archetype_ltv profiles a n longer = Ok series ->
  simulate_archetype_ltv profiles a n shorter =
  Ok (firstn (Z.to_nat (shorter / 12)) series).
Proof.
  intros Hle H.
  assert (Hd : (shorter / 12 <= longer / 12)%Z)
    by (apply Z.div_le_mono; lia).
  assert (Hy : (Z.to_nat (shorter / 12) <= Z.to_nat (longer / 12))%nat)
    by lia.
  apply simulate_cases in H.
  destruct H as [[-> ->]|[Hn (p & Hl & ->)]].
  - rewrite simulate_zero. unfold list_repeat.
    now rewrite firstn_repeat_le.
  - rewrite (simulate_known _ _ p) by assumption.
    rewrite !firstn_map, <- !years_of_months.
    now rewrite firstn_seq_le.
Qed.





Lemma survival_after_pos (p : archetype_params) (k : nat) :
  monthly_churn_rate p < 1 -> 0 < survival_after p k.
Proof.
  intro Hc. induction k as [|k IH]; cbn [survival_after].
  - reflexivity.
  - apply Qmult_lt_0_compat; [exact IH | lra].
Qed.

Lemma cumulative_after_strict (p : archetype_params) (j k : nat) :
  monthly_churn_rate p < 1 -> 0 < subscription_fee p ->
  (j < k)%nat -> cumulative_after p j < cumulative_after p k.
Proof.
  intros Hc Hfee. induction 1 as [|k _ IH].
  - cbn [cumulative_after].
    pose proof (Qmult_lt_0_compat _ _ Hfee (survival_after_pos p (S j) Hc)).
    lra.
  - cbn [cumulative_after].
    pose proof (Qmult_lt_0_compat _ _ Hfee (survival_after_pos p (S k) Hc)).
    cbn [cumulative_after] in IH. lra.
Qed.

Lemma cumulative_after_pos (p : archetype_params) (k : nat) :
  monthly_churn_rate p < 1 -> 0 < subscription_fee p ->
  (0 < k)%nat -> 0 < cumulative_after p k.
Proof.
  intros Hc Hfee Hk.
  apply (Qle_lt_trans _ (cumulative_after p 0)).
  - cbn. lra.
  - now apply cumulative_after_strict.
Qed.







Lemma StronglySorted_of_series_eq (R : Q -> Q -> Prop) (xs ys : list Q) :
  (forall x x' y y', x == y -> x' == y' -> R y y' -> R x x') ->
  series_eq xs ys -> StronglySorted R ys -> StronglySorted R xs.
Proof.
  intros HR Heq. induction Heq as [|x y xs ys Hxy Hrest IH]; intro H.
  - constructor.
  - inversion H as [|? ? Hs Hall]; subst. constructor.
    + exact (IH Hs).
    + clear IH H Hs. induction Hrest as [|x' y' xs ys Hxy' _ IH].
      * constructor.
      * inversion Hall as [|? ? Hy Hys]; subst. constructor.
        -- exact (HR x x' y y' Hxy Hxy' Hy).
        -- exact (IH Hys).
Qed.

End SimulateMore.

(** X1.  Whenever [simulate_archetype_ltv] returns, its series has exactly
    months // 12 entries (none for fewer than 12 months, or for a negative
    number of months). *)
Theorem series_has_one_entry_per_full_year
        (profiles : dict Survival.archetype_params) (archetype : string)
        (seller_count months : Z) (series : list Q) :
  Survival.simulate_archetype_ltv profiles archetype seller_count months =
  Ok series ->
  List.length series = Z.to_nat (months / 12).
Proof. apply simulate_length_aux. Qed.

Lemma series_has_one_entry_per_full_year_witness :
  exists series,
    Survival.simulate_archetype_ltv scenario_params scenario 3 30 = Ok series /\
    List.length series = Z.to_nat (30 / 12).
Proof.
  eexists. split.
  - exact (simulate_known scenario_params scenario scenario_profile 3 30
             eq_refl ltac:(lia)).
  - apply (series_has_one_entry_per_full_year scenario_params scenario 3 30).
    exact (simulate_known scenario_params scenario scenario_profile 3 30
             eq_refl ltac:(lia)).
Defined.

(** X2.  Years already projected do not depend on the horizon: the series
    for a shorter horizon is the beginning of the series for a longer one. *)
Theorem shorter_horizon_is_a_prefix
        (profiles : dict Survival.archetype_params) (archetype : string)
        (seller_count shorter longer : Z) (series : list Q) :
  (shorter <= longer)%Z ->
  Survival.simulate_archetype_ltv profiles archetype seller_count longer =
  Ok series ->
  Survival.simulate_archetype_ltv profiles archetype seller_count shorter =
  Ok (firstn (Z.to_nat (shorter / 12)) series).
Proof. apply simulate_prefix_aux. Qed.

Lemma shorter_horizon_is_a_prefix_witness :
  exists series,
    Survival.simulate_archetype_ltv scenario_params scenario 3 60 = Ok series /\
    Survival.simulate_archetype_ltv scenario_params scenario 3 24 =
    Ok (firstn (Z.to_nat (24 / 12)) series).
Proof.
  eexists. split.
  - exact (simulate_known scenario_params scenario scenario_profile 3 60
             eq_refl ltac:(lia)).
  - apply (shorter_horizon_is_a_prefix scenario_params scenario 3 24 60);
      [lia|].
    exact (simulate_known scenario_params scenario scenario_profile 3 60
             eq_refl ltac:(lia)).
Defined.
















(** * Further properties of the survival aggregator *)

Section TotalMore.

Import Survival.

Variable profiles : dict archetype_params.

Lemma total_loop_rows (seller_counts : dict Z) :
  forall (total : list Q) (contribs : dict Q) (total' : list Q)
         (contribs' : dict Q),
    List.length total = 5%nat ->
    for_each seller_counts (total_body profiles) (total, contribs) =
    Ok (total', contribs') ->
    exists rows,
      series_of profiles seller_counts = Ok rows /\
      Forall (fun row => List.length row = 5%nat) rows /\
      total' =
      map (fun year =>
             fold_left Qplus (map (fun row => nth year row 0) rows)
                       (nth year total 0))
          (seq 0 5).
Proof.
  induction seller_counts as [|[a c] rest IH];
    intros total contribs total' contribs' Ht Hrun.
  - cbn in Hrun. apply Ok_inj in Hrun. injection Hrun as <- <-.
    exists []. split; [reflexivity|]. split; [constructor|].
    destruct (length_5 _ Ht) as (t0 & t1 & t2 & t3 & t4 & ->). reflexivity.
  - cbn [for_each] in Hrun.
    destruct (simulate_archetype_ltv profiles a c 60) as [series|e] eqn:Hs.
    2: { now rewrite (total_body_raise _ _ _ _ _ _ Hs) in Hrun. }
    destruct (total_body_ok profiles total contribs a c series Ht Hs)
      as (t0 & t1 & t2 & t3 & t4 & a0 & a1 & a2 & a3 & a4 & -> & -> & Hb).
    rewrite Hb in Hrun. cbn [bind] in Hrun.
    apply IH in Hrun; [|reflexivity].
    destruct Hrun as (rows & Hrows & Hlen & ->).
    exists ([a0; a1; a2; a3; a4] :: rows).
    unfold series_of in *. cbn [comprehension fst snd].
    rewrite Hs. cbn [bind]. rewrite Hrows.
    split; [reflexivity|]. split; [now constructor|]. reflexivity.
Qed.

Lemma total_loop_recorded (seller_counts : dict Z) :
  forall (total : list Q) (contribs : dict Q) (total' : list Q)
         (contribs' : dict Q),
    NoDup (keys seller_counts) ->
    (forall a, In a (keys seller_counts) -> ~ In a (keys contribs)) ->
    List.length total = 5%nat ->
    for_each seller_counts (total_body profiles) (total, contribs) =
    Ok (total', contribs') ->
    exists entries,
      contribs' = contribs ++ entries /\
      Forall2 (recorded profiles) seller_counts entries.
Proof.
  induction seller_counts as [|[a c] rest IH];
    intros total contribs total' contribs' Hnd Hfresh Ht Hrun.
  - cbn in Hrun. apply Ok_inj in Hrun. injection Hrun as <- <-.
    exists []. split; [now rewrite app_nil_r | constructor].
  - cbn [for_each] in Hrun.
    destruct (simulate_archetype_ltv profiles a c 60) as [series|e] eqn:Hs.
    2: { now rewrite (total_body_raise _ _ _ _ _ _ Hs) in Hrun. }
    destruct (total_body_ok profiles total contribs a c series Ht Hs)
      as (t0 & t1 & t2 & t3 & t4 & a0 & a1 & a2 & a3 & a4 & -> & -> & Hb).
    rewrite Hb in Hrun. cbn [bind] in Hrun.
    cbn [keys map fst] in Hnd, Hfresh.
    inversion Hnd as [|? ? Ha Hnd']; subst.
    rewrite dict_set_fresh in Hrun by (apply Hfresh; now left).
    apply IH in Hrun; [|exact Hnd'| |reflexivity].
    + destruct Hrun as (entries & -> & Hrec).
      exists ((a, a4) :: entries). split; [now rewrite <- app_assoc|].
      constructor; [|exact Hrec].
      split; [reflexivity|]. exists [a0; a1; a2; a3; a4].
      cbn [fst snd]. split; [exact Hs | reflexivity].
    + intros b Hb' Hin. rewrite keys_app in Hin.
      apply in_app_or in Hin. destruct Hin as [Hin|[<-|[]]].
      * apply (Hfresh b); [now right | exact Hin].
      * now apply Ha.
Qed.

Lemma recorded_keys (seller_counts : dict Z) (entries : dict Q) :
  Forall2 (recorded profiles) seller_counts entries -> keys entries = keys seller_counts.
Proof.
  induction 1 as [|item entry items entries [Hk _] _ IH]; cbn [keys map].
  - reflexivity.
  - f_equal; assumption.
Qed.

Lemma recorded_In (seller_counts : dict Z) (entries : dict Q)
      (item : string * Z) :
  Forall2 (recorded profiles) seller_counts entries -> In item seller_counts ->
  exists entry, In entry entries /\ recorded profiles item entry.
Proof.
  induction 1 as [|i e items entries Hrec _ IH]; intro Hin.
  - contradiction.
  - destruct Hin as [->|Hin].
    + exists e. split; [now left | exact Hrec].
    + destruct (IH Hin) as (entry & He & Hr). exists entry.
      split; [now right | exact Hr].
Qed.

End TotalMore.

Lemma sum_map_le {A : Type} (f g : A -> Q) (xs : list A) :
  (forall x, In x xs -> f x <= g x) -> sum (map f xs) <= sum (map g xs).
Proof.
  induction xs as [|x xs IH]; intro H; cbn [map].
  - apply Qle_refl.
  - rewrite !sum_cons. apply Qplus_le_compat.
    + apply H. now left.
    + apply IH. intros y Hy. apply H. now right.
Qed.

Lemma sum_nonnegative (xs : list Q) :
  Forall (fun x => 0 <= x) xs -> 0 <= sum xs.
Proof.
  induction 1 as [|x xs Hx _ IH].
  - rewrite sum_nil. apply Qle_refl.
  - rewrite sum_cons. lra.
Qed.

Lemma sum_Permutation (xs ys : list Q) : Permutation xs ys -> sum xs == sum ys.
Proof.
  induction 1 as [|x xs ys _ IH|x y xs|xs ys zs _ IH1 _ IH2].
  - reflexivity.
  - rewrite !sum_cons, IH. reflexivity.
  - rewrite !sum_cons. ring.
  - now rewrite IH1.
Qed.

Lemma StronglySorted_nth (xs : list Q) (i j : nat) :
  StronglySorted Qle xs -> (i <= j < List.length xs)%nat ->
  nth i xs 0 <= nth j xs 0.
Proof.
  intro Hs. revert i j. induction Hs as [|x xs _ IH Hall]; intros i j Hij.
  - cbn in Hij. lia.
  - destruct i as [|i], j as [|j]; cbn [nth List.length] in *.
    + apply Qle_refl.
    + rewrite Forall_forall in Hall. apply Hall, nth_In. lia.
    + lia.
    + apply IH. lia.
Qed.

Lemma comprehension_Permutation {A B : Type} (f : A -> result B)
      (xs ys : list A) (rows : list B) :
  Permutation xs ys -> comprehension f xs = Ok rows ->
  exists rows', comprehension f ys = Ok rows' /\ Permutation rows rows'.
Proof.
  intro Hp. revert rows.
  induction Hp as [|x xs ys _ IH|x y xs|xs ys zs _ IH1 _ IH2]; intros rows H.
  - exists rows. now split.
  - cbn [comprehension] in *. destruct (f x) as [b|e]; [|discriminate].
    cbn [bind] in *.
    destruct (comprehension f xs) as [bs|e]; [|discriminate].
    cbn [bind] in H. apply Ok_inj in H. subst rows.
    destruct (IH bs eq_refl) as (bs' & -> & Hperm).
    exists (b :: bs'). split; [reflexivity | now constructor].
  - cbn [comprehension] in *.
    destruct (f y) as [b|e]; [|discriminate]. cbn [bind] in *.
    destruct (f x) as [b'|e]; [|discriminate]. cbn [bind] in *.
    destruct (comprehension f xs) as [bs|e]; [|discriminate].
    cbn [bind] in *. apply Ok_inj in H. subst rows.
    exists (b' :: b :: bs). split; [reflexivity | apply perm_swap].
  - destruct (IH1 rows H) as (rows1 & H1 & P1).
    destruct (IH2 rows1 H1) as (rows2 & H2 & P2).
    exists rows2. split; [exact H2 | now transitivity rows1].
Qed.

Lemma comprehension_Forall {A B : Type} (f : A -> result B) (P : B -> Prop)
      (xs : list A) (rows : list B) :
  (forall x b, In x xs -> f x = Ok b -> P b) ->
  comprehension f xs = Ok rows -> Forall P rows.
Proof.
  revert rows. induction xs as [|x xs IH]; intros rows HP H;
    cbn [comprehension] in H.
  - apply Ok_inj in H. subst. constructor.
  - destruct (f x) as [b|e] eqn:Hb; [|discriminate]. cbn [bind] in H.
    destruct (comprehension f xs) as [bs|e]; [|discriminate].
    cbn [bind] in H. apply Ok_inj in H. subst rows. constructor.
    + apply (HP x b); [now left | exact Hb].
    + apply IH; [|reflexivity]. intros y c Hy. apply HP. now right.
Qed.

(** For a count >= 0 and a profile with churn <= 1 and fee >= 0 the series
    has no negative entry and never decreases. *)
Lemma simulate_sorted_nonneg (profiles : dict Survival.archetype_params)
      (a : string) (n months : Z) (series : list Q) :
  (forall p, lookup profiles a = Some p ->
             Survival.monthly_churn_rate p <= 1 /\
             0 <= Survival.subscription_fee p) ->
  (0 <= n)%Z ->
  Survival.simulate_archetype_ltv profiles a n months = Ok series ->
  Forall (fun ltv => 0 <= ltv) series /\ StronglySorted Qle series.
Proof.
  intros Hvalid Hn H. apply simulate_cases in H.
  destruct H as [[_ ->]|[_ (p & Hl & ->)]].
  - split.
    + apply Forall_forall. intros x Hx. apply repeat_spec in Hx.
      subst. apply Qle_refl.
    + apply StronglySorted_repeat_0.
  - destruct (Hvalid p Hl) as [Hc Hfee].
    pose proof (inject_Z_nonneg _ Hn) as HN. split.
    + apply Forall_forall. intros x Hx.
      apply in_map_iff in Hx. destruct Hx as (y & <- & Hy).
      apply in_map_iff in Hy. destruct Hy as (i & <- & _).
      apply Qmult_le_0_compat; [|exact HN].
      now apply cumulative_after_nonneg.
    + apply StronglySorted_scale; [exact HN|].
      apply StronglySorted_map_seq. intros i j Hij.
      apply cumulative_after_mono; [assumption | assumption | lia].
Qed.

(** X9.  The total series is the year-by-year sum of the series of the
    archetypes: whenever [calculate_total_ltv] returns, each of its five
    yearly totals is the sum, in the order of the allocation, of that year's
    entry of every archetype's series. *)
Theorem total_is_the_yearly_sum_of_the_series
        (profiles : dict Survival.archetype_params) (seller_counts : dict Z)
        (total_ltv_by_year : list Q) (archetype_contributions : dict Q) :
  Survival.calculate_total_ltv profiles seller_counts =
  Ok (total_ltv_by_year, archetype_contributions) ->
  exists rows,
    series_of profiles seller_counts = Ok rows /\
    total_ltv_by_year =
    map (fun year => sum (map (fun row => nth year row 0) rows)) (seq 0 5).
Proof.
  intro Hrun. unfold Survival.calculate_total_ltv, items in Hrun.
  cbv zeta in Hrun.
  apply total_loop_rows in Hrun; [|reflexivity].
  destruct Hrun as (rows & Hrows & _ & ->).
  exists rows. split; [exact Hrows | reflexivity].
Qed.

Lemma total_is_the_yearly_sum_of_the_series_witness :
  exists total_ltv_by_year rows,
    is_ok (Survival.calculate_total_ltv scenario_params
             [(scenario, 3%Z); ("idle"%string, 0%Z)]) = true /\
    series_of scenario_params [(scenario, 3%Z); ("idle"%string, 0%Z)] =
    Ok rows /\
    total_ltv_by_year =
    map (fun year => sum (map (fun row => nth year row 0) rows)) (seq 0 5).
Proof.
  destruct (Survival.calculate_total_ltv scenario_params
              [(scenario, 3%Z); ("idle"%string, 0%Z)]) as [[t c]|e] eqn:E.
  - destruct (total_is_the_yearly_sum_of_the_series _ _ _ _ E)
      as (rows & Hrows & Ht).
    exists t, rows. now repeat split.
  - exfalso.
    assert (Hok : is_ok (Survival.calculate_total_ltv scenario_params
                           [(scenario, 3%Z); ("idle"%string, 0%Z)]) = true)
      by exact (total_failure scenario_params
                  [(scenario, 3%Z); ("idle"%string, 0%Z)]).
    rewrite E in Hok. discriminate.
Defined.

Lemma total_returns (profiles : dict Survival.archetype_params)
      (seller_counts : dict Z) :
  first_unknown profiles (fun c => negb (c =? 0)%Z) seller_counts = None ->
  exists total contribs,
    Survival.calculate_total_ltv profiles seller_counts = Ok (total, contribs).
Proof.
  intro Hnone. pose proof (total_failure profiles seller_counts) as H.
  rewrite Hnone in H.
  destruct (Survival.calculate_total_ltv profiles seller_counts)
    as [[t c]|e]; [|discriminate].
  now exists t, c.
Qed.

Lemma total_contributions (profiles : dict Survival.archetype_params)
      (seller_counts : dict Z) (total : list Q) (contribs : dict Q) :
  NoDup (keys seller_counts) ->
  Survival.calculate_total_ltv profiles seller_counts = Ok (total, contribs) ->
  Forall2 (recorded profiles) seller_counts contribs.
Proof.
  intros Hnd Hrun. unfold Survival.calculate_total_ltv, items in Hrun.
  cbv zeta in Hrun.
  apply total_loop_recorded in Hrun;
    [|exact Hnd|intros a _ []|reflexivity].
  destruct Hrun as (entries & -> & Hrec). exact Hrec.
Qed.

Lemma recorded_lookup (profiles : dict Survival.archetype_params)
      (seller_counts : dict Z) (contribs : dict Q) (a : string) (c : Z) :
  NoDup (keys seller_counts) ->
  Forall2 (recorded profiles) seller_counts contribs ->
  In (a, c) seller_counts ->
  exists series last,
    Survival.simulate_archetype_ltv profiles a c 60 = Ok series /\
    getitem series (-1) = Ok last /\
    lookup contribs a = Some last.
Proof.
  intros Hnd Hrec Hin.
  destruct (recorded_In _ _ _ _ Hrec Hin)
    as ([b last] & He & Hk & series & Hs & Hlast).
  cbn [fst snd] in *. subst b.
  exists series, last. repeat split; try assumption.
  apply lookup_NoDup; [|exact He].
  now rewrite (recorded_keys _ _ _ Hrec).
Qed.

(** X10.  [calculate_total_ltv] records every archetype of the allocation,
    in the order of the allocation, under the last year of its series; an
    archetype with a count of 0 is recorded with the contribution 0. *)
Theorem every_archetype_is_recorded
        (profiles : dict Survival.archetype_params) (seller_counts : dict Z)
        (total_ltv_by_year : list Q) (archetype_contributions : dict Q) :
  NoDup (keys seller_counts) ->
  Survival.calculate_total_ltv profiles seller_counts =
  Ok (total_ltv_by_year, archetype_contributions) ->
  keys archetype_contributions = keys seller_counts /\
  (forall archetype count,
      In (archetype, count) seller_counts ->
      exists series last_year,
        Survival.simulate_archetype_ltv profiles archetype count 60 =
        Ok series /\
        getitem series (-1) = Ok last_year /\
        lookup archetype_contributions archetype = Some last_year) /\
  (forall archetype,
      In (archetype, 0%Z) seller_counts ->
      lookup archetype_contributions archetype = Some 0).
Proof.
  intros Hnd Hrun.
  pose proof (total_contributions _ _ _ _ Hnd Hrun) as Hrec.
  split; [exact (recorded_keys _ _ _ Hrec)|]. split.
  - intros a c Hin. exact (recorded_lookup _ _ _ a c Hnd Hrec Hin).
  - intros a Hin.
    destruct (recorded_lookup _ _ _ a 0%Z Hnd Hrec Hin)
      as (series & last & Hs & Hlast & Hl).
    rewrite simulate_zero in Hs. apply Ok_inj in Hs. subst series.
    cbn in Hlast. apply Ok_inj in Hlast. now subst last.
Qed.

Lemma every_archetype_is_recorded_witness :
  exists archetype_contributions,
    keys archetype_contributions =
    keys [(scenario, 3%Z); ("idle"%string, 0%Z)] /\
    lookup archetype_contributions "idle" = Some 0.
Proof.
  destruct (total_returns scenario_params
              [(scenario, 3%Z); ("idle"%string, 0%Z)] eq_refl)
    as (t & c & E).
  assert (Hnd : NoDup (keys [(scenario, 3%Z); ("idle"%string, 0%Z)]))
    by (repeat constructor; cbn; intuition discriminate).
  destruct (every_archetype_is_recorded _ _ _ _ Hnd E) as (Hk & _ & Hz).
  exists c. split; [exact Hk|]. apply Hz. right. now left.
Defined.

(** X11.  When every count is >= 0 and every profile of the table has a
    churn <= 1 and a fee >= 0, the total series has no negative entry and
    never decreases from a year to the next. *)
Theorem total_series_never_decreases
        (profiles : dict Survival.archetype_params) (seller_counts : dict Z)
        (total_ltv_by_year : list Q) (archetype_contributions : dict Q) :
  (forall archetype p,
      lookup profiles archetype = Some p ->
      Survival.monthly_churn_rate p <= 1 /\
      0 <= Survival.subscription_fee p) ->
  Forall (fun item => (0 <= snd item)%Z) seller_counts ->
  Survival.calculate_total_ltv profiles seller_counts =
  Ok (total_ltv_by_year, archetype_contributions) ->
  Forall (fun ltv => 0 <= ltv) total_ltv_by_year /\
  StronglySorted Qle total_ltv_by_year.
Proof.
  intros Hvalid Hcounts Hrun.
  unfold Survival.calculate_total_ltv, items in Hrun. cbv zeta in Hrun.
  apply total_loop_rows in Hrun; [|reflexivity].
  destruct Hrun as (rows & Hrows & Hlen & ->).
  assert (Hrow : Forall (fun row => Forall (fun ltv => 0 <= ltv) row /\
                                    StronglySorted Qle row) rows).
  { eapply comprehension_Forall; [|exact Hrows].
    intros [a c] row Hin Hs. cbn [fst snd] in Hs.
    rewrite Forall_forall in Hcounts. specialize (Hcounts _ Hin).
    eapply simulate_sorted_nonneg; [apply Hvalid | exact Hcounts | exact Hs]. }
  assert (Hle : forall i j, (i <= j < 5)%nat ->
    sum (map (fun row => nth i row 0) rows) <=
    sum (map (fun row => nth j row 0) rows)).
  { intros i j Hij. apply sum_map_le. intros row Hin.
    rewrite Forall_forall in Hrow, Hlen.
    apply StronglySorted_nth; [apply Hrow, Hin|].
    rewrite (Hlen row Hin). lia. }
  assert (H0 : 0 <= sum (map (fun row => nth 0 row 0) rows)).
  { apply sum_nonnegative, Forall_forall. intros x Hx.
    apply in_map_iff in Hx. destruct Hx as (row & <- & Hin).
    rewrite Forall_forall in Hrow, Hlen.
    destruct (Hrow row Hin) as [Hnn _]. rewrite Forall_forall in Hnn.
    apply Hnn, nth_In. rewrite (Hlen row Hin). lia. }
  cbn [seq map].
  change (fold_left Qplus ?xs (nth _ (list_repeat 0 5) 0)) with (sum xs).
  split.
  - repeat constructor;
      (eapply Qle_trans; [exact H0 | apply Hle; lia]).
  - repeat (constructor; [|repeat constructor; apply Hle; lia]).
    constructor.
Qed.

Lemma total_series_never_decreases_witness :
  exists total_ltv_by_year archetype_contributions,
    Survival.calculate_total_ltv scenario_params
      [(scenario, 3%Z); ("idle"%string, 0%Z)] =
    Ok (total_ltv_by_year, archetype_contributions) /\
    Forall (fun ltv => 0 <= ltv) total_ltv_by_year /\
    StronglySorted Qle total_ltv_by_year.
Proof.
  destruct (total_returns scenario_params
              [(scenario, 3%Z); ("idle"%string, 0%Z)] eq_refl)
    as (t & c & E).
  exists t, c. split; [exact E|].
  apply (total_series_never_decreases scenario_params
           [(scenario, 3%Z); ("idle"%string, 0%Z)] t c); [| |exact E].
  - intros a p H. cbn [scenario_params lookup] in H.
    destruct (String.eqb scenario a); [|discriminate].
    injection H as <-. split; unfold Qle; cbn; lia.
  - repeat constructor; cbn; lia.
Defined.

(** X12.  The order of the allocation does not matter for the totals: if
    [calculate_total_ltv] returns for an allocation, it returns for every
    reordering of it, with the same yearly totals. *)
Theorem allocation_order_does_not_change_totals
        (profiles : dict Survival.archetype_params)
        (seller_counts reordered : dict Z)
        (total_ltv_by_year : list Q) (archetype_contributions : dict Q) :
  Permutation seller_counts reordered ->
  Survival.calculate_total_ltv profiles seller_counts =
  Ok (total_ltv_by_year, archetype_contributions) ->
  exists total' contributions',
    Survival.calculate_total_ltv profiles reordered =
    Ok (total', contributions') /\
    series_eq total_ltv_by_year total'.
Proof.
  intros Hperm Hrun.
  assert (Hnone : first_unknown profiles (fun c => negb (c =? 0)%Z)
                    reordered = None).
  { pose proof (total_failure profiles seller_counts) as Hf.
    destruct (first_unknown profiles _ seller_counts) as [a|] eqn:Hu;
      [congruence|].
    unfold first_unknown in *.
    destruct (find _ seller_counts) as [x|] eqn:Hfind; [discriminate|].
    destruct (find _ reordered) as [y|] eqn:Hfind'; [|reflexivity].
    apply find_some in Hfind'. destruct Hfind' as [Hin Hy].
    apply (Permutation_in _ (Permutation_sym Hperm)) in Hin.
    rewrite (find_none _ _ Hfind _ Hin) in Hy. discriminate. }
  destruct (total_returns profiles reordered Hnone) as (t' & c' & Hrun').
  exists t', c'. split; [exact Hrun'|].
  unfold Survival.calculate_total_ltv, items in Hrun, Hrun'.
  cbv zeta in Hrun, Hrun'.
  apply total_loop_rows in Hrun; [|reflexivity].
  apply total_loop_rows in Hrun'; [|reflexivity].
  destruct Hrun as (rows & Hrows & _ & ->).
  destruct Hrun' as (rows' & Hrows' & _ & ->).
  destruct (comprehension_Permutation _ _ _ _ Hperm Hrows)
    as (rows2 & Hrows2 & Hp).
  unfold series_of in Hrows'. rewrite Hrows2 in Hrows'.
  apply Ok_inj in Hrows'. subst rows2.
  apply Forall2_map_same. intros year _.
  change (fold_left Qplus ?xs (nth _ (list_repeat 0 5) 0)) with
    (fold_left Qplus xs (nth year (list_repeat 0 5) 0)).
  rewrite !fold_Qplus_acc.
  rewrite (sum_Permutation _ _ (Permutation_map _ Hp)). reflexivity.
Qed.

Lemma allocation_order_does_not_change_totals_witness :
  exists total total' contributions',
    is_ok (Survival.calculate_total_ltv scenario_params
             [(scenario, 3%Z); ("idle"%string, 0%Z)]) = true /\
    Survival.calculate_total_ltv scenario_params
      [("idle"%string, 0%Z); (scenario, 3%Z)] =
    Ok (total', contributions') /\
    series_eq total total'.
Proof.
  destruct (total_returns scenario_params
              [(scenario, 3%Z); ("idle"%string, 0%Z)] eq_refl)
    as (t & c & E).
  destruct (allocation_order_does_not_change_totals scenario_params
              [(scenario, 3%Z); ("idle"%string, 0%Z)]
              [("idle"%string, 0%Z); (scenario, 3%Z)] t c
              (perm_swap _ _ _) E)
    as (t' & c' & E' & Heq).
  exists t, t', c'. rewrite E. now repeat split.
Defined.

(** * The page script of the survival model *)

Section PageBlocks.

Import Survival.

Variable profiles : dict archetype_params.


Lemma dict_get_known {V : Type} (d : dict V) (k : string) :
  lookup d k <> None -> exists v, dict_get d k = Ok v /\ lookup d k = Some v.
Proof.
  intro H. unfold dict_get. destruct (lookup d k) as [v|]; [|congruence].
  now exists v.
Qed.

Lemma efficiency_data_sorted (contribs : dict Q) (seller_counts : dict Z) :
  (forall a, In a (keys contribs) -> lookup seller_counts a <> None) ->
  efficiency_data contribs seller_counts =
  Ok (sort_reverse snd (efficiencies contribs seller_counts)).
Proof.
  intro Hk. unfold efficiency_data, items.
  rewrite efficiency_loop by exact Hk. cbn [bind app].
  now destruct (efficiencies contribs seller_counts).
Qed.




End PageBlocks.

Section PageRun.

Import Survival.

Variable profiles : dict archetype_params.

Lemma series_eq_5 (f : nat -> Q) (series : list Q) :
  series_eq series (map f (seq 1 5)) ->
  exists x0 x1 x2 x3 x4,
    series = [x0; x1; x2; x3; x4] /\ x4 == f 5%nat.
Proof.
  cbn [seq map]. unfold series_eq. intro H.
  inversion H as [|x0 ? l0 ? _ H0]; subst.
  inversion H0 as [|x1 ? l1 ? _ H1]; subst.
  inversion H1 as [|x2 ? l2 ? _ H2]; subst.
  inversion H2 as [|x3 ? l3 ? _ H3]; subst.
  inversion H3 as [|x4 ? l4 ? E4 H4]; subst.
  inversion H4; subst.
  now exists x0, x1, x2, x3, x4.
Qed.

Lemma simulate_five (a : string) (p : archetype_params) (n : Z) :
  lookup profiles a = Some p ->
  exists x0 x1 x2 x3 x4,
    simulate_archetype_ltv profiles a n 60 = Ok [x0; x1; x2; x3; x4] /\
    x4 == cumulative_after p 60 * inject_Z n.
Proof.
  intro Hl.
  destruct (simulate_scaled profiles a p n 60 Hl) as (series & Hrun & Heq).
  change (Z.to_nat 60 / 12)%nat with 5%nat in Heq.
  apply series_eq_5 in Heq.
  destruct Heq as (x0 & x1 & x2 & x3 & x4 & -> & E).
  exists x0, x1, x2, x3, x4. split; [exact Hrun | exact E].
Qed.

Lemma seller_counts_of_inputs_eq (b g s f : Z) :
  seller_counts_of_inputs b g s f =
  [("Born Successful"%string, b); ("Grown Successful"%string, g);
   ("Struggling"%string, s); ("Failed"%string, f)].
Proof. reflexivity. Qed.

Lemma total_body_five (total : list Q) (contribs : dict Q) (a : string)
      (c : Z) (t0 t1 t2 t3 t4 a0 a1 a2 a3 a4 : Q) :
  total = [t0; t1; t2; t3; t4] ->
  simulate_archetype_ltv profiles a c 60 = Ok [a0; a1; a2; a3; a4] ->
  total_body profiles (total, contribs) (a, c) =
  Ok ([t0 + a0; t1 + a1; t2 + a2; t3 + a3; t4 + a4], dict_set contribs a a4).
Proof.
  intros -> Hs. unfold total_body. rewrite Hs. reflexivity.
Qed.

(** The aggregation of the four archetypes of the page, spelled out. *)
Lemma page_totals (b g s f : Z)
      (B0 B1 B2 B3 B4 G0 G1 G2 G3 G4 S0 S1 S2 S3 S4 F0 F1 F2 F3 F4 : Q) :
  simulate_archetype_ltv profiles "Born Successful" b 60 =
  Ok [B0; B1; B2; B3; B4] ->
  simulate_archetype_ltv profiles "Grown Successful" g 60 =
  Ok [G0; G1; G2; G3; G4] ->
  simulate_archetype_ltv profiles "Struggling" s 60 =
  Ok [S0; S1; S2; S3; S4] ->
  simulate_archetype_ltv profiles "Failed" f 60 =
  Ok [F0; F1; F2; F3; F4] ->
  calculate_total_ltv profiles (seller_counts_of_inputs b g s f) =
  Ok ([0 + B0 + G0 + S0 + F0; 0 + B1 + G1 + S1 + F1;
       0 + B2 + G2 + S2 + F2; 0 + B3 + G3 + S3 + F3;
       0 + B4 + G4 + S4 + F4],
      [("Born Successful"%string, B4); ("Grown Successful"%string, G4);
       ("Struggling"%string, S4); ("Failed"%string, F4)]).
Proof.
  intros HB HG HS HF.
  rewrite seller_counts_of_inputs_eq.
  unfold calculate_total_ltv, items; cbv zeta. cbn [for_each].
  rewrite (total_body_five _ _ _ _ 0 0 0 0 0 _ _ _ _ _ eq_refl HB).
  cbn [bind].
  rewrite (total_body_five _ _ _ _ _ _ _ _ _ _ _ _ _ _ eq_refl HG).
  cbn [bind].
  rewrite (total_body_five _ _ _ _ _ _ _ _ _ _ _ _ _ _ eq_refl HS).
  cbn [bind].
  rewrite (total_body_five _ _ _ _ _ _ _ _ _ _ _ _ _ _ eq_refl HF).
  reflexivity.
Qed.

End PageRun.

Lemma getitem_last_of_five {A : Type} (a b c d e : A) :
  getitem [a; b; c; d; e] (-1) = Ok e.
Proof. reflexivity. Qed.

(** The blocks of the page, once the four series are known. *)
Section PageValues.

Import Survival.

Variable profiles : dict archetype_params.
Variables b g s f : Z.
Variables B0 B1 B2 B3 B4 G0 G1 G2 G3 G4 : Q.
Variables S0 S1 S2 S3 S4 F0 F1 F2 F3 F4 : Q.

Hypothesis HB :
  simulate_archetype_ltv profiles "Born Successful" b 60 =
  Ok [B0; B1; B2; B3; B4].
Hypothesis HG :
  simulate_archetype_ltv profiles "Grown Successful" g 60 =
  Ok [G0; G1; G2; G3; G4].
Hypothesis HS :
  simulate_archetype_ltv profiles "Struggling" s 60 =
  Ok [S0; S1; S2; S3; S4].
Hypothesis HF :
  simulate_archetype_ltv profiles "Failed" f 60 =
  Ok [F0; F1; F2; F3; F4].

Let seller_counts : dict Z := seller_counts_of_inputs b g s f.
Let total_sellers : Z := sum_int (values seller_counts).
Let total : list Q :=
  [0 + B0 + G0 + S0 + F0; 0 + B1 + G1 + S1 + F1; 0 + B2 + G2 + S2 + F2;
   0 + B3 + G3 + S3 + F3; 0 + B4 + G4 + S4 + F4].
Let contribs : dict Q :=
  [("Born Successful"%string, B4); ("Grown Successful"%string, G4);
   ("Struggling"%string, S4); ("Failed"%string, F4)].
Let final_ltv : Q := 0 + B4 + G4 + S4 + F4.

Lemma page_contribution_at_born (i : Z) :
  contribution_at profiles seller_counts "Born Successful" i =
  getitem [B0; B1; B2; B3; B4] i.
Proof.
  unfold contribution_at.
  change (dict_get seller_counts "Born Successful") with (Ok b).
  cbn [bind]. rewrite HB. reflexivity.
Qed.

Lemma page_contribution_at_grown (i : Z) :
  contribution_at profiles seller_counts "Grown Successful" i =
  getitem [G0; G1; G2; G3; G4] i.
Proof.
  unfold contribution_at.
  change (dict_get seller_counts "Grown Successful") with (Ok g).
  cbn [bind]. rewrite HG. reflexivity.
Qed.

Lemma page_contribution_at_struggling (i : Z) :
  contribution_at profiles seller_counts "Struggling" i =
  getitem [S0; S1; S2; S3; S4] i.
Proof.
  unfold contribution_at.
  change (dict_get seller_counts "Struggling") with (Ok s).
  cbn [bind]. rewrite HS. reflexivity.
Qed.

Lemma page_contribution_at_failed (i : Z) :
  contribution_at profiles seller_counts "Failed" i =
  getitem [F0; F1; F2; F3; F4] i.
Proof.
  unfold contribution_at.
  change (dict_get seller_counts "Failed") with (Ok f).
  cbn [bind]. rewrite HF. reflexivity.
Qed.

Lemma detail_data_of_page :
  detail_data profiles seller_counts total_sellers total =
  if (total_sellers >? 0)%Z then
    Ok (Some
          [ {| Year := 1; Cumulative_LTV := 0 + B0 + G0 + S0 + F0;
               Born_Contribution := B0; Grown_Contribution := G0;
               Struggling_Contribution := S0; Failed_Contribution := F0 |};
            {| Year := 2; Cumulative_LTV := 0 + B1 + G1 + S1 + F1;
               Born_Contribution := B1; Grown_Contribution := G1;
               Struggling_Contribution := S1; Failed_Contribution := F1 |};
            {| Year := 3; Cumulative_LTV := 0 + B2 + G2 + S2 + F2;
               Born_Contribution := B2; Grown_Contribution := G2;
               Struggling_Contribution := S2; Failed_Contribution := F2 |};
            {| Year := 4; Cumulative_LTV := 0 + B3 + G3 + S3 + F3;
               Born_Contribution := B3; Grown_Contribution := G3;
               Struggling_Contribution := S3; Failed_Contribution := F3 |};
            {| Year := 5; Cumulative_LTV := 0 + B4 + G4 + S4 + F4;
               Born_Contribution := B4; Grown_Contribution := G4;
               Struggling_Contribution := S4; Failed_Contribution := F4 |} ])
  else Ok None.
Proof.
  unfold detail_data. destruct (total_sellers >? 0)%Z; [|reflexivity].
  change (enumerate [1; 2; 3; 4; 5]%Z) with
    [(0, 1); (1, 2); (2, 3); (3, 4); (4, 5)]%Z.
  cbn [for_each]. unfold detail_body.
  rewrite !page_contribution_at_born, !page_contribution_at_grown,
    !page_contribution_at_struggling, !page_contribution_at_failed.
  reflexivity.
Qed.

(** The run of the page, reduced to its three remaining blocks. *)
Lemma run_page_unfold :
  run_page profiles b g s f =
  (contribution_data <- contribution_data profiles contribs seller_counts ;;
   insights <-
     insights profiles seller_counts total_sellers final_ltv contribs ;;
   optimisation <-
     optimisation_suggestions seller_counts total_sellers final_ltv contribs ;;
   detail_data <- detail_data profiles seller_counts total_sellers total ;;
   Ok {| page_total_sellers := total_sellers;
         page_total_ltv_by_year := total;
         page_archetype_contributions := contribs;
         page_final_ltv := final_ltv;
         page_contribution_data := contribution_data;
         page_insights := insights;
         page_optimisation := optimisation;
         page_detail_data := detail_data |}).
Proof.
  unfold run_page. cbv zeta.
  rewrite (page_totals profiles b g s f _ _ _ _ _ _ _ _ _ _ _ _ _ _ _ _ _ _ _ _
             HB HG HS HF).
  cbn [bind]. rewrite getitem_last_of_five. reflexivity.
Qed.

End PageValues.


Lemma float_gt_false (x y : Q) : float_gt x y = false -> x <= y.
Proof.
  unfold float_gt. intro H. apply Qle_bool_iff.
  now destruct (Qle_bool x y).
Qed.


Lemma scaled_pos (x c : Q) (n : Z) :
  x == c * inject_Z n -> 0 < c -> (0 < n)%Z -> 0 < x.
Proof.
  intros -> Hc Hn. apply Qmult_lt_0_compat; [exact Hc|].
  change 0 with (inject_Z 0). now rewrite <- Zlt_Qlt.
Qed.


Section PageTheorems.

Import Survival.

Variable profiles : dict archetype_params.

Lemma simulate_60_five (a : string) (n : Z) (series : list Q) :
  simulate_archetype_ltv profiles a n 60 = Ok series ->
  exists x0 x1 x2 x3 x4, series = [x0; x1; x2; x3; x4].
Proof.
  intro H. apply length_5. exact (simulate_60_length _ _ _ _ H).
Qed.

(** A run of the page that returns has projected its four archetypes. *)
Lemma run_page_series (b g s f : Z) (result : page) :
  run_page profiles b g s f = Ok result ->
  exists B0 B1 B2 B3 B4 G0 G1 G2 G3 G4 S0 S1 S2 S3 S4 F0 F1 F2 F3 F4,
    simulate_archetype_ltv profiles "Born Successful" b 60 =
    Ok [B0; B1; B2; B3; B4] /\
    simulate_archetype_ltv profiles "Grown Successful" g 60 =
    Ok [G0; G1; G2; G3; G4] /\
    simulate_archetype_ltv profiles "Struggling" s 60 =
    Ok [S0; S1; S2; S3; S4] /\
    simulate_archetype_ltv profiles "Failed" f 60 =
    Ok [F0; F1; F2; F3; F4].
Proof.
  intro H. unfold run_page in H. cbv zeta in H.
  destruct (calculate_total_ltv profiles (seller_counts_of_inputs b g s f))
    as [[total contribs]|e] eqn:E; [clear H|discriminate].
  rewrite seller_counts_of_inputs_eq in E.
  unfold calculate_total_ltv, items in E. cbv zeta in E.
  cbn [for_each] in E.
  destruct (simulate_archetype_ltv profiles "Born Successful" b 60)
    as [sB|e] eqn:HB.
  2: { now rewrite (total_body_raise _ _ _ _ _ _ HB) in E. }
  destruct (simulate_60_five _ _ _ HB) as (B0 & B1 & B2 & B3 & B4 & ->).
  rewrite (total_body_five _ _ _ _ _ 0 0 0 0 0 _ _ _ _ _ eq_refl HB) in E.
  cbn [bind] in E.
  destruct (simulate_archetype_ltv profiles "Grown Successful" g 60)
    as [sG|e] eqn:HG.
  2: { now rewrite (total_body_raise _ _ _ _ _ _ HG) in E. }
  destruct (simulate_60_five _ _ _ HG) as (G0 & G1 & G2 & G3 & G4 & ->).
  rewrite (total_body_five _ _ _ _ _ _ _ _ _ _ _ _ _ _ _ eq_refl HG) in E.
  cbn [bind] in E.
  destruct (simulate_archetype_ltv profiles "Struggling" s 60)
    as [sS|e] eqn:HS.
  2: { now rewrite (total_body_raise _ _ _ _ _ _ HS) in E. }
  destruct (simulate_60_five _ _ _ HS) as (S0 & S1 & S2 & S3 & S4 & ->).
  rewrite (total_body_five _ _ _ _ _ _ _ _ _ _ _ _ _ _ _ eq_refl HS) in E.
  cbn [bind] in E.
  destruct (simulate_archetype_ltv profiles "Failed" f 60)
    as [sF|e] eqn:HF.
  2: { now rewrite (total_body_raise _ _ _ _ _ _ HF) in E. }
  destruct (simulate_60_five _ _ _ HF) as (F0 & F1 & F2 & F3 & F4 & ->).
  now exists B0, B1, B2, B3, B4, G0, G1, G2, G3, G4,
             S0, S1, S2, S3, S4, F0, F1, F2, F3, F4.
Qed.


End PageTheorems.





(** X15.  Whenever a run of the page shows the detail table, the table has
    one row per year, its cumulative column is the total series of the
    chart, and in every row the cumulative value is the sum of the four
    archetype columns. *)
Theorem detail_rows_add_up
        (profiles : dict Survival.archetype_params)
        (born_count grown_count struggle_count fail_count : Z)
        (result : Survival.page) (rows : list Survival.detail_row) :
  Survival.run_page profiles born_count grown_count struggle_count fail_count =
  Ok result ->
  Survival.page_detail_data result = Some rows ->
  map Survival.Year rows = [1; 2; 3; 4; 5]%Z /\
  map Survival.Cumulative_LTV rows = Survival.page_total_ltv_by_year result /\
  Forall
    (fun row =>
       Survival.Cumulative_LTV row ==
       Survival.Born_Contribution row + Survival.Grown_Contribution row +
       Survival.Struggling_Contribution row + Survival.Failed_Contribution row)
    rows.
Proof.
  intros Hrun Hrows.
  destruct (run_page_series profiles _ _ _ _ _ Hrun)
    as (B0 & B1 & B2 & B3 & B4 & G0 & G1 & G2 & G3 & G4 &
        S0 & S1 & S2 & S3 & S4 & F0 & F1 & F2 & F3 & F4 &
        HB & HG & HS & HF).
  rewrite (run_page_unfold profiles _ _ _ _ _ _ _ _ _ _ _ _ _ _ _ _ _ _ _ _
             _ _ _ _ HB HG HS HF) in Hrun.
  destruct (Survival.contribution_data profiles _ _) as [cd|e];
    [|discriminate]. cbn [bind] in Hrun.
  destruct (Survival.insights profiles _ _ _ _) as [ins|e];
    [|discriminate]. cbn [bind] in Hrun.
  destruct (Survival.optimisation_suggestions _ _ _ _) as [opt|e];
    [|discriminate]. cbn [bind] in Hrun.
  pose proof (detail_data_of_page profiles born_count grown_count
                struggle_count fail_count _ _ _ _ _ _ _ _ _ _ _ _
                _ _ _ _ _ _ _ _ HB HG HS HF) as Hd.
  cbv zeta in Hd. rewrite Hd in Hrun.
  destruct (sum_int _ >? 0)%Z; cbn [bind] in Hrun;
    apply Ok_inj in Hrun; subst result;
    cbn [Survival.page_detail_data Survival.page_total_ltv_by_year] in *;
    [|discriminate].
  apply (f_equal (fun o => match o with Some r => r | None => [] end)) in Hrows.
  subst rows. split; [reflexivity|]. split; [reflexivity|].
  repeat constructor;
    cbn [Survival.Cumulative_LTV Survival.Born_Contribution
         Survival.Grown_Contribution Survival.Struggling_Contribution
         Survival.Failed_Contribution]; ring.
Qed.

Lemma detail_rows_add_up_witness :
  exists result rows,
    Survival.run_page contrast_params 1 1 1 1 = Ok result /\
    Survival.page_detail_data result = Some rows /\
    map Survival.Year rows = [1; 2; 3; 4; 5]%Z /\
    map Survival.Cumulative_LTV rows =
    Survival.page_total_ltv_by_year result /\
    Forall
      (fun row =>
         Survival.Cumulative_LTV row ==
         Survival.Born_Contribution row + Survival.Grown_Contribution row +
         Survival.Struggling_Contribution row +
         Survival.Failed_Contribution row)
      rows.
Proof.
  do 2 eexists.
  split; [vm_compute; reflexivity|]. split; [reflexivity|].
  refine (detail_rows_add_up contrast_params 1 1 1 1 _ _ _ _).
  - vm_compute. reflexivity.
  - reflexivity.
Defined.

Section Donut.

Import Survival.

Variable profiles : dict archetype_params.

Lemma total_last_is_sum (seller_counts : dict Z) (total : list Q)
      (contribs : dict Q) (final_ltv : Q) :
  NoDup (keys seller_counts) ->
  calculate_total_ltv profiles seller_counts = Ok (total, contribs) ->
  getitem total (-1) = Ok final_ltv ->
  sum (values contribs) == final_ltv.
Proof.
  intros Hnd Hrun Hlast.
  unfold calculate_total_ltv, items in Hrun. cbv zeta in Hrun.
  apply total_loop_consistent in Hrun;
    [|exact Hnd|intros a _ []|reflexivity|reflexivity].
  destruct Hrun as [Hlen Hsum].
  destruct (length_5 _ Hlen) as (t0 & t1 & t2 & t3 & t4 & ->).
  rewrite getitem_last_of_five in Hlast. apply Ok_inj in Hlast.
  subst final_ltv. exact Hsum.
Qed.

Lemma float_gt_of_lt (x y : Q) : y < x -> float_gt x y = true.
Proof.
  intro H. unfold float_gt.
  destruct (Qle_bool x y) eqn:E; [|reflexivity].
  apply Qle_bool_iff in E. lra.
Qed.

Lemma float_gt_of_le (x y : Q) : x <= y -> float_gt x y = false.
Proof.
  intro H. unfold float_gt. apply Qle_bool_iff in H. now rewrite H.
Qed.

(** What the donut loop needs to know of an entry: it is positive exactly
    when the count is, it is 0 otherwise, and both lookups succeed. *)
Lemma contribution_loop (all_counts : dict Z) (items : dict Z)
      (entries : dict Q) :
  Forall2
    (fun (item : string * Z) (entry : string * Q) =>
       fst entry = fst item /\
       float_gt (snd entry) 0 = (snd item >? 0)%Z /\
       ((snd item >? 0)%Z = false -> snd entry == 0) /\
       lookup all_counts (fst item) = Some (snd item) /\
       lookup profiles (fst item) <> None)
    items entries ->
  forall acc,
  exists rows,
    for_each entries (contribution_body profiles all_counts) acc =
    Ok (acc ++ rows) /\
    map Count rows = filter (fun c => (c >? 0)%Z) (map snd items) /\
    sum (map Contribution rows) == sum (map snd entries).
Proof.
  induction 1 as [|[a n] [a' c] items entries (Hk & Hgt & Hzero & Hn & Hp) _ IH];
    intro acc.
  - exists []. rewrite app_nil_r. repeat split; reflexivity.
  - cbn [fst snd] in *. subst a'.
    cbn [for_each contribution_body map filter fst snd]. rewrite Hgt.
    destruct (n >? 0)%Z eqn:Hpos.
    + destruct (dict_get_known _ _ Hp) as (p & -> & _).
      unfold dict_get. rewrite Hn. cbn [bind].
      destruct (IH (acc ++ [{| Archetype := description p;
                               Contribution := c; Count := n |}]))
        as (rows & -> & Hcount & Hsum).
      eexists ({| Archetype := description p; Contribution := c;
                  Count := n |} :: rows).
      rewrite <- app_assoc. split; [reflexivity|].
      cbn [map Count Contribution]. split; [now f_equal|].
      rewrite !sum_cons, Hsum. reflexivity.
    + cbn [bind]. destruct (IH acc) as (rows & -> & Hcount & Hsum).
      exists rows. split; [reflexivity|]. split; [exact Hcount|].
      rewrite sum_cons, Hsum, (Hzero eq_refl). ring.
Qed.

Lemma recorded_last (a : string) (n : Z) (p : archetype_params)
      (entry : string * Q) :
  recorded profiles (a, n) entry -> lookup profiles a = Some p ->
  fst entry = a /\ snd entry == cumulative_after p 60 * inject_Z n.
Proof.
  intros (Hk & series & Hs & Hlast) Hl. cbn [fst snd] in *.
  split; [exact Hk|].
  destruct (simulate_five profiles a p n Hl)
    as (x0 & x1 & x2 & x3 & x4 & Hs' & E).
  rewrite Hs' in Hs. apply Ok_inj in Hs. subst series.
  rewrite getitem_last_of_five in Hlast. apply Ok_inj in Hlast.
  now rewrite <- Hlast.
Qed.

Lemma recorded_shown (all_counts : dict Z) (items : dict Z)
      (entries : dict Q) :
  Forall2 (recorded profiles) items entries ->
  (forall item,
      In item items ->
      lookup all_counts (fst item) = Some (snd item) /\
      (0 <= snd item)%Z /\
      exists p,
        lookup profiles (fst item) = Some p /\
        monthly_churn_rate p < 1 /\ 0 < subscription_fee p) ->
  Forall2
    (fun (item : string * Z) (entry : string * Q) =>
       fst entry = fst item /\
       float_gt (snd entry) 0 = (snd item >? 0)%Z /\
       ((snd item >? 0)%Z = false -> snd entry == 0) /\
       lookup all_counts (fst item) = Some (snd item) /\
       lookup profiles (fst item) <> None)
    items entries.
Proof.
  induction 1 as [|[a n] entry items entries Hrec _ IH]; intro Hall.
  - constructor.
  - constructor; [|apply IH; intros item Hin; apply Hall; now right].
    destruct (Hall (a, n) (or_introl eq_refl))
      as (Hn & Hnn & p & Hl & Hc & Hfee).
    cbn [fst snd] in *.
    destruct (recorded_last a n p entry Hrec Hl) as [Hk E].
    pose proof (cumulative_after_pos p 60 Hc Hfee ltac:(lia)) as Hcum.
    split; [exact Hk|].
    destruct (Z.gtb_spec n 0) as [Hpos|Hneg].
    + split; [|split; [discriminate|split; [exact Hn | congruence]]].
      apply float_gt_of_lt. exact (scaled_pos _ _ _ E Hcum Hpos).
    + assert (n = 0%Z) by lia. subst n.
      assert (Hz : snd entry == 0)
        by (rewrite E; change (inject_Z 0) with 0; ring).
      split; [|split; [intros _; exact Hz|split; [exact Hn | congruence]]].
      apply float_gt_of_le. rewrite Hz. apply Qle_refl.
Qed.

End Donut.

(** X16.  The slices of the donut chart add up to the total shown in its
    centre: for an allocation with distinct archetypes, counts >= 0 and
    profiles with a fee > 0 and a churn < 1, the chart has one row for each
    archetype with a count > 0, in the order of the allocation and with that
    count, and the contributions of the rows add up to the final LTV. *)
Theorem donut_slices_add_up_to_the_total
        (profiles : dict Survival.archetype_params) (seller_counts : dict Z)
        (total_ltv_by_year : list Q) (archetype_contributions : dict Q)
        (final_ltv : Q) :
  NoDup (keys seller_counts) ->
  (forall item,
      In item seller_counts ->
      (0 <= snd item)%Z /\
      exists p,
        lookup profiles (fst item) = Some p /\
        Survival.monthly_churn_rate p < 1 /\ 0 < Survival.subscription_fee p) ->
  Survival.calculate_total_ltv profiles seller_counts =
  Ok (total_ltv_by_year, archetype_contributions) ->
  getitem total_ltv_by_year (-1) = Ok final_ltv ->
  exists rows,
    Survival.contribution_data profiles archetype_contributions seller_counts =
    Ok rows /\
    map Survival.Count rows =
    filter (fun count => (count >? 0)%Z) (values seller_counts) /\
    sum (map Survival.Contribution rows) == final_ltv.
Proof.
  intros Hnd Hvalid Hrun Hlast.
  pose proof (total_contributions _ _ _ _ Hnd Hrun) as Hrec.
  pose proof (total_last_is_sum _ _ _ _ _ Hnd Hrun Hlast) as Hsum.
  assert (Hshown := recorded_shown profiles seller_counts _ _ Hrec).
  destruct (contribution_loop profiles seller_counts seller_counts
              archetype_contributions) with (acc := @nil Survival.contribution_row)
    as (rows & Hloop & Hcount & Hs).
  { apply Hshown. intros [a n] Hin.
    destruct (Hvalid _ Hin) as [Hnn Hp]. split; [|split; assumption].
    now apply lookup_NoDup. }
  exists rows. split; [exact Hloop|]. split; [exact Hcount|].
  rewrite Hs. exact Hsum.
Qed.

Lemma donut_slices_add_up_to_the_total_witness :
  exists total_ltv_by_year archetype_contributions final_ltv rows,
    Survival.calculate_total_ltv contrast_params
      [("Born Successful"%string, 2%Z); ("Failed"%string, 0%Z)] =
    Ok (total_ltv_by_year, archetype_contributions) /\
    getitem total_ltv_by_year (-1) = Ok final_ltv /\
    Survival.contribution_data contrast_params archetype_contributions
      [("Born Successful"%string, 2%Z); ("Failed"%string, 0%Z)] = Ok rows /\
    map Survival.Count rows =
    filter (fun count => (count >? 0)%Z)
           (values [("Born Successful"%string, 2%Z); ("Failed"%string, 0%Z)]) /\
    sum (map Survival.Contribution rows) == final_ltv.
Proof.
  assert (Hrun : exists t c f,
    Survival.calculate_total_ltv contrast_params
      [("Born Successful"%string, 2%Z); ("Failed"%string, 0%Z)] = Ok (t, c) /\
    getitem t (-1) = Ok f).
  { do 3 eexists. split; [vm_compute; reflexivity | reflexivity]. }
  destruct Hrun as (t & c & f & Hrun & Hlast).
  destruct (donut_slices_add_up_to_the_total contrast_params
              [("Born Successful"%string, 2%Z); ("Failed"%string, 0%Z)]
              t c f) as (rows & H1 & H2 & H3).
  - repeat constructor; cbn; intuition discriminate.
  - intros item [<-|[<-|[]]]; cbn [fst snd]; (split; [lia|]);
      eexists; (split; [reflexivity|]); split; unfold Qlt; cbn; lia.
  - exact Hrun.
  - exact Hlast.
  - exists t, c, f, rows. now repeat split.
Defined.

Lemma efficiencies_In (contribs : dict Q) (seller_counts : dict Z)
      (a : string) (e : Q) :
  In (a, e) (efficiencies contribs seller_counts) <->
  exists c n,
    In (a, c) contribs /\ lookup seller_counts a = Some n /\ (0 < n)%Z /\
    e = c / inject_Z n.
Proof.
  unfold efficiencies. rewrite in_flat_map. split.
  - intros ([b c] & Hin & Hx).
    destruct (lookup seller_counts b) as [n|] eqn:Hl; [|contradiction].
    destruct (Z.gtb_spec n 0) as [Hn|_]; [|contradiction].
    destruct Hx as [[= -> <-]|[]]. exists c, n. repeat split; auto; lia.
  - intros (c & n & Hin & Hl & Hn & ->). exists (a, c). split; [exact Hin|].
    rewrite Hl. destruct (Z.gtb_spec n 0) as [_|?]; [now left | lia].
Qed.

Lemma recorded_In_entry (profiles : dict Survival.archetype_params)
      (seller_counts : dict Z) (entries : dict Q) (entry : string * Q) :
  Forall2 (recorded profiles) seller_counts entries -> In entry entries ->
  exists item, In item seller_counts /\ recorded profiles item entry.
Proof.
  induction 1 as [|i e items entries Hrec _ IH]; intro Hin.
  - contradiction.
  - destruct Hin as [->|Hin].
    + exists i. split; [now left | exact Hrec].
    + destruct (IH Hin) as (item & Hi & Hr). exists item.
      split; [now right | exact Hr].
Qed.

(** X17.  The efficiency of an archetype is the five-year value of one of
    its sellers, whatever the allocation: in the ranking computed from the
    result of [calculate_total_ltv], an archetype with a count > 0 appears
    with the sum for m = 1..60 of fee * (1 - churn)^m, so the ranking does
    not depend on the counts. *)
Theorem efficiency_is_the_value_of_one_seller
        (profiles : dict Survival.archetype_params) (seller_counts : dict Z)
        (total_ltv_by_year : list Q) (archetype_contributions : dict Q)
        (archetype : string) (count : Z) (p : Survival.archetype_params) :
  NoDup (keys seller_counts) ->
  Survival.calculate_total_ltv profiles seller_counts =
  Ok (total_ltv_by_year, archetype_contributions) ->
  In (archetype, count) seller_counts -> (0 < count)%Z ->
  lookup profiles archetype = Some p ->
  exists ranking,
    Survival.efficiency_data archetype_contributions seller_counts =
    Ok ranking /\
    (exists efficiency, In (archetype, efficiency) ranking) /\
    (forall efficiency,
        In (archetype, efficiency) ranking ->
        efficiency ==
        geometric_fee_sum (Survival.subscription_fee p)
                          (Survival.monthly_churn_rate p) 60).
Proof.
  intros Hnd Hrun Hin Hpos Hl.
  pose proof (total_contributions _ _ _ _ Hnd Hrun) as Hrec.
  pose proof (recorded_keys _ _ _ Hrec) as Hkeys.
  pose proof (lookup_NoDup _ _ _ Hnd Hin) as Hcount.
  exists (sort_reverse snd
            (efficiencies archetype_contributions seller_counts)).
  split.
  { apply efficiency_data_sorted. intros a Ha Hnone.
    rewrite Hkeys in Ha. apply lookup_None in Hnone. contradiction. }
  assert (Hperm := sort_reverse_perm snd
                     (efficiencies archetype_contributions seller_counts)).
  split.
  - destruct (recorded_In _ _ _ _ Hrec Hin) as ([b c] & He & Hk & _).
    cbn [fst] in Hk. subst b.
    exists (c / inject_Z count).
    apply (Permutation_in _ (Permutation_sym Hperm)).
    apply efficiencies_In. now exists c, count.
  - intros e He. apply (Permutation_in _ Hperm) in He.
    apply efficiencies_In in He.
    destruct He as (c & n & Hc & Hn & _ & ->).
    assert (n = count) by congruence. subst n.
    destruct (recorded_In_entry _ _ _ _ Hrec Hc)
      as ([a' n'] & Hi & Hr).
    assert (Ha : a' = archetype) by (destruct Hr as [Hk _]; now cbn in Hk).
    subst a'.
    assert (n' = count).
    { pose proof (lookup_NoDup _ _ _ Hnd Hi). congruence. }
    subst n'.
    destruct (recorded_last profiles _ _ p _ Hr Hl) as [_ E].
    cbn [snd] in E. rewrite E.
    rewrite (cumulative_after_sum p 60).
    change (Z.of_nat 60) with 60%Z.
    assert (HN : ~ inject_Z count == 0).
    { intro H0. unfold Qeq in H0. cbn in H0. lia. }
    field. exact HN.
Qed.

Lemma efficiency_is_the_value_of_one_seller_witness :
  exists total_ltv_by_year archetype_contributions ranking,
    Survival.calculate_total_ltv contrast_params
      [("Born Successful"%string, 2%Z); ("Failed"%string, 0%Z)] =
    Ok (total_ltv_by_year, archetype_contributions) /\
    Survival.efficiency_data archetype_contributions
      [("Born Successful"%string, 2%Z); ("Failed"%string, 0%Z)] =
    Ok ranking /\
    (exists efficiency, In ("Born Successful"%string, efficiency) ranking) /\
    (forall efficiency,
        In ("Born Successful"%string, efficiency) ranking ->
        efficiency == geometric_fee_sum 100 0 60).
Proof.
  destruct (total_returns contrast_params
              [("Born Successful"%string, 2%Z); ("Failed"%string, 0%Z)]
              eq_refl) as (t & c & Hrun).
  destruct (efficiency_is_the_value_of_one_seller contrast_params
              [("Born Successful"%string, 2%Z); ("Failed"%string, 0%Z)]
              t c "Born Successful" 2 (flat_profile 100))
    as (ranking & H1 & H2 & H3).
  - repeat constructor; cbn; intuition discriminate.
  - exact Hrun.
  - now left.
  - lia.
  - reflexivity.
  - exists t, c, ranking. now repeat split.
Defined.

(** * Further properties of the annual model *)

Section AnnualMore.

Import Annual.

Variable table : dict archetype_data.

Lemma impact_yearly_length (seller_counts : dict Z) (total_impact : Q)
      (yearly_projections : list Q) (contribs : dict contribution) :
  calculate_ltv_impact table seller_counts =
  Ok (total_impact, yearly_projections, contribs) ->
  List.length yearly_projections = 5%nat.
Proof.
  intro Hrun. unfold calculate_ltv_impact, items in Hrun. cbv zeta in Hrun.
  destruct (for_each seller_counts (impact_body table)
              (@pair Q (dict contribution) 0 []))
    as [[t c]|e] eqn:Hloop; [|discriminate].
  cbn [bind] in Hrun.
  rewrite projection_loop in Hrun
    by exact (impact_loop_well_formed table _ (@pair Q (dict contribution) 0 [])
                (t, c) (Forall_nil _) Hloop).
  cbn [bind] in Hrun. apply Ok_inj in Hrun. injection Hrun as _ <- _.
  reflexivity.
Qed.

Lemma max_year_idx_in_range (xs : list Q) :
  xs <> [] ->
  exists i : nat,
    max_year_idx xs = Ok (Z.of_nat i) /\ (i < List.length xs)%nat.
Proof.
  destruct xs as [|x xs]; [congruence|]. intros _.
  destruct (max_spec x xs) as (m & Hmax & Hin & _).
  destruct (index_spec (x :: xs) m) as (i & Hi & Hlen & _).
  { exists m. split; [exact Hin | reflexivity]. }
  exists i. unfold max_year_idx. rewrite Hmax. cbn [bind].
  split; [exact Hi | exact Hlen].
Qed.

(** The series of a cohort is the series of one seller times the count. *)
Lemma project_years_scaled (data : archetype_data) (n : Z) :
  series_scaled (inject_Z n) (project_years data 1) (project_years data n) /\
  sum (project_years data n) == inject_Z n * value_per_seller data.
Proof.
  unfold value_per_seller. rewrite !project_years_unfold. cbv zeta.
  change (inject_Z 1) with 1. split.
  - unfold series_scaled. repeat constructor; ring.
  - rewrite !sum_cons, !sum_nil. ring.
Qed.

Lemma value_per_seller_pos (data : archetype_data) :
  earning data -> 0 < value_per_seller data.
Proof.
  intros (Hb & Hg & Hr). unfold value_per_seller.
  rewrite project_years_unfold. cbv zeta. change (inject_Z 1) with 1.
  rewrite !sum_cons, sum_nil.
  assert (Hpow : forall y, 0 < (1 + growth_rate data) ^ y)
    by (intro y; apply Qpower_0_lt; lra).
  assert (Hterm : forall y remaining,
             0 <= remaining ->
             0 <= avg_ltv data * (1 + growth_rate data) ^ y * remaining).
  { intros y remaining Hrem. apply Qmult_le_0_compat; [|exact Hrem].
    apply Qmult_le_0_compat; [lra | apply Qlt_le_weak, Hpow]. }
  assert (H1 : 0 < avg_ltv data * (1 + growth_rate data) ^ 1 * 1).
  { apply Qmult_lt_0_compat; [|reflexivity].
    apply Qmult_lt_0_compat; [exact Hb | apply Hpow]. }
  assert (Hr1 : 0 <= 1 * retention_rate data) by lra.
  assert (Hr2 : 0 <= 1 * retention_rate data * retention_rate data)
    by (apply Qmult_le_0_compat; assumption).
  assert (Hr3 : 0 <= 1 * retention_rate data * retention_rate data *
                     retention_rate data)
    by (apply Qmult_le_0_compat; assumption).
  assert (Hr4 : 0 <= 1 * retention_rate data * retention_rate data *
                     retention_rate data * retention_rate data)
    by (apply Qmult_le_0_compat; assumption).
  pose proof (Hterm 2%Z _ Hr1). pose proof (Hterm 3%Z _ Hr2).
  pose proof (Hterm 4%Z _ Hr3). pose proof (Hterm 5%Z _ Hr4).
  lra.
Qed.

Lemma contribution_total_pos (data : archetype_data) (n : Z) :
  earning data -> (0 < n)%Z -> 0 < total (contribution_of data n).
Proof.
  intros He Hn. cbn [contribution_of total].
  destruct (project_years_scaled data n) as [_ ->].
  apply Qmult_lt_0_compat; [|now apply value_per_seller_pos].
  change 0 with (inject_Z 0). now rewrite <- Zlt_Qlt.
Qed.

End AnnualMore.

Lemma impact_returns (table : dict Annual.archetype_data)
      (seller_counts : dict Z) :
  first_unknown table (fun c => (c >? 0)%Z) seller_counts = None ->
  exists total_impact yearly contribs,
    Annual.calculate_ltv_impact table seller_counts =
    Ok (total_impact, yearly, contribs).
Proof.
  intro Hnone. pose proof (impact_failure table seller_counts) as H.
  rewrite Hnone in H.
  destruct (Annual.calculate_ltv_impact table seller_counts)
    as [[[t y] c]|e]; [|discriminate].
  now exists t, y, c.
Qed.

Lemma first_unknown_of_known {V : Type} (table : dict V)
      (is_active : Z -> bool) (seller_counts : dict Z) :
  (forall a, In a (keys seller_counts) -> lookup table a <> None) ->
  first_unknown table is_active seller_counts = None.
Proof.
  intro Hknown. unfold first_unknown.
  induction seller_counts as [|[a n] rest IH]; cbn [find fst snd].
  - reflexivity.
  - destruct (lookup table a) eqn:Hl.
    + rewrite andb_false_r. apply IH. intros b Hb. apply Hknown. now right.
    + exfalso. apply (Hknown a); [now left | exact Hl].
Qed.

(** X18.  Whatever [calculate_ltv_impact] returns, the best-year lookup of
    [main] succeeds on its yearly series and gives an index from 0 to 4, so
    the year shown is one of 2025..2029. *)
Theorem best_year_is_within_the_horizon
        (table : dict Annual.archetype_data) (seller_counts : dict Z)
        (total_impact : Q) (yearly_projections : list Q)
        (archetype_contributions : dict Annual.contribution) :
  Annual.calculate_ltv_impact table seller_counts =
  Ok (total_impact, yearly_projections, archetype_contributions) ->
  exists max_year_idx,
    Annual.max_year_idx yearly_projections = Ok max_year_idx /\
    (0 <= max_year_idx < 5)%Z.
Proof.
  intro Hrun. pose proof (impact_yearly_length _ _ _ _ _ Hrun) as Hlen.
  destruct (max_year_idx_in_range yearly_projections) as (i & Hi & Hlt).
  - intros ->. discriminate.
  - exists (Z.of_nat i). split; [exact Hi | lia].
Qed.

Lemma best_year_is_within_the_horizon_witness :
  exists total_impact yearly_projections archetype_contributions max_year_idx,
    Annual.calculate_ltv_impact scenario_data [(scenario, 100%Z)] =
    Ok (total_impact, yearly_projections, archetype_contributions) /\
    Annual.max_year_idx yearly_projections = Ok max_year_idx /\
    (0 <= max_year_idx < 5)%Z.
Proof.
  destruct (impact_returns scenario_data [(scenario, 100%Z)] eq_refl)
    as (t & y & c & E).
  destruct (best_year_is_within_the_horizon _ _ _ _ _ E) as (i & Hi & Hr).
  exists t, y, c, i. now repeat split.
Defined.

Section MainRun.

Import Annual.

Variable table : dict archetype_data.

Lemma sliders_loop (slider : string -> Z) (rest : dict archetype_data) :
  forall acc : dict Z,
    NoDup (keys rest) ->
    (forall a, In a (keys rest) -> ~ In a (keys acc)) ->
    fold_left
      (fun (seller_counts : dict Z) (item : string * archetype_data) =>
         dict_set seller_counts (fst item) (slider (fst item)))
      rest acc =
    acc ++ map (fun item => (fst item, slider (fst item))) rest.
Proof.
  induction rest as [|[a d] rest IH]; intros acc Hnd Hfresh; cbn [fold_left map].
  - now rewrite app_nil_r.
  - cbn [keys map fst] in Hnd, Hfresh.
    inversion Hnd as [|? ? Ha Hnd']; subst.
    cbn [fst]. rewrite dict_set_fresh by (apply Hfresh; now left).
    rewrite IH; [now rewrite <- app_assoc|exact Hnd'|].
    intros b Hb Hin. rewrite keys_app in Hin.
    apply in_app_or in Hin. destruct Hin as [Hin|[<-|[]]].
    + apply (Hfresh b); [now right | exact Hin].
    + now apply Ha.
Qed.

Lemma seller_counts_of_sliders_eq (slider : string -> Z) :
  NoDup (keys table) ->
  seller_counts_of_sliders table slider =
  map (fun item => (fst item, slider (fst item))) table.
Proof.
  intro Hnd. unfold seller_counts_of_sliders, items.
  rewrite sliders_loop; [reflexivity | exact Hnd | intros a _ []].
Qed.

Lemma seller_counts_of_sliders_keys (slider : string -> Z) :
  NoDup (keys table) ->
  keys (seller_counts_of_sliders table slider) = keys table.
Proof.
  intro Hnd. rewrite seller_counts_of_sliders_eq by exact Hnd.
  unfold keys. rewrite map_map. reflexivity.
Qed.

Lemma fold_add_acc (xs : list Z) (a : Z) :
  fold_left Z.add xs a = (a + sum_int xs)%Z.
Proof.
  unfold sum_int. revert a. induction xs as [|x xs IH]; intro a; cbn [fold_left].
  - lia.
  - rewrite IH, (IH (0 + x)%Z). lia.
Qed.

Lemma sum_int_positive (xs : list Z) :
  (0 < sum_int xs)%Z -> exists x, In x xs /\ (0 < x)%Z.
Proof.
  induction xs as [|x xs IH]; unfold sum_int; cbn [fold_left].
  - lia.
  - rewrite fold_add_acc. intro H.
    destruct (Z.lt_ge_cases 0 x) as [Hx|Hx].
    + exists x. split; [now left | exact Hx].
    + destruct IH as (y & Hy & Hpos); [lia|].
      exists y. split; [now right | exact Hpos].
Qed.

End MainRun.

Lemma sum_positive (xs : list Q) :
  Forall (fun x => 0 < x) xs -> xs <> [] -> 0 < sum xs.
Proof.
  intros Hall Hne. destruct Hall as [|x xs Hx Hxs]; [congruence|].
  rewrite sum_cons.
  assert (0 <= sum xs).
  { apply sum_nonnegative. eapply Forall_impl; [|exact Hxs].
    intros y Hy. now apply Qlt_le_weak. }
  lra.
Qed.

Section Analysis.

Import Annual.

Variable table : dict archetype_data.
Variable contribs : dict contribution.
Variable total_impact : Q.
Hypothesis total_impact_nonzero : ~ total_impact == 0.

Lemma analysis_loop (seller_counts : dict Z) :
  (forall a n,
      In (a, n) seller_counts -> (0 < n)%Z ->
      exists data,
        lookup table a = Some data /\
        lookup contribs a = Some (contribution_of data n)) ->
  forall acc,
  exists rows,
    for_each seller_counts (analysis_body table contribs total_impact) acc =
    Ok (acc ++ rows) /\
    sum (map row_total rows) ==
    sum (map total (values (contributions_of table seller_counts))) /\
    Forall (fun row => row_share row == row_total row / total_impact * 100)
           rows /\
    Forall2
      (fun (item : string * Z) row =>
         row_count row = snd item /\
         forall data,
           lookup table (fst item) = Some data ->
           row_name row = name data /\
           row_per_seller row == value_per_seller data /\
           row_total row == inject_Z (snd item) * value_per_seller data)
      (active seller_counts) rows.
Proof.
  induction seller_counts as [|[a n] rest IH]; intros Hk acc.
  - exists []. rewrite app_nil_r. repeat split; constructor.
  - cbn [for_each analysis_body contributions_of flat_map active filter snd].
    fold (contributions_of table rest). fold (active rest).
    destruct (Z.gtb_spec n 0) as [Hpos|Hneg].
    + destruct (Hk a n (or_introl eq_refl)) as (data & Hl & Hc); [lia|].
      unfold dict_get. rewrite Hl, Hc. cbn [bind].
      rewrite truediv_positive by lia. cbn [bind].
      unfold truediv at 1.
      destruct (Qeq_bool total_impact 0) eqn:E.
      { apply Qeq_bool_iff in E. contradiction. }
      cbn [bind].
      match goal with
      | |- context [acc ++ [?r]] => set (row := r)
      end.
      destruct (IH (fun b m Hin => Hk b m (or_intror Hin)) (acc ++ [row]))
        as (rows & -> & Hsum & Hshare & Hrows).
      exists (row :: rows). rewrite <- app_assoc.
      split; [reflexivity|]. split; [|split].
      * cbn [map app values snd]. rewrite !sum_cons, Hsum. reflexivity.
      * constructor; [reflexivity | exact Hshare].
      * constructor; [|exact Hrows].
        split; [reflexivity|]. intros data' Hl'. cbn [fst snd] in *.
        assert (data' = data) by congruence. subst data'.
        subst row. cbn [row_name row_per_seller row_total].
        cbn [contribution_of total].
        destruct (project_years_scaled data n) as [_ Hs].
        assert (HN : ~ inject_Z n == 0).
        { intro H0. unfold Qeq in H0. cbn in H0. lia. }
        split; [reflexivity|]. split; [|exact Hs].
        rewrite Hs. field. exact HN.
    + cbn [bind].
      destruct (IH (fun b m Hin => Hk b m (or_intror Hin)) acc)
        as (rows & -> & Hsum & Hshare & Hrows).
      exists rows. now repeat split.
Qed.

End Analysis.

Section MainSpec.

Import Annual.

Variable table : dict archetype_data.
Variable slider : string -> Z.
Hypothesis table_distinct : NoDup (keys table).
Hypothesis table_earning :
  forall a data, lookup table a = Some data -> earning data.

Lemma sliders_known (a : string) :
  In a (keys (seller_counts_of_sliders table slider)) ->
  exists data, lookup table a = Some data.
Proof.
  rewrite seller_counts_of_sliders_keys by exact table_distinct.
  intro Hin. destruct (lookup table a) as [data|] eqn:Hl.
  - now exists data.
  - apply lookup_None in Hl. contradiction.
Qed.

Lemma main_idle :
  (sum_int (values (seller_counts_of_sliders table slider)) <= 0)%Z ->
  main table slider = Ok None.
Proof.
  intro H. unfold main. cbv zeta.
  destruct (Z.gtb_spec
              (sum_int (values (seller_counts_of_sliders table slider))) 0);
    [lia | reflexivity].
Qed.

Lemma main_spec :
  (0 < sum_int (values (seller_counts_of_sliders table slider)))%Z ->
  exists total_impact yearly contribs average per_seller best rows,
    calculate_ltv_impact table (seller_counts_of_sliders table slider) =
    Ok (total_impact, yearly, contribs) /\
    main table slider =
    Ok (Some {| dashboard_total_impact := total_impact;
                dashboard_yearly_average := average;
                dashboard_per_seller := per_seller;
                dashboard_best_year := best;
                dashboard_yearly_projections := yearly;
                dashboard_contributions := contribs;
                dashboard_analysis_data := rows |}) /\
    0 < total_impact /\
    average * 5 == total_impact /\
    per_seller *
    inject_Z (sum_int (values (seller_counts_of_sliders table slider))) ==
    total_impact /\
    (2025 <= best < 2030)%Z /\
    sum (map row_total rows) == total_impact /\
    Forall (fun row => row_share row == row_total row / total_impact * 100)
           rows /\
    Forall2
      (fun (item : string * Z) row =>
         row_count row = snd item /\
         forall data,
           lookup table (fst item) = Some data ->
           row_name row = name data /\
           row_per_seller row == value_per_seller data /\
           row_total row == inject_Z (snd item) * value_per_seller data)
      (active (seller_counts_of_sliders table slider)) rows.
Proof.
  intro Hpos. unfold main. cbv zeta.
  set (seller_counts := seller_counts_of_sliders table slider) in *.
  assert (Hnd : NoDup (keys seller_counts)).
  { unfold seller_counts.
    now rewrite seller_counts_of_sliders_keys by exact table_distinct. }
  destruct (Z.gtb_spec (sum_int (values seller_counts)) 0) as [_|?]; [|lia].
  destruct (impact_returns table seller_counts) as (t & y & c & Hrun).
  { apply first_unknown_of_known. intros a Ha.
    destruct (sliders_known a Ha) as (data & Hl). congruence. }
  rewrite Hrun. cbn [bind].
  destruct (impact_ok table seller_counts t y c Hnd Hrun) as (Hc & Ht & _).
  (* the total is positive: some slider is *)
  destruct (sum_int_positive _ Hpos) as (n & Hn & Hnpos).
  unfold values in Hn. apply in_map_iff in Hn.
  destruct Hn as ([a n'] & Hn' & Hin). cbn [snd] in Hn'. subst n'.
  destruct (sliders_known a) as (data & Hl).
  { unfold keys. apply in_map_iff. now exists (a, n). }
  assert (Htpos : 0 < t).
  { rewrite Ht. apply sum_positive.
    - apply Forall_forall. intros x Hx. apply in_map_iff in Hx.
      destruct Hx as (cx & <- & Hcx). unfold values in Hcx.
      apply in_map_iff in Hcx. destruct Hcx as ([b cb] & Hb & Hinb).
      cbn [snd] in Hb. subst cb. rewrite Hc in Hinb.
      apply contributions_of_In in Hinb.
      destruct Hinb as (m & d & _ & Hm & Hd & ->).
      apply contribution_total_pos; [now apply (table_earning b) | lia].
    - intro Hnil.
      assert (Hinc : In (a, contribution_of data n) c).
      { rewrite Hc. apply contributions_of_In.
        exists n, data. repeat split; auto. lia. }
      apply (in_map snd) in Hinc. apply (in_map total) in Hinc.
      unfold values in Hnil. rewrite Hnil in Hinc. exact Hinc. }
  assert (Htne : ~ t == 0) by lra.
  unfold truediv at 1. change (Qeq_bool 5 0) with false. cbn [bind].
  rewrite truediv_positive
    by (destruct (Z.gtb_spec (sum_int (values seller_counts)) 0); lia).
  cbn [bind].
  destruct (max_year_idx_in_range y) as (i & Hi & Hlen).
  { pose proof (impact_yearly_length table seller_counts t y c Hrun) as Hy.
    intro Hnil. rewrite Hnil in Hy. discriminate. }
  rewrite (impact_yearly_length table seller_counts t y c Hrun) in Hlen.
  rewrite Hi. cbn [bind].
  destruct (analysis_loop table c t Htne seller_counts) with (acc := @nil analysis_row)
    as (rows & Hloop & Hsum & Hshare & Hrows).
  { intros b m Hb Hm.
    destruct (sliders_known b) as (d & Hd).
    { unfold keys. apply in_map_iff. now exists (b, m). }
    exists d. split; [exact Hd|]. rewrite Hc.
    apply contributions_of_lookup; auto. lia. }
  unfold items. rewrite Hloop. cbn [bind app].
  do 7 eexists. split; [reflexivity|]. split; [reflexivity|].
  split; [exact Htpos|]. split; [field|]. split.
  { field. intro H0. unfold Qeq in H0. cbn in H0. lia. }
  split; [lia|]. split.
  { rewrite Hsum, Ht, Hc. reflexivity. }
  split; [exact Hshare | exact Hrows].
Qed.

End MainSpec.

Lemma lookup_In {V : Type} (d : dict V) (k : string) (v : V) :
  lookup d k = Some v -> In (k, v) d.
Proof.
  induction d as [|[k' v'] d IH]; cbn [lookup]; [discriminate|].
  destruct (String.eqb_spec k' k) as [->|Hne].
  - intros [= ->]. now left.
  - intro H. right. now apply IH.
Qed.

Lemma ARCHETYPE_DATA_distinct : NoDup (keys Annual.ARCHETYPE_DATA).
Proof.
  cbn. repeat constructor; cbn; intuition discriminate.
Qed.

Lemma ARCHETYPE_DATA_earning (a : string) (data : Annual.archetype_data) :
  lookup Annual.ARCHETYPE_DATA a = Some data -> earning data.
Proof.
  intro Hl. apply lookup_In in Hl.
  repeat (destruct Hl as [[= <- <-]|Hl];
          [unfold earning; cbn; repeat split; lra|]).
  destruct Hl.
Qed.

Lemma Forall2_impl_In {A B : Type} (R R' : A -> B -> Prop) (l : list A)
      (l' : list B) :
  (forall x y, In x l -> R x y -> R' x y) ->
  Forall2 R l l' -> Forall2 R' l l'.
Proof.
  intros Himpl H. induction H as [|x y l l' Hxy H IH]; constructor.
  - apply Himpl; [now left | exact Hxy].
  - apply IH. intros x' y' Hin. apply Himpl. now right.
Qed.

Lemma Forall2_map_l {A B C : Type} (R : B -> C -> Prop) (g : A -> B)
      (l : list A) (l' : list C) :
  Forall2 R (map g l) l' -> Forall2 (fun x y => R (g x) y) l l'.
Proof.
  revert l'. induction l as [|x l IH]; intros l' H; cbn [map] in H.
  - inversion H. constructor.
  - inversion H as [|? y ? l'' Hxy Hrest]; subst.
    constructor; [exact Hxy | now apply IH].
Qed.

Lemma active_sliders {V : Type} (table : dict V) (slider : string -> Z) :
  active (map (fun item => (fst item, slider (fst item))) table) =
  map (fun item => (fst item, slider (fst item)))
      (filter (fun item => (slider (fst item) >? 0)%Z) table).
Proof.
  unfold active. induction table as [|[a d] rest IH]; cbn [map filter fst snd].
  - reflexivity.
  - destruct (slider a >? 0)%Z; cbn [map fst]; now rewrite IH.
Qed.

Lemma sum_of_rows {A B : Type} (f : A -> Q) (g : B -> Q) (l : list A)
      (rows : list B) :
  Forall2 (fun x row => g row == f x) l rows ->
  sum (map g rows) == sum (map f l).
Proof.
  intro H. induction H as [|x row l rows Hx H IH]; cbn [map].
  - reflexivity.
  - rewrite !sum_cons, IH, Hx. reflexivity.
Qed.

Lemma sum_of_shares {B : Type} (share part : B -> Q) (whole : Q)
      (rows : list B) :
  ~ whole == 0 ->
  Forall (fun row => share row == part row / whole * 100) rows ->
  sum (map share rows) == sum (map part rows) / whole * 100.
Proof.
  intros Hne H. induction H as [|row rows Hrow H IH]; cbn [map].
  - rewrite sum_nil. field. exact Hne.
  - rewrite !sum_cons, IH, Hrow. field. exact Hne.
Qed.

Section MainTheorems.

Import Annual.

Variable table : dict archetype_data.
Variable slider : string -> Z.
Hypothesis table_distinct : NoDup (keys table).
Hypothesis table_earning :
  forall a data, lookup table a = Some data -> earning data.

Lemma sliders_values :
  values (seller_counts_of_sliders table slider) = map slider (keys table).
Proof.
  rewrite seller_counts_of_sliders_eq by exact table_distinct.
  unfold values, keys. rewrite !map_map. reflexivity.
Qed.

Lemma main_shown (d : dashboard) :
  main table slider = Ok (Some d) ->
  (0 < sum_int (values (seller_counts_of_sliders table slider)))%Z.
Proof.
  intro Hrun.
  destruct (Z.lt_ge_cases
              0 (sum_int (values (seller_counts_of_sliders table slider))))
    as [H|H]; [exact H|].
  rewrite main_idle in Hrun by lia. discriminate.
Qed.

(** What [main] shows, in terms of the table and the sliders alone. *)
Lemma main_rows (d : dashboard) :
  main table slider = Ok (Some d) ->
  0 < dashboard_total_impact d /\
  dashboard_yearly_average d * 5 == dashboard_total_impact d /\
  dashboard_per_seller d * inject_Z (sum_int (map slider (keys table))) ==
  dashboard_total_impact d /\
  (2025 <= dashboard_best_year d < 2030)%Z /\
  sum (map row_total (dashboard_analysis_data d)) ==
  dashboard_total_impact d /\
  Forall (fun row =>
            row_share row ==
            row_total row / dashboard_total_impact d * 100)
         (dashboard_analysis_data d) /\
  Forall2
    (fun (item : string * archetype_data) row =>
       row_name row = name (snd item) /\
       row_count row = slider (fst item) /\
       row_per_seller row == value_per_seller (snd item) /\
       row_total row ==
       inject_Z (slider (fst item)) * value_per_seller (snd item))
    (filter (fun item => (slider (fst item) >? 0)%Z) table)
    (dashboard_analysis_data d).
Proof.
  intro Hrun. pose proof (main_shown d Hrun) as Hpos.
  destruct (main_spec table slider table_distinct table_earning Hpos)
    as (t & y & c & average & per_seller & best & rows & _ & Hmain & Ht &
        Havg & Hper & Hbest & Hsum & Hshare & Hrows).
  rewrite Hmain in Hrun. apply Ok_inj in Hrun. injection Hrun as <-.
  cbn [dashboard_total_impact dashboard_yearly_average dashboard_per_seller
       dashboard_best_year dashboard_analysis_data].
  rewrite sliders_values in Hper.
  split; [exact Ht|]. split; [exact Havg|]. split; [exact Hper|].
  split; [exact Hbest|]. split; [exact Hsum|]. split; [exact Hshare|].
  rewrite seller_counts_of_sliders_eq, active_sliders in Hrows
    by exact table_distinct.
  apply Forall2_map_l in Hrows.
  eapply Forall2_impl_In; [|exact Hrows].
  intros [a data] row Hin (Hcount & Hdata). cbn [fst snd] in *.
  apply filter_In in Hin. destruct Hin as [Hin _].
  destruct (Hdata data) as (Hname & Hval & Htotal).
  { now apply lookup_NoDup. }
  now repeat split.
Qed.

End MainTheorems.

Lemma main_returns (table : dict Annual.archetype_data)
      (slider : string -> Z) :
  NoDup (keys table) ->
  (forall a data, lookup table a = Some data -> earning data) ->
  (0 < sum_int (map slider (keys table)))%Z ->
  exists d, Annual.main table slider = Ok (Some d).
Proof.
  intros Hnd Hearn Hpos. rewrite <- sliders_values in Hpos by exact Hnd.
  destruct (main_spec table slider Hnd Hearn Hpos)
    as (t & y & c & average & per_seller & best & rows & _ & Hmain & _).
  eexists. exact Hmain.
Qed.



Section MainFigures.

Import Annual.

Variable table : dict archetype_data.
Variable slider : string -> Z.
Hypothesis table_distinct : NoDup (keys table).
Hypothesis table_earning :
  forall a data,
    lookup table a = Some data -> earning data /\ powers_fit data = true.
Hypothesis slider_range : forall a, (0 <= slider a <= 1000)%Z.



End MainFigures.



(** X20.  When [main] shows the analysis table, the totals of its rows add up
    to the headline total and the shares of its rows add up to 100. *)
Theorem analysis_shares_add_up_to_100
        (table : dict Annual.archetype_data) (slider : string -> Z)
        (d : Annual.dashboard) :
  NoDup (keys table) ->
  (forall a data, lookup table a = Some data -> earning data) ->
  Annual.main table slider = Ok (Some d) ->
  sum (map Annual.row_total (Annual.dashboard_analysis_data d)) ==
  Annual.dashboard_total_impact d /\
  sum (map Annual.row_share (Annual.dashboard_analysis_data d)) == 100.
Proof.
  intros Hnd Hearn Hrun.
  destruct (main_rows table slider Hnd Hearn d Hrun)
    as (Ht & _ & _ & _ & Hsum & Hshare & _).
  assert (Hne : ~ Annual.dashboard_total_impact d == 0) by lra.
  split; [exact Hsum|].
  rewrite (sum_of_shares _ _ _ _ Hne Hshare), Hsum. field. exact Hne.
Qed.

Lemma analysis_shares_add_up_to_100_witness :
  exists d,
    Annual.main Annual.ARCHETYPE_DATA (fun _ => 10%Z) = Ok (Some d) /\
    sum (map Annual.row_total (Annual.dashboard_analysis_data d)) ==
    Annual.dashboard_total_impact d /\
    sum (map Annual.row_share (Annual.dashboard_analysis_data d)) == 100.
Proof.
  destruct (main_returns Annual.ARCHETYPE_DATA (fun _ => 10%Z)
              ARCHETYPE_DATA_distinct ARCHETYPE_DATA_earning eq_refl)
    as (d & E).
  exists d. split; [exact E|].
  exact (analysis_shares_add_up_to_100 Annual.ARCHETYPE_DATA (fun _ => 10%Z)
           d ARCHETYPE_DATA_distinct ARCHETYPE_DATA_earning E).
Defined.

(** X21.  The analysis table of [main] has one row for each archetype of the
    table whose slider is above zero, in the order of the table, under the
    archetype's display name and with the slider's value as its count; the
    value per seller of a row is the five-year value of one seller of that
    archetype, whatever the count. *)
Theorem analysis_rows_follow_the_sliders
        (table : dict Annual.archetype_data) (slider : string -> Z)
        (d : Annual.dashboard) :
  NoDup (keys table) ->
  (forall a data, lookup table a = Some data -> earning data) ->
  Annual.main table slider = Ok (Some d) ->
  Forall2
    (fun (item : string * Annual.archetype_data) row =>
       Annual.row_name row = Annual.name (snd item) /\
       Annual.row_count row = slider (fst item) /\
       Annual.row_per_seller row == value_per_seller (snd item))
    (filter (fun item => (slider (fst item) >? 0)%Z) table)
    (Annual.dashboard_analysis_data d).
Proof.
  intros Hnd Hearn Hrun.
  destruct (main_rows table slider Hnd Hearn d Hrun)
    as (_ & _ & _ & _ & _ & _ & Hrows).
  eapply Forall2_impl; [|exact Hrows].
  intros item row (Hname & Hcount & Hval & _). now repeat split.
Qed.

Lemma analysis_rows_follow_the_sliders_witness :
  exists d,
    Annual.main Annual.ARCHETYPE_DATA (fun _ => 10%Z) = Ok (Some d) /\
    Forall2
      (fun (item : string * Annual.archetype_data) row =>
         Annual.row_name row = Annual.name (snd item) /\
         Annual.row_count row = 10%Z /\
         Annual.row_per_seller row == value_per_seller (snd item))
      (filter (fun item => (10 >? 0)%Z) Annual.ARCHETYPE_DATA)
      (Annual.dashboard_analysis_data d).
Proof.
  destruct (main_returns Annual.ARCHETYPE_DATA (fun _ => 10%Z)
              ARCHETYPE_DATA_distinct ARCHETYPE_DATA_earning eq_refl)
    as (d & E).
  exists d. split; [exact E|].
  exact (analysis_rows_follow_the_sliders Annual.ARCHETYPE_DATA
           (fun _ => 10%Z) d ARCHETYPE_DATA_distinct ARCHETYPE_DATA_earning
           E).
Defined.

(** X22.  The headline figures of [main]: the total is positive and is the
    sum, over the archetypes whose slider is above zero, of the slider's
    value times the five-year value of one seller; the yearly average is a
    fifth of it, the value per seller is the total divided by the sum of all
    sliders, and the best year lies between 2025 and 2029. *)
Theorem headline_figures
        (table : dict Annual.archetype_data) (slider : string -> Z)
        (d : Annual.dashboard) :
  NoDup (keys table) ->
  (forall a data, lookup table a = Some data -> earning data) ->
  Annual.main table slider = Ok (Some d) ->
  0 < Annual.dashboard_total_impact d /\
  Annual.dashboard_total_impact d ==
  sum (map (fun item : string * Annual.archetype_data =>
              inject_Z (slider (fst item)) * value_per_seller (snd item))
           (filter (fun item => (slider (fst item) >? 0)%Z) table)) /\
  Annual.dashboard_yearly_average d * 5 == Annual.dashboard_total_impact d /\
  Annual.dashboard_per_seller d * inject_Z (sum_int (map slider (keys table)))
  == Annual.dashboard_total_impact d /\
  (2025 <= Annual.dashboard_best_year d < 2030)%Z.
Proof.
  intros Hnd Hearn Hrun.
  destruct (main_rows table slider Hnd Hearn d Hrun)
    as (Ht & Havg & Hper & Hbest & Hsum & _ & Hrows).
  split; [exact Ht|]. split; [|now repeat split].
  rewrite <- Hsum. apply sum_of_rows.
  eapply Forall2_impl; [|exact Hrows].
  intros item row (_ & _ & _ & Htotal). exact Htotal.
Qed.

Lemma headline_figures_witness :
  exists d,
    Annual.main Annual.ARCHETYPE_DATA (fun _ => 10%Z) = Ok (Some d) /\
    0 < Annual.dashboard_total_impact d /\
    Annual.dashboard_total_impact d ==
    sum (map (fun item : string * Annual.archetype_data =>
                inject_Z 10 * value_per_seller (snd item))
             (filter (fun item => (10 >? 0)%Z) Annual.ARCHETYPE_DATA)) /\
    Annual.dashboard_yearly_average d * 5 ==
    Annual.dashboard_total_impact d /\
    Annual.dashboard_per_seller d *
    inject_Z (sum_int (map (fun _ : string => 10%Z)
                           (keys Annual.ARCHETYPE_DATA)))
    == Annual.dashboard_total_impact d /\
    (2025 <= Annual.dashboard_best_year d < 2030)%Z.
Proof.
  destruct (main_returns Annual.ARCHETYPE_DATA (fun _ => 10%Z)
              ARCHETYPE_DATA_distinct ARCHETYPE_DATA_earning eq_refl)
    as (d & E).
  exists d. split; [exact E|].
  exact (headline_figures Annual.ARCHETYPE_DATA (fun _ => 10%Z) d
           ARCHETYPE_DATA_distinct ARCHETYPE_DATA_earning E).
Defined.
